(** * VPN post-quantum simulation: a shallow embedding of the simulators

    The development follows the repository's Python modules:

    - [Py]: the fragment of Python the simulators rely on (exceptions,
      true division, the wall clock, the [random] module, [hashlib]);
    - [Tunnel]: [src/vpn_pqc_simulation.py] of the tunnel simulator
      ([TraditionalCrypto], [PostQuantumCrypto], [VPNMetrics], [VPNTunnel],
      [VPNAnalyzer]);
    - [Registry]: the registry based simulator of [vpn_pqc_simulation.py]
      ([CryptoType], [CRYPTO_PARAMS], [VPNSimulator.simulate_key_exchange]);
    - [Frame]: the frame of results and the [VPNAnalyzer] of the same file
      ([calculate_overhead] and the recommendation of [generate_report]);
    - [Summary]: the recommendation of [run_all_simulations.py];
    - [Topology]: [vpn_topology_simulation.py] ([RemoteAccessVPN]).

    The theorems follow the model, grouped by the part they are about.

    Numbers.  Python [int] is [Z].  Python [float] is modelled by the exact
    rationals [Q]: every arithmetic operation of the source is kept, operand
    for operand, but it is computed without rounding.  Float literals such
    as [1.1] or [0.005] denote the decimal fraction that is written.
    An equation between numbers is therefore stated with the operations of
    the source, in the order of the source, so that it also holds of the
    rounded operations; identities that need the algebra of the rationals
    (a regrouped sum, a cancelled factor, a strict order kept by a
    division) are used inside proofs only where the statement proved does
    not depend on them.  Orders between numbers are stated on bounded
    ranges and with margins that rounding does not reach.
    Console output ([print]) is not modelled. *)

From Stdlib Require Import QArith ZArith List String Bool Lia Lqa.
From stdpp Require Import gmap strings pretty.
Import ListNotations.

Open Scope Z_scope.
Open Scope string_scope.
Open Scope Q_scope.

(* ===================================================================== *)
(** ** The Python fragment                                                *)
(* ===================================================================== *)

Module Py.

(** Exceptions the simulators can raise.  [Exception msg] is the plain
    [raise Exception(msg)]; the others are raised by the interpreter or by
    library code ([dict] indexing, [/], [random.sample], [numpy], [pandas],
    [statistics]). *)
Inductive PyError : Type :=
| Exception (msg : string)
| ZeroDivisionError
| KeyError
| IndexError
| ValueError
| OverflowError
| StatisticsError.

Inductive result (A : Type) : Type :=
| Ok (a : A)
| Raise (e : PyError).
Arguments Ok {A} a.
Arguments Raise {A} e.

Definition rbind {A B : Type} (r : result A) (k : A -> result B) : result B :=
  match r with
  | Ok a => k a
  | Raise e => Raise e
  end.

Notation "'let?' x ':=' r 'in' k" := (rbind r (fun x => k))
  (at level 10, x pattern, r at level 200, k at level 200).

Definition is_ok {A : Type} (r : result A) : bool :=
  match r with Ok _ => true | Raise _ => false end.

(** [a / b] on Python numbers: [ZeroDivisionError] when the divisor is zero. *)
Definition truediv (a b : Q) : result Q :=
  if Qeq_bool b 0 then Raise ZeroDivisionError else Ok (a / b).

(** [a < b] on numbers. *)
Definition Qltb (a b : Q) : bool := negb (Qle_bool b a).

(** The builtin [min(a, b)] of two numbers: the first of the smallest. *)
Definition min (a b : Q) : Q := if Qltb b a then b else a.

(** The builtin [sum]. *)
Definition sum (values : list Q) : Q := fold_left Qplus values 0.

(** A [numpy.float64], the number type of [numpy] and of the columns of a
    [pandas] frame: besides the finite values it has the infinities and
    not-a-number, and its division does not raise.  The sign of a zero is
    not kept: a zero divisor counts as positive. *)
Inductive float64 : Type :=
| NaN
| Inf (negative : bool)
| Fin (q : Q).

Definition f64_truediv (a b : float64) : float64 :=
  match a, b with
  | NaN, _ | _, NaN => NaN
  | Inf _, Inf _ => NaN
  | Inf s, Fin y => Inf (xorb s (Qltb y 0))
  | Fin _, Inf _ => Fin 0
  | Fin x, Fin y =>
      if Qeq_bool y 0
      then (if Qeq_bool x 0 then NaN else Inf (Qltb x 0))
      else Fin (x / y)
  end.

Definition f64_sub (a b : float64) : float64 :=
  match a, b with
  | NaN, _ | _, NaN => NaN
  | Inf s, Inf s' => if Bool.eqb s s' then NaN else Inf s
  | Inf s, Fin _ => Inf s
  | Fin _, Inf s => Inf (negb s)
  | Fin x, Fin y => Fin (x - y)
  end.

Definition f64_mul (a b : float64) : float64 :=
  match a, b with
  | NaN, _ | _, NaN => NaN
  | Inf s, Inf s' => Inf (xorb s s')
  | Inf s, Fin y | Fin y, Inf s =>
      if Qeq_bool y 0 then NaN else Inf (xorb s (Qltb y 0))
  | Fin x, Fin y => Fin (x * y)
  end.

(** [a < b]; false as soon as one side is not a number. *)
Definition f64_ltb (a b : float64) : bool :=
  match a, b with
  | NaN, _ | _, NaN => false
  | Inf s, Inf s' => s && negb s'
  | Inf s, Fin _ => s
  | Fin _, Inf s => negb s
  | Fin x, Fin y => Qltb x y
  end.

Definition f64_isnan (a : float64) : bool :=
  match a with NaN => true | _ => false end.

(** The mean of a column of finite numbers ([Series.mean], [numpy.mean]):
    not-a-number for an empty column, and no exception. *)
Definition nanmean (values : list Q) : float64 :=
  match values with
  | [] => NaN
  | _ => Fin (sum values / inject_Z (Z.of_nat (length values)))
  end.

(** The outside world of a run: what successive calls of [time.time()],
    [datetime.now().isoformat()], [random.random()] and [random.randint]
    return, the digest function of [hashlib.sha256(..).hexdigest()], and how
    many calls of each kind have been made so far. *)
Record World : Type := mkWorld {
  clock : nat -> Q;
  calendar : nat -> string;
  rng : nat -> Q;
  rng_int : nat -> Z -> Z -> Z;
  sha256_hex : string -> string;
  clock_reads : nat;
  calendar_reads : nat;
  rng_draws : nat
}.

(** Simulated code threads the world through every call. *)
Definition Sim (A : Type) : Type := World -> A * World.

Definition ret {A : Type} (a : A) : Sim A := fun w => (a, w).

Definition bind {A B : Type} (m : Sim A) (k : A -> Sim B) : Sim B :=
  fun w => let (a, w') := m w in k a w'.

Notation "'let*' x ':=' m 'in' k" := (bind m (fun x => k))
  (at level 10, x pattern, m at level 200, k at level 200).

Definition time_time : Sim Q := fun w =>
  (clock w (clock_reads w),
   mkWorld (clock w) (calendar w) (rng w) (rng_int w) (sha256_hex w)
           (S (clock_reads w)) (calendar_reads w) (rng_draws w)).

Definition datetime_now_isoformat : Sim string := fun w =>
  (calendar w (calendar_reads w),
   mkWorld (clock w) (calendar w) (rng w) (rng_int w) (sha256_hex w)
           (clock_reads w) (S (calendar_reads w)) (rng_draws w)).

Definition random_random : Sim Q := fun w =>
  (rng w (rng_draws w),
   mkWorld (clock w) (calendar w) (rng w) (rng_int w) (sha256_hex w)
           (clock_reads w) (calendar_reads w) (S (rng_draws w))).

(** [random.uniform(a, b)] is [a + (b - a) * random()]. *)
Definition random_uniform (a b : Q) : Sim Q :=
  let* u := random_random in ret (a + (b - a) * u).

Definition random_randint (a b : Z) : Sim Z := fun w =>
  (rng_int w (rng_draws w) a b,
   mkWorld (clock w) (calendar w) (rng w) (rng_int w) (sha256_hex w)
           (clock_reads w) (calendar_reads w) (S (rng_draws w))).

(** Simulated code that may raise: the exception ends the computation and
    leaves the world as it was when it was raised. *)
Definition bindR {A B : Type} (m : Sim (result A))
    (k : A -> Sim (result B)) : Sim (result B) :=
  fun w => match m w with
           | (Ok a, w') => k a w'
           | (Raise e, w') => (Raise e, w')
           end.

Notation "'let!' x ':=' m 'in' k" := (bindR m (fun x => k))
  (at level 10, x pattern, m at level 200, k at level 200).

(** A computation that does not raise, in code that may. *)
Definition lift {A : Type} (m : Sim A) : Sim (result A) :=
  let* a := m in ret (Ok a).

(** What [time.sleep(secs)] makes of its argument before it sleeps: the
    length is converted to a signed 64-bit count of nanoseconds, and a
    length that does not fit raises [OverflowError]; a negative length
    raises [ValueError]. *)
Definition sleep_outcome (secs : Q) : result unit :=
  let ns := secs * 1000000000 in
  if Qltb ns (-9223372036854775808) || Qle_bool 9223372036854775808 ns
  then Raise OverflowError
  else if Qltb secs 0 then Raise ValueError
  else Ok tt.

(** [time.sleep(secs)]: a length it accepts only lets wall-clock time pass;
    the later readings of the clock are the world's. *)
Definition time_sleep (secs : Q) : Sim (result unit) :=
  ret (sleep_outcome secs).

(** A method of an object with attributes [S]: it may assign to the
    attributes of [self], and it returns or raises.  What was assigned
    before an exception stays assigned. *)
Definition Method (S A : Type) : Type := S -> Sim (S * result A).

Definition mret {S A : Type} (a : A) : Method S A :=
  fun self => ret (self, Ok a).

Definition raise {S A : Type} (e : PyError) : Method S A :=
  fun self => ret (self, Raise e).

Definition mbind {S A B : Type} (m : Method S A) (k : A -> Method S B)
  : Method S B :=
  fun self w => match m self w with
                | (self', Ok a, w') => k a self' w'
                | (self', Raise e, w') => (self', Raise e, w')
                end.

Notation "'let@' x ':=' m 'in' k" := (mbind m (fun x => k))
  (at level 10, x pattern, m at level 200, k at level 200).

(** A call of a function that may raise, and of one that does not. *)
Definition call {S A : Type} (m : Sim (result A)) : Method S A :=
  fun self w => let (r, w') := m w in (self, r, w').

Definition perform {S A : Type} (m : Sim A) : Method S A :=
  fun self w => let (a, w') := m w in (self, Ok a, w').

(** [self.f] and [self.f = ...]. *)
Definition attribute {S A : Type} (f : S -> A) : Method S A :=
  fun self => ret (self, Ok (f self)).

Definition assign {S : Type} (f : S -> S) : Method S unit :=
  fun self => ret (f self, Ok tt).

(** [obj.m()] for a local object [obj] that is not used afterwards. *)
Definition invoke {S S' A : Type} (obj : S') (m : Method S' A) : Method S A :=
  fun self w => let '(_, r, w') := m obj w in (self, r, w').

(** [hashlib.sha256(s.encode()).hexdigest()] *)
Definition sha256_hexdigest (s : string) : Sim string :=
  fun w => (sha256_hex w s, w).

(** [f"{n}"] for an [int]. *)
Definition str_int (n : Z) : string := pretty n.

(** [f"{x}"] for a value that is a string or [None]. *)
Definition str_opt (x : option string) : string :=
  match x with Some s => s | None => "None" end.

End Py.
Import Py.

(* ===================================================================== *)
(** ** The tunnel simulator                                               *)
(* ===================================================================== *)

Module Tunnel.

(** *** class TraditionalCrypto *)
Module TraditionalCrypto.

Definition key_generation (key_size : Z)
  : Sim (result (string * string * Q * Z)) :=
  let* start := time_time in
  let* d := random_uniform 0.05 0.1 in
  let! _ := time_sleep d in
  let* n1 := random_randint 1 1000000 in
  let* private_key := sha256_hexdigest ("private_" ++ str_int n1) in
  let* n2 := random_randint 1 1000000 in
  let* public_key := sha256_hexdigest ("public_" ++ str_int n2) in
  let* now := time_time in
  let elapsed := now - start in
  ret (Ok (private_key, public_key, elapsed, (key_size / 8)%Z)).

Definition key_exchange (public_key : string)
  : Sim (result (string * Q * Z)) :=
  let* start := time_time in
  let* d := random_uniform 0.02 0.04 in
  let! _ := time_sleep d in
  let* n := random_randint 1 1000000 in
  let* shared_secret :=
    sha256_hexdigest ("shared_" ++ public_key ++ "_" ++ str_int n) in
  let* now := time_time in
  let elapsed := now - start in
  ret (Ok (shared_secret, elapsed, 32%Z)).

Definition encrypt_data (data : string) (key : option string) (size_kb : Z)
  : Sim (result (string * Q)) :=
  let* start := time_time in
  let* u := random_uniform 0.005 0.01 in
  let! _ := time_sleep ((inject_Z size_kb / 1024) * u) in
  let* n := random_randint 1 1000000 in
  let* ciphertext := sha256_hexdigest (data ++ str_opt key ++ str_int n) in
  let* now := time_time in
  let elapsed := now - start in
  ret (Ok (ciphertext, elapsed)).

End TraditionalCrypto.

(** *** class PostQuantumCrypto *)
Module PostQuantumCrypto.

Definition kyber_keygen (level : Z)
  : Sim (result (string * string * Q * Z)) :=
  let* start := time_time in
  let* d := random_uniform 0.0005 0.002 in
  let! _ := time_sleep d in
  let pk_size := 1184%Z in
  let sk_size := 2400%Z in
  let* n1 := random_randint 1 1000000 in
  let* private_key := sha256_hexdigest ("kyber_sk_" ++ str_int n1) in
  let* n2 := random_randint 1 1000000 in
  let* public_key := sha256_hexdigest ("kyber_pk_" ++ str_int n2) in
  let* now := time_time in
  let elapsed := now - start in
  ret (Ok (private_key, public_key, elapsed, (pk_size + sk_size)%Z)).

Definition kyber_encapsulate (public_key : string)
  : Sim (result (string * Q * Z)) :=
  let* start := time_time in
  let* d := random_uniform 0.0005 0.002 in
  let! _ := time_sleep d in
  let* n := random_randint 1 1000000 in
  let* shared_secret :=
    sha256_hexdigest ("kyber_shared_" ++ public_key ++ "_" ++ str_int n) in
  let ciphertext_size := 1088%Z in
  let* now := time_time in
  let elapsed := now - start in
  ret (Ok (shared_secret, elapsed, ciphertext_size)).

Definition kyber_decapsulate (ciphertext private_key : string)
  : Sim (result (string * Q)) :=
  let* start := time_time in
  let* d := random_uniform 0.0005 0.002 in
  let! _ := time_sleep d in
  let* shared_secret :=
    sha256_hexdigest ("kyber_decap_" ++ ciphertext ++ private_key) in
  let* now := time_time in
  let elapsed := now - start in
  ret (Ok (shared_secret, elapsed)).

Definition dilithium_sign (data private_key : string)
  : Sim (result (string * Q * Z)) :=
  let* start := time_time in
  let* d := random_uniform 0.005 0.015 in
  let! _ := time_sleep d in
  let* signature :=
    sha256_hexdigest ("dilithium_sig_" ++ data ++ private_key) in
  let signature_size := 3293%Z in
  let* now := time_time in
  let elapsed := now - start in
  ret (Ok (signature, elapsed, signature_size)).

Definition dilithium_verify (data signature public_key : string)
  : Sim (result (bool * Q)) :=
  let* start := time_time in
  let* d := random_uniform 0.002 0.005 in
  let! _ := time_sleep d in
  let valid := true in
  let* now := time_time in
  let elapsed := now - start in
  ret (Ok (valid, elapsed)).

End PostQuantumCrypto.

(** *** dataclass VPNMetrics *)
Record VPNMetrics : Type := mkVPNMetrics {
  timestamp : string;
  vpn_type : string;
  keygen_time : Q;
  key_exchange_time : Q;
  handshake_total_time : Q;
  encryption_time : Q;
  decryption_time : Q;
  key_size : Z;
  ciphertext_size : Z;
  signature_size : Z;
  latency_ms : Q;
  throughput_mbps : Q;
  packet_loss_percent : Q;
  cpu_usage_percent : Q;
  memory_mb : Z
}.

(** *** class VPNTunnel

    The attribute [crypto] holds an instance of a class that has static
    methods only; the handshakes call the classes directly, so it is left
    out of the object. *)
Record VPNTunnel : Type := mkVPNTunnel {
  tunnel_type : string;
  packet_size_kb : Z;
  established : bool;
  shared_secret : option string
}.

(** [VPNTunnel.__init__] *)
Definition VPNTunnel_init (tunnel_type : string) (packet_size_kb : Z)
  : VPNTunnel :=
  mkVPNTunnel tunnel_type packet_size_kb false None.

(** The elapsed times the handshake measured, phase by phase, in the order
    of execution; [None] for a phase the family does not have. *)
Record PhaseTimes : Type := mkPhaseTimes {
  ph_keygen : Q;
  ph_exchange : Q;
  ph_decapsulate : option Q;
  ph_sign : option Q;
  ph_verify : option Q;
  ph_encrypt_test : Q
}.

(** [self.shared_secret = ...] and [self.established = ...] *)
Definition set_shared_secret (secret : option string) (self : VPNTunnel)
  : VPNTunnel :=
  mkVPNTunnel (tunnel_type self) (packet_size_kb self) (established self)
              secret.

Definition set_established (value : bool) (self : VPNTunnel) : VPNTunnel :=
  mkVPNTunnel (tunnel_type self) (packet_size_kb self) value
              (shared_secret self).

(** [VPNTunnel._establish_traditional]: the record it returns, and next to
    it the phase times it measured. *)
Definition _establish_traditional
  : Method VPNTunnel (VPNMetrics * PhaseTimes) :=
  let@ (sk, pk, keygen_time, key_size) :=
    call (TraditionalCrypto.key_generation 2048) in
  let@ (secret, kex_time, secret_size) :=
    call (TraditionalCrypto.key_exchange pk) in
  let@ _ := assign (set_shared_secret (Some secret)) in
  let handshake_total := keygen_time + kex_time in
  let data := "test_data" in
  let@ key := attribute shared_secret in
  let@ size := attribute packet_size_kb in
  let@ (_, enc_time) := call (TraditionalCrypto.encrypt_data data key size) in
  let@ base_latency := perform (random_uniform 10 20) in
  let@ overhead_latency := perform (random_uniform 2 5) in
  let total_latency := base_latency + overhead_latency in
  let@ throughput := perform (random_uniform 80 100) in
  let@ packet_loss := perform (random_uniform 0.1 0.5) in
  let@ cpu_usage := perform (random_uniform 15 25) in
  let@ memory_mb := perform (random_randint 50 80) in
  let@ _ := assign (set_established true) in
  let@ stamp := perform datetime_now_isoformat in
  let@ size := attribute packet_size_kb in
  mret (mkVPNMetrics stamp "Traditional" keygen_time kex_time handshake_total
                     enc_time (enc_time * 1.1) key_size
                     (size * 1024)%Z 256%Z
                     total_latency throughput packet_loss cpu_usage memory_mb,
        mkPhaseTimes keygen_time kex_time None None None enc_time).

(** [VPNTunnel._establish_postquantum] *)
Definition _establish_postquantum
  : Method VPNTunnel (VPNMetrics * PhaseTimes) :=
  let@ (sk, pk, keygen_time, key_size) :=
    call (PostQuantumCrypto.kyber_keygen 3) in
  let@ (secret, encap_time, ct_size) :=
    call (PostQuantumCrypto.kyber_encapsulate pk) in
  let@ _ := assign (set_shared_secret (Some secret)) in
  let@ (_, decap_time) := call (PostQuantumCrypto.kyber_decapsulate "ct" sk) in
  let@ (_, sign_time, sig_size) :=
    call (PostQuantumCrypto.dilithium_sign "handshake_data" sk) in
  let@ (_, verify_time) :=
    call (PostQuantumCrypto.dilithium_verify "handshake_data" "sig" pk) in
  let handshake_total :=
    keygen_time + encap_time + decap_time + sign_time + verify_time in
  let data := "test_data" in
  let@ key := attribute shared_secret in
  let@ size := attribute packet_size_kb in
  let@ (_, enc_time) := call (TraditionalCrypto.encrypt_data data key size) in
  let@ base_latency := perform (random_uniform 10 20) in
  let@ overhead_latency := perform (random_uniform 5 12) in
  let total_latency := base_latency + overhead_latency in
  let@ throughput := perform (random_uniform 65 85) in
  let@ packet_loss := perform (random_uniform 0.2 0.8) in
  let@ cpu_usage := perform (random_uniform 25 40) in
  let@ memory_mb := perform (random_randint 80 120) in
  let@ _ := assign (set_established true) in
  let@ stamp := perform datetime_now_isoformat in
  mret (mkVPNMetrics stamp "PostQuantum" keygen_time (encap_time + decap_time)
                     handshake_total enc_time (enc_time * 1.1) key_size
                     ct_size sig_size
                     total_latency throughput packet_loss cpu_usage memory_mb,
        mkPhaseTimes keygen_time encap_time (Some decap_time) (Some sign_time)
                     (Some verify_time) enc_time).

(** The body of [VPNTunnel.establish_tunnel], with the phase times the
    handshake measured in its local variables next to what it returns. *)
Definition establish_tunnel_phases
  : Method VPNTunnel (VPNMetrics * PhaseTimes) :=
  let@ timestamp := perform datetime_now_isoformat in
  let@ kind := attribute tunnel_type in
  if String.eqb kind "Traditional"
  then _establish_traditional
  else _establish_postquantum.

(** [VPNTunnel.establish_tunnel] *)
Definition establish_tunnel : Method VPNTunnel VPNMetrics :=
  let@ (m, _) := establish_tunnel_phases in mret m.

(** The dictionary [send_data] returns. *)
Record SendReport : Type := mkSendReport {
  size_kb : Z;
  encryption_time_ms : Q;
  total_time_ms : Q
}.

(** [VPNTunnel.send_data] *)
Definition send_data (size_kb : Z) : Method VPNTunnel SendReport :=
  let@ ready := attribute established in
  if negb ready
  then raise (Exception
         "Túnel no establecido. Llamar a establish_tunnel() primero.")
  else
    let@ start := perform time_time in
    let@ key := attribute shared_secret in
    let@ (_, enc_time) :=
      call (TraditionalCrypto.encrypt_data "data_packet" key size_kb) in
    let@ now := perform time_time in
    let elapsed := now - start in
    mret (mkSendReport size_kb (enc_time * 1000) (elapsed * 1000)).

(** *** class VPNAnalyzer *)

(** The numeric attributes of a [VPNMetrics] record, the values [field]
    takes in [getattr(m, field)]. *)
Inductive NumericField : Type :=
| F_keygen_time | F_key_exchange_time | F_handshake_total_time
| F_encryption_time | F_decryption_time
| F_key_size | F_ciphertext_size | F_signature_size
| F_latency_ms | F_throughput_mbps | F_packet_loss_percent
| F_cpu_usage_percent | F_memory_mb.

Definition getattr (m : VPNMetrics) (field : NumericField) : Q :=
  match field with
  | F_keygen_time => keygen_time m
  | F_key_exchange_time => key_exchange_time m
  | F_handshake_total_time => handshake_total_time m
  | F_encryption_time => encryption_time m
  | F_decryption_time => decryption_time m
  | F_key_size => inject_Z (key_size m)
  | F_ciphertext_size => inject_Z (ciphertext_size m)
  | F_signature_size => inject_Z (signature_size m)
  | F_latency_ms => latency_ms m
  | F_throughput_mbps => throughput_mbps m
  | F_packet_loss_percent => packet_loss_percent m
  | F_cpu_usage_percent => cpu_usage_percent m
  | F_memory_mb => inject_Z (memory_mb m)
  end.

(** [VPNAnalyzer.add_metric]: [self.metrics.append(metric)] *)
Definition add_metric (metrics : list VPNMetrics) (metric : VPNMetrics)
  : list VPNMetrics :=
  metrics ++ [metric].

(** The body of the loop of [VPNAnalyzer.run_simulation], [n] times; the
    attribute of the analyzer is its list [metrics]. *)
Fixpoint run_iterations (n : nat) (packet_size_kb : Z)
  : Method (list VPNMetrics) unit :=
  match n with
  | O => mret tt
  | S n' =>
      let traditional := VPNTunnel_init "Traditional" packet_size_kb in
      let@ metric_trad := invoke traditional establish_tunnel in
      let@ _ := assign (fun metrics => add_metric metrics metric_trad) in
      let@ _ := call (time_sleep 0.5) in
      let pqc := VPNTunnel_init "PostQuantum" packet_size_kb in
      let@ metric_pqc := invoke pqc establish_tunnel in
      let@ _ := assign (fun metrics => add_metric metrics metric_pqc) in
      let@ _ := call (time_sleep 0.5) in
      run_iterations n' packet_size_kb
  end.

(** [VPNAnalyzer.run_simulation]; [range(iterations)] is empty for a
    negative count. *)
Definition run_simulation (iterations : Z) (packet_size_kb : Z)
  : Method (list VPNMetrics) unit :=
  run_iterations (Z.to_nat iterations) packet_size_kb.

(** [statistics.mean]: the exact mean; no data is an error. *)
Definition statistics_mean (values : list Q) : result Q :=
  match values with
  | [] => Raise StatisticsError
  | _ => Ok (sum values / inject_Z (Z.of_nat (length values)))
  end.

Section Stdev.

(** [math.sqrt], which the rationals do not have, is left open. *)
Variable sqrt : Q -> Q.

(** [statistics.stdev]: the square root of the sample variance; fewer than
    two data points are an error. *)
Definition statistics_stdev (values : list Q) : result Q :=
  if (length values <? 2)%nat then Raise StatisticsError
  else
    let n := inject_Z (Z.of_nat (length values)) in
    let mean := sum values / n in
    let ss := sum (map (fun x => (x - mean) * (x - mean)) values) in
    Ok (sqrt (ss / (n - 1))).

(** The local helper [stdev] of [generate_report]. *)
Definition stdev (metrics : list VPNMetrics) (field : NumericField)
  : result Q :=
  let values := map (fun m => getattr m field) metrics in
  if (1 <? length values)%nat then statistics_stdev values else Ok 0.

End Stdev.

(** The local helper [avg] of [generate_report]. *)
Definition avg (metrics : list VPNMetrics) (field : NumericField)
  : result Q :=
  let values := map (fun m => getattr m field) metrics in
  match values with
  | [] => Ok 0
  | _ => statistics_mean values
  end.

(** The entries [report['traditional']] and [report['postquantum']]. *)
Record FamilyStats : Type := mkFamilyStats {
  avg_handshake_ms : Q;
  avg_latency_ms : Q;
  avg_throughput_mbps : Q;
  avg_cpu_percent : Q;
  avg_memory_mb : Q;
  avg_key_size_bytes : Q
}.

(** The entry [report['overhead_analysis']]. *)
Record OverheadAnalysis : Type := mkOverheadAnalysis {
  handshake_overhead_percent : Q;
  latency_overhead_percent : Q;
  throughput_degradation_percent : Q;
  cpu_overhead_percent : Q;
  memory_overhead_percent : Q;
  key_size_increase_percent : Q
}.

Record Report : Type := mkReport {
  report_timestamp : string;
  total_simulations : nat;
  traditional : FamilyStats;
  postquantum : FamilyStats;
  overhead_analysis : OverheadAnalysis
}.

(** One family's dictionary of averages. *)
Definition family_stats (metrics : list VPNMetrics) : result FamilyStats :=
  let? handshake := avg metrics F_handshake_total_time in
  let? latency := avg metrics F_latency_ms in
  let? throughput := avg metrics F_throughput_mbps in
  let? cpu := avg metrics F_cpu_usage_percent in
  let? memory := avg metrics F_memory_mb in
  let? key := avg metrics F_key_size in
  Ok (mkFamilyStats (handshake * 1000) latency throughput cpu memory key).

Definition traditional_metrics (metrics : list VPNMetrics)
  : list VPNMetrics :=
  List.filter (fun m => String.eqb (vpn_type m) "Traditional") metrics.

Definition pqc_metrics (metrics : list VPNMetrics) : list VPNMetrics :=
  List.filter (fun m => String.eqb (vpn_type m) "PostQuantum") metrics.

(** The first statement of [generate_report] after the helpers: the
    per-family averages of the report. *)
Definition family_averages (metrics : list VPNMetrics)
  : result (FamilyStats * FamilyStats) :=
  let? trad := family_stats (traditional_metrics metrics) in
  let? pqc := family_stats (pqc_metrics metrics) in
  Ok (trad, pqc).

(** The second statement: [report['overhead_analysis'] = {...}]; the entries
    are evaluated in the order they are written. *)
Definition overhead_of (trad pqc : FamilyStats) : result OverheadAnalysis :=
  let? handshake := truediv (avg_handshake_ms pqc) (avg_handshake_ms trad) in
  let? latency := truediv (avg_latency_ms pqc) (avg_latency_ms trad) in
  let? throughput :=
    truediv (avg_throughput_mbps trad) (avg_throughput_mbps pqc) in
  let? cpu := truediv (avg_cpu_percent pqc) (avg_cpu_percent trad) in
  let? memory := truediv (avg_memory_mb pqc) (avg_memory_mb trad) in
  let? key := truediv (avg_key_size_bytes pqc) (avg_key_size_bytes trad) in
  Ok (mkOverheadAnalysis ((handshake - 1) * 100) ((latency - 1) * 100)
                         ((throughput - 1) * 100) ((cpu - 1) * 100)
                         ((memory - 1) * 100) ((key - 1) * 100)).

(** [VPNAnalyzer.generate_report] *)
Definition generate_report (metrics : list VPNMetrics)
  : Sim (result Report) :=
  let* stamp := datetime_now_isoformat in
  ret (let? (trad, pqc) := family_averages metrics in
       let? overhead := overhead_of trad pqc in
       Ok (mkReport stamp (length metrics) trad pqc overhead)).

End Tunnel.

(* ===================================================================== *)
(** ** The registry based simulator and its analyzer                      *)
(* ===================================================================== *)

Module Registry.

(** *** enum CryptoType *)
Inductive CryptoType : Type :=
| RSA_2048 | RSA_3072 | ECC_P256
| KYBER_512 | KYBER_768 | KYBER_1024
| DILITHIUM_2 | DILITHIUM_3.

(** [crypto_type.value] *)
Definition value (c : CryptoType) : string :=
  match c with
  | RSA_2048 => "RSA-2048"
  | RSA_3072 => "RSA-3072"
  | ECC_P256 => "ECC-P256"
  | KYBER_512 => "Kyber-512"
  | KYBER_768 => "Kyber-768"
  | KYBER_1024 => "Kyber-1024"
  | DILITHIUM_2 => "Dilithium-2"
  | DILITHIUM_3 => "Dilithium-3"
  end.

(** The members in the order of definition, as [for c in CryptoType]. *)
Definition members : list CryptoType :=
  [RSA_2048; RSA_3072; ECC_P256; KYBER_512; KYBER_768; KYBER_1024;
   DILITHIUM_2; DILITHIUM_3].

#[global] Instance CryptoType_eq_dec : EqDecision CryptoType.
Proof. solve_decision. Defined.

Definition CryptoType_index (c : CryptoType) : nat :=
  match c with
  | RSA_2048 => 0 | RSA_3072 => 1 | ECC_P256 => 2
  | KYBER_512 => 3 | KYBER_768 => 4 | KYBER_1024 => 5
  | DILITHIUM_2 => 6 | DILITHIUM_3 => 7
  end.

#[global] Program Instance CryptoType_countable : Countable CryptoType :=
  inj_countable' CryptoType_index (fun n => nth n members RSA_2048) _.
Next Obligation. intros []; reflexivity. Qed.

(** *** dataclass CryptoParams *)
Record CryptoParams : Type := mkCryptoParams {
  key_size : Z;
  signature_size : Z;
  cpu_cycles : Z;
  quantum_resistant : bool
}.

(** The table [CRYPTO_PARAMS]. *)
Definition CRYPTO_PARAMS : gmap CryptoType CryptoParams :=
  list_to_map
    [ (RSA_2048, mkCryptoParams 256 256 3000000 false);
      (RSA_3072, mkCryptoParams 384 384 8000000 false);
      (ECC_P256, mkCryptoParams 32 64 500000 false);
      (KYBER_512, mkCryptoParams 800 0 60000 true);
      (KYBER_768, mkCryptoParams 1184 0 90000 true);
      (KYBER_1024, mkCryptoParams 1568 0 130000 true);
      (DILITHIUM_2, mkCryptoParams 1312 2420 120000 true);
      (DILITHIUM_3, mkCryptoParams 1952 3293 180000 true) ].

(** [d[k]] on a dictionary: [KeyError] when the key has no entry. *)
Definition getitem {K V : Type} `{Countable K} (d : gmap K V) (k : K)
  : result V :=
  match d !! k with
  | Some v => Ok v
  | None => Raise KeyError
  end.

(** *** class VPNSimulator

    The attribute [results], an empty list nothing reads, is left out. *)
Record VPNSimulator : Type := mkVPNSimulator {
  bandwidth_mbps : Q;
  base_latency_ms : Q;
  cpu_speed_ghz : Q
}.

(** [VPNSimulator.__init__] *)
Definition VPNSimulator_init (bandwidth_mbps base_latency_ms : Q)
  : VPNSimulator :=
  mkVPNSimulator bandwidth_mbps base_latency_ms 2.4.

(** The dictionary [simulate_key_exchange] returns. *)
Record KeyExchange : Type := mkKeyExchange {
  kx_crypto_type : string;
  kx_key_size_bytes : Z;
  kx_key_gen_time_ms : Q;
  kx_transmission_time_ms : Q;
  kx_network_latency_ms : Q;
  kx_retransmissions : Z;
  kx_total_time_ms : Q;
  kx_quantum_resistant : bool
}.

(** The loop [while random.random() < packet_loss and retransmissions < 3].
    The draw is made before the count is looked at; the count ends the loop
    at the fourth test at the latest, so four rounds of fuel suffice. *)
Fixpoint retransmit (fuel : nat) (packet_loss : Q) (retransmissions : Z)
    (transmission_time : Q) : Sim (Z * Q) :=
  match fuel with
  | O => ret (retransmissions, transmission_time)
  | S fuel' =>
      let* u := random_random in
      if Qltb u packet_loss && (retransmissions <? 3)%Z
      then retransmit fuel' packet_loss (retransmissions + 1)%Z
                      (transmission_time * 2)
      else ret (retransmissions, transmission_time)
  end.

(** [VPNSimulator.simulate_key_exchange]: the divisions, the doublings, the
    sum and the conversions to milliseconds of the source, one for one and
    in its order, on exact numbers. *)
Definition simulate_key_exchange (self : VPNSimulator)
    (crypto_type : CryptoType) (packet_loss : Q)
  : Sim (result KeyExchange) :=
  let! params := ret (getitem CRYPTO_PARAMS crypto_type) in
  let! key_gen_time :=
    ret (truediv (inject_Z (cpu_cycles params))
                 (cpu_speed_ghz self * 1000000000)) in
  let! transmission_time :=
    ret (truediv (inject_Z (key_size params * 8))
                 (bandwidth_mbps self * 1000000)) in
  let network_latency := base_latency_ms self / 1000 in
  let* (retransmissions, transmission_time) :=
    retransmit 4 packet_loss 0 transmission_time in
  let total_time := key_gen_time + transmission_time + network_latency in
  ret (Ok (mkKeyExchange (value crypto_type) (key_size params)
             (key_gen_time * 1000) (transmission_time * 1000)
             (network_latency * 1000) retransmissions (total_time * 1000)
             (quantum_resistant params))).

End Registry.

(** *** The frame of results and class VPNAnalyzer of the same file *)
Module Frame.

(** One row of the frame [run_complete_simulation] returns; the fields are
    its columns. *)
Record ResultRow : Type := mkResultRow {
  algorithm : string;
  quantum_resistant : bool;
  key_size_bytes : Z;
  key_exchange_time_ms : Q;
  throughput_mbps : Q;
  encryption_overhead : Q;
  avg_cpu_usage : Q;
  memory_usage_mb : Q
}.

(** A frame: its rows in order, each with its index label. *)
Definition DataFrame : Type := list (nat * ResultRow).

(** [pd.DataFrame(rows)] and [pd.read_csv]: the labels are the positions. *)
Definition from_records (rows : list ResultRow) : DataFrame :=
  combine (seq 0 (length rows)) rows.

(** [df[mask]]: the rows the mask selects, with the labels they had. *)
Definition select (mask : ResultRow -> bool) (df : DataFrame) : DataFrame :=
  List.filter (fun lr => mask (snd lr)) df.

Definition column {A : Type} (col : ResultRow -> A) (df : DataFrame)
  : list (nat * A) :=
  map (fun lr => (fst lr, col (snd lr))) df.

(** [df.loc[label]] on a frame whose labels are distinct. *)
Fixpoint loc (df : DataFrame) (label : nat) : result ResultRow :=
  match df with
  | [] => Raise KeyError
  | (l, row) :: df' => if Nat.eqb l label then Ok row else loc df' label
  end.

(** The scan behind [idxmin] and [idxmax]: the entry kept so far is replaced
    only by one that is strictly better, so of several best entries the
    first one is kept. *)
Fixpoint first_best {A : Type} (better : A -> A -> bool)
    (best : nat * A) (rest : list (nat * A)) : nat * A :=
  match rest with
  | [] => best
  | x :: rest' =>
      first_best better (if better (snd x) (snd best) then x else best) rest'
  end.

(** [Series.idxmax()] on a column of finite numbers: the label of the first
    occurrence of the maximum; an empty column is an error. *)
Definition idxmax (col : list (nat * Q)) : result nat :=
  match col with
  | [] => Raise ValueError
  | x :: rest => Ok (fst (first_best (fun a b => Qltb b a) x rest))
  end.

(** [Series.idxmin()], which skips the entries that are not a number: the
    label of the first occurrence of the minimum of the others; a column
    without any number is an error. *)
Definition idxmin (col : list (nat * float64)) : result nat :=
  match List.filter (fun x => negb (f64_isnan (snd x))) col with
  | [] => Raise ValueError
  | x :: rest => Ok (fst (first_best f64_ltb x rest))
  end.

(** [VPNAnalyzer.__init__] keeps the frame and its two parts. *)
Record VPNAnalyzer : Type := mkVPNAnalyzer {
  results : DataFrame;
  traditional : DataFrame;
  pqc : DataFrame
}.

Definition VPNAnalyzer_init (results_df : DataFrame) : VPNAnalyzer :=
  mkVPNAnalyzer results_df
    (select (fun r => negb (quantum_resistant r)) results_df)
    (select quantum_resistant results_df).

(** One row of the frame [calculate_overhead] returns. *)
Record OverheadRow : Type := mkOverheadRow {
  pqc_algorithm : string;
  key_exchange_overhead : float64;
  throughput_reduction : float64;
  cpu_overhead : float64;
  memory_overhead : float64
}.

(** [self.traditional.mean(numeric_only=True)[col]] *)
Definition trad_avg (self : VPNAnalyzer) (col : ResultRow -> Q) : float64 :=
  nanmean (map (fun lr => col (snd lr)) (traditional self)).

(** The body of the loop of [calculate_overhead]: the overhead of one
    post-quantum row over the traditional averages.  The quotient, the
    difference and the product are exact here, so that the entry of a row
    is strictly monotone in the measure of the row; with rounding two
    nearby measures may share an entry.  Theorems about the frame of the
    program assume of the column what they need ([separated] below) or are
    stated where the order of the entries does not depend on it. *)
Definition overhead_of_row (self : VPNAnalyzer) (pqc_row : ResultRow)
  : OverheadRow :=
  mkOverheadRow
    (algorithm pqc_row)
    (f64_mul (f64_sub (f64_truediv (Fin (key_exchange_time_ms pqc_row))
                                   (trad_avg self key_exchange_time_ms))
                      (Fin 1)) (Fin 100))
    (f64_mul (f64_sub (f64_truediv (trad_avg self throughput_mbps)
                                   (Fin (throughput_mbps pqc_row)))
                      (Fin 1)) (Fin 100))
    (f64_mul (f64_sub (f64_truediv (Fin (avg_cpu_usage pqc_row))
                                   (trad_avg self avg_cpu_usage))
                      (Fin 1)) (Fin 100))
    (f64_mul (f64_sub (f64_truediv (Fin (memory_usage_mb pqc_row))
                                   (trad_avg self memory_usage_mb))
                      (Fin 1)) (Fin 100)).

(** [VPNAnalyzer.calculate_overhead]: one row for each row of [self.pqc], in
    order; the new frame is labelled by position. *)
Definition calculate_overhead (self : VPNAnalyzer) : list OverheadRow :=
  map (fun lr => overhead_of_row self (snd lr)) (pqc self).

(** The recommendation of [VPNAnalyzer.generate_report]:
    [best_pqc_idx = overhead_df['throughput_reduction_%'].idxmin()] and
    [best_pqc = overhead_df.iloc[best_pqc_idx]['pqc_algorithm']].  A frame
    built from no rows has no columns, so selecting the column fails. *)
Definition best_pqc (self : VPNAnalyzer) : result string :=
  let overhead_df := calculate_overhead self in
  match overhead_df with
  | [] => Raise KeyError
  | _ =>
      let? best_pqc_idx :=
        idxmin (combine (seq 0 (length overhead_df))
                        (map throughput_reduction overhead_df)) in
      match nth_error overhead_df best_pqc_idx with
      | Some row => Ok (pqc_algorithm row)
      | None => Raise IndexError
      end
  end.

End Frame.

(* ===================================================================== *)
(** ** The executive summary                                              *)
(* ===================================================================== *)

Module Summary.
Import Frame.

(** The recommendation of [generate_executive_summary], on the frame read
    from the results file: [pqc = df[df['quantum_resistant']]] and
    [best_pqc = pqc.loc[pqc['throughput_mbps'].idxmax()]].  Whatever this
    raises is caught by the [except] around it. *)
Definition best_pqc (rows : list ResultRow) : result ResultRow :=
  let df := from_records rows in
  let pqc := select quantum_resistant df in
  let? label := idxmax (column throughput_mbps pqc) in
  loc pqc label.

End Summary.

(* ===================================================================== *)
(** ** The remote access load model                                       *)
(* ===================================================================== *)

Module Topology.

(** The four strings ['Fiber'], ['Cable'], ['DSL'] and ['4G'] that
    [_generate_user_locations] chooses [connection_type] from. *)
Inductive ConnectionType : Type :=
| Fiber | Cable | DSL | FourG.

(** One entry of [self.user_locations]. *)
Record UserLocation : Type := mkUserLocation {
  user_id : string;
  distance_km : Z;
  connection_type : ConnectionType;
  bandwidth_mbps : Z
}.

Record RemoteAccessVPN : Type := mkRemoteAccessVPN {
  num_users : Z;
  user_locations : list UserLocation
}.

(** [random.choice(seq)] on a list that is not empty. *)
Definition random_choice {A : Type} (first : A) (others : list A) : Sim A :=
  let seq := first :: others in
  let n := Z.of_nat (length seq) in
  let* i := random_randint 0 (n - 1) in
  ret (nth (Z.to_nat (i mod n)) seq first).

(** [f'USER_{i:03d}'] for a count [i]. *)
Definition user_name (i : nat) : string :=
  let digits := str_int (Z.of_nat i) in
  "USER_" ++ (if (i <? 10)%nat then "00"
              else if (i <? 100)%nat then "0" else "") ++ digits.

(** The loop of [_generate_user_locations], from user [i] on. *)
Fixpoint generate_from (i : nat) (count : nat) : Sim (list UserLocation) :=
  match count with
  | O => ret []
  | S count' =>
      let* distance := random_randint 5 1000 in
      let* connection := random_choice Fiber [Cable; DSL; FourG] in
      let* bandwidth := random_choice 10%Z [25; 50; 100; 200]%Z in
      let* rest := generate_from (S i) count' in
      ret (mkUserLocation (user_name i) distance connection bandwidth :: rest)
  end.

Definition _generate_user_locations (num_users : Z)
  : Sim (list UserLocation) :=
  generate_from 0 (Z.to_nat num_users).

(** [RemoteAccessVPN.__init__] *)
Definition RemoteAccessVPN_init (num_users : Z) : Sim RemoteAccessVPN :=
  let* locations := _generate_user_locations num_users in
  ret (mkRemoteAccessVPN num_users locations).

(** The choice of [k] entries of [pool], each at most once. *)
Fixpoint sample_from {A : Type} (k : nat) (pool : list A) : Sim (list A) :=
  match k, pool with
  | O, _ | _, [] => ret []
  | S k', first :: _ =>
      let n := Z.of_nat (length pool) in
      let* i := random_randint 0 (n - 1) in
      let j := Z.to_nat (i mod n) in
      let* rest := sample_from k' (firstn j pool ++ skipn (S j) pool) in
      ret (nth j pool first :: rest)
  end.

(** [random.sample(population, k)]: [ValueError] when [k] is negative or
    larger than the population. *)
Definition random_sample {A : Type} (population : list A) (k : Z)
  : Sim (result (list A)) :=
  if ((k <? 0) || (Z.of_nat (length population) <? k))%Z
  then ret (Raise ValueError)
  else lift (sample_from (Z.to_nat k) population).

(** The dictionary [base_times]. *)
Definition base_times : gmap string Z :=
  list_to_map
    [ ("RSA-2048", 100%Z); ("ECC-P256", 60%Z); ("Kyber-512", 150%Z);
      ("Kyber-768", 200%Z); ("Kyber-1024", 250%Z); ("Dilithium-2", 180%Z);
      ("Dilithium-3", 220%Z) ].

(** [base_times.get(crypto_type, 150)] *)
Definition base_time_of (crypto_type : string) : Z :=
  default 150%Z (base_times !! crypto_type).

(** The dictionary [connection_factors], indexed by the connection type. *)
Definition connection_factors (c : ConnectionType) : Q :=
  match c with
  | Fiber => 1.0
  | Cable => 1.2
  | DSL => 1.5
  | FourG => 1.8
  end.

(** [min(0.3, concurrent_users / 500)] *)
Definition failure_probability (concurrent_users : Z) : Q :=
  min 0.3 (inject_Z concurrent_users / 500).

(** The connection time of a user before the outcome of the attempt. *)
Definition connection_time_of (base_time : Z) (user : UserLocation) : Q :=
  let distance_factor := 1 + (inject_Z (distance_km user) / 1000) in
  let conn_factor := connection_factors (connection_type user) in
  inject_Z base_time * distance_factor * conn_factor.

(** What the loop over the active users carries. *)
Record Tally : Type := mkTally {
  connection_times : list Q;
  successful_connections : Z;
  failed_connections : Z
}.

(** One turn of the loop [for user in active_users]. *)
Definition attempt (base_time : Z) (concurrent_users : Z)
    (tally : Tally) (user : UserLocation) : Sim Tally :=
  let connection_time := connection_time_of base_time user in
  let failure_probability := failure_probability concurrent_users in
  let* u := random_random in
  if Qltb u failure_probability
  then ret (mkTally (connection_times tally ++ [connection_time * 3])
                    (successful_connections tally)
                    (failed_connections tally + 1)%Z)
  else ret (mkTally (connection_times tally ++ [connection_time])
                    (successful_connections tally + 1)%Z
                    (failed_connections tally)).

Fixpoint attempts (base_time : Z) (concurrent_users : Z) (tally : Tally)
    (active_users : list UserLocation) : Sim Tally :=
  match active_users with
  | [] => ret tally
  | user :: rest =>
      let* tally' := attempt base_time concurrent_users tally user in
      attempts base_time concurrent_users tally' rest
  end.

(** [np.max] and [np.min]: [ValueError] on an empty list. *)
Definition np_max (values : list Q) : result Q :=
  match values with
  | [] => Raise ValueError
  | x :: rest => Ok (fold_left (fun m v => if Qltb m v then v else m) rest x)
  end.

Definition np_min (values : list Q) : result Q :=
  match values with
  | [] => Raise ValueError
  | x :: rest => Ok (fold_left (fun m v => if Qltb v m then v else m) rest x)
  end.

(** The dictionary [simulate_concurrent_connections] returns. *)
Record ConnectionMetrics : Type := mkConnectionMetrics {
  crypto_type : string;
  concurrent_users : Z;
  avg_connection_time_ms : float64;
  max_connection_time_ms : Q;
  min_connection_time_ms : Q;
  success_rate : Q;
  failed : Z
}.

(** The [return] of [simulate_concurrent_connections]: the entries of the
    dictionary are evaluated in the order they are written. *)
Definition connection_metrics (crypto_type : string) (concurrent_users : Z)
    (tally : Tally) : result ConnectionMetrics :=
  let avg := nanmean (connection_times tally) in
  let? max := np_max (connection_times tally) in
  let? min := np_min (connection_times tally) in
  let? rate := truediv (inject_Z (successful_connections tally))
                       (inject_Z concurrent_users) in
  Ok (mkConnectionMetrics crypto_type concurrent_users avg max min
                          (rate * 100) (failed_connections tally)).

(** [RemoteAccessVPN.simulate_concurrent_connections] *)
Definition simulate_concurrent_connections (self : RemoteAccessVPN)
    (crypto_type : string) (concurrent_users : Z)
  : Sim (result ConnectionMetrics) :=
  let! active_users :=
    random_sample (user_locations self)
      (Z.min concurrent_users (Z.of_nat (length (user_locations self)))) in
  let base_time := base_time_of crypto_type in
  let* tally :=
    attempts base_time concurrent_users (mkTally [] 0 0) active_users in
  ret (connection_metrics crypto_type concurrent_users tally).

End Topology.

(** *** The scalability test of the same class *)
Module Scalability.
Import Topology.

(** [s.startswith(prefixes)] for a tuple of prefixes. *)
Definition startswith (prefixes : list string) (s : string) : bool :=
  existsb (fun p => String.prefix p s) prefixes.

(** One entry of [results]: the metrics of a run and the flag added to
    them. *)
Record ScalabilityRow : Type := mkScalabilityRow {
  metrics : ConnectionMetrics;
  quantum_resistant : bool
}.

Definition user_counts : list Z := [10; 25; 50; 100; 150; 200; 250; 300]%Z.

(** The loop [for crypto_type in crypto_types]. *)
Fixpoint test_crypto_types (self : RemoteAccessVPN) (user_count : Z)
    (crypto_types : list string) (results : list ScalabilityRow)
  : Sim (result (list ScalabilityRow)) :=
  match crypto_types with
  | [] => ret (Ok results)
  | crypto_type :: rest =>
      let! metrics :=
        simulate_concurrent_connections self crypto_type user_count in
      let quantum_resistant := startswith ["Kyber"; "Dilithium"] crypto_type in
      test_crypto_types self user_count rest
        (results ++ [mkScalabilityRow metrics quantum_resistant])
  end.

(** The loop [for user_count in user_counts]. *)
Fixpoint test_user_counts (self : RemoteAccessVPN) (user_counts : list Z)
    (crypto_types : list string) (results : list ScalabilityRow)
  : Sim (result (list ScalabilityRow)) :=
  match user_counts with
  | [] => ret (Ok results)
  | user_count :: rest =>
      let! results :=
        test_crypto_types self user_count crypto_types results in
      test_user_counts self rest crypto_types results
  end.

(** [RemoteAccessVPN.simulate_scalability_test]; the frame it returns has
    the entries of [results] as its rows, in order. *)
Definition simulate_scalability_test (self : RemoteAccessVPN)
    (crypto_types : list string) : Sim (result (list ScalabilityRow)) :=
  test_user_counts self user_counts crypto_types [].

End Scalability.

(* ===================================================================== *)
(** ** The measurements of the registry based simulator                   *)
(* ===================================================================== *)

Module Campaign.
Import Registry.

(** The builtin [max(a, b)] of two numbers: the first of the largest. *)
Definition max (a b : Q) : Q := if Qltb a b then b else a.

(** [np.mean] of a list that is not empty.  (Of an empty list it is
    not-a-number; where the simulator takes it, the next entry of the same
    dictionary is [np.max], which raises on the empty list, so that value is
    never returned.) *)
Definition np_mean (values : list Q) : Q :=
  sum values / inject_Z (Z.of_nat (length values)).

(** The dictionary [simulate_data_transfer] returns. *)
Record DataTransfer : Type := mkDataTransfer {
  dt_crypto_type : string;
  dt_data_size_mb : Q;
  dt_overhead_percent : Q;
  dt_encryption_time_s : Q;
  dt_transmission_time_s : Q;
  dt_total_time_s : Q;
  dt_effective_throughput_mbps : Q;
  dt_quantum_resistant : bool
}.

(** [VPNSimulator.simulate_data_transfer]: the products, the divisions and
    the sums of the source, one for one and in its order, on exact
    numbers. *)
Definition simulate_data_transfer (self : VPNSimulator)
    (crypto_type : CryptoType) (data_size_mb : Q) : result DataTransfer :=
  let? params := getitem CRYPTO_PARAMS crypto_type in
  let overhead_factor := if quantum_resistant params then 1.15 else 1.05 in
  let actual_data_size := data_size_mb * overhead_factor in
  let? crypto_time :=
    truediv (inject_Z (cpu_cycles params) * data_size_mb)
            (cpu_speed_ghz self * 1000000000) in
  let? transmission_time :=
    truediv (actual_data_size * 8) (bandwidth_mbps self) in
  let? effective_throughput :=
    truediv data_size_mb (crypto_time + transmission_time) in
  Ok (mkDataTransfer (value crypto_type) data_size_mb
        ((overhead_factor - 1) * 100) crypto_time transmission_time
        (crypto_time + transmission_time) effective_throughput
        (quantum_resistant params)).

(** The results of the successive calls of [random.gauss], a stream of its
    own beside the one of [random.random], and the number of calls made. *)
Record Gauss : Type := mkGauss {
  gauss_values : nat -> Q -> Q -> Q;
  gauss_calls : nat
}.

Definition random_gauss (mu sigma : Q) (g : Gauss) : Q * Gauss :=
  (gauss_values g (gauss_calls g) mu sigma,
   mkGauss (gauss_values g) (S (gauss_calls g))).

(** The dictionary [simulate_cpu_usage] returns. *)
Record CpuUsage : Type := mkCpuUsage {
  cu_crypto_type : string;
  cu_avg_cpu_usage : Q;
  cu_max_cpu_usage : Q;
  cu_min_cpu_usage : Q;
  cu_std_cpu_usage : Q;
  cu_quantum_resistant : bool
}.

(** The loop [for _ in range(duration_seconds)] of [simulate_cpu_usage]. *)
Fixpoint sample_cpu (n : nat) (base_cpu_usage crypto_cpu_usage : Q)
    (cpu_samples : list Q) (g : Gauss) : list Q * Gauss :=
  match n with
  | O => (cpu_samples, g)
  | S n' =>
      let (variation, g') := random_gauss 0 2 g in
      let cpu_usage :=
        min 100 (max 0 (base_cpu_usage + crypto_cpu_usage + variation)) in
      sample_cpu n' base_cpu_usage crypto_cpu_usage
                 (cpu_samples ++ [cpu_usage]) g'
  end.

Section Std.

(** [numpy.sqrt], left open as [math.sqrt] is. *)
Variable sqrt : Q -> Q.

(** [np.std]: the square root of the mean squared deviation. *)
Definition np_std (values : list Q) : Q :=
  let mean := np_mean values in
  sqrt (np_mean (map (fun x => (x - mean) * (x - mean)) values)).

(** [VPNSimulator.simulate_cpu_usage] *)
Definition simulate_cpu_usage (self : VPNSimulator)
    (crypto_type : CryptoType) (duration_seconds : Z) (g : Gauss)
  : result CpuUsage * Gauss :=
  match getitem CRYPTO_PARAMS crypto_type with
  | Raise e => (Raise e, g)
  | Ok params =>
      let ops_per_second := 1000%Z in
      let base_cpu_usage := 5 in
      match truediv (inject_Z (cpu_cycles params * ops_per_second))
                    (cpu_speed_ghz self * 1000000000) with
      | Raise e => (Raise e, g)
      | Ok ratio =>
          let crypto_cpu_usage := ratio * 100 in
          let (cpu_samples, g') :=
            sample_cpu (Z.to_nat duration_seconds) base_cpu_usage
                       crypto_cpu_usage [] g in
          (let avg := np_mean cpu_samples in
           let? max := Topology.np_max cpu_samples in
           let? min := Topology.np_min cpu_samples in
           Ok (mkCpuUsage (value crypto_type) avg max min
                          (np_std cpu_samples) (quantum_resistant params)),
           g')
      end
  end.

End Std.

(** The dictionary [simulate_memory_usage] returns. *)
Record MemoryUsage : Type := mkMemoryUsage {
  mu_crypto_type : string;
  mu_base_memory_mb : Q;
  mu_key_memory_mb : Q;
  mu_buffer_memory_mb : Q;
  mu_additional_memory_mb : Q;
  mu_total_memory_mb : Q;
  mu_quantum_resistant : bool
}.

(** [VPNSimulator.simulate_memory_usage] *)
Definition simulate_memory_usage (self : VPNSimulator)
    (crypto_type : CryptoType) : result MemoryUsage :=
  let? params := getitem CRYPTO_PARAMS crypto_type in
  let base_memory := 50 in
  let key_memory := inject_Z (key_size params) / 1024 in
  let buffer_memory := inject_Z (key_size params * 10) / 1024 in
  let additional_memory :=
    if quantum_resistant params
    then inject_Z (key_size params * 20) / 1024
    else inject_Z (key_size params * 5) / 1024 in
  let total_memory :=
    base_memory + key_memory + buffer_memory + additional_memory in
  Ok (mkMemoryUsage (value crypto_type) base_memory key_memory buffer_memory
                    additional_memory total_memory
                    (quantum_resistant params)).

(** Code that draws from both streams and may raise. *)
Definition Run (A : Type) : Type := Gauss -> World -> result A * Gauss * World.

Definition bindRun {A B : Type} (m : Run A) (k : A -> Run B) : Run B :=
  fun g w => match m g w with
             | (Ok a, g', w') => k a g' w'
             | (Raise e, g', w') => (Raise e, g', w')
             end.

Notation "'let+' x ':=' m 'in' k" := (bindRun m (fun x => k))
  (at level 10, x pattern, m at level 200, k at level 200).

Definition of_result {A : Type} (r : result A) : Run A :=
  fun g w => (r, g, w).

Definition of_sim {A : Type} (m : Sim (result A)) : Run A :=
  fun g w => let (r, w') := m w in (r, g, w').

Definition of_gauss {A : Type} (m : Gauss -> result A * Gauss) : Run A :=
  fun g w => let (r, g') := m g in (r, g', w).

Section Complete.

Variable sqrt : Q -> Q.

(** The body of the loop of [run_complete_simulation]: the row of one
    algorithm. *)
Definition combined_result (self : VPNSimulator) (crypto_type : CryptoType)
  : Run Frame.ResultRow :=
  let+ key_exchange := of_sim (simulate_key_exchange self crypto_type 0.01) in
  let+ data_transfer :=
    of_result (simulate_data_transfer self crypto_type 100) in
  let+ cpu_usage := of_gauss (simulate_cpu_usage sqrt self crypto_type 30) in
  let+ memory_usage := of_result (simulate_memory_usage self crypto_type) in
  let+ params := of_result (getitem CRYPTO_PARAMS crypto_type) in
  of_result
    (Ok (Frame.mkResultRow (value crypto_type) (quantum_resistant params)
           (kx_key_size_bytes key_exchange) (kx_total_time_ms key_exchange)
           (dt_effective_throughput_mbps data_transfer)
           (dt_overhead_percent data_transfer)
           (cu_avg_cpu_usage cpu_usage)
           (mu_total_memory_mb memory_usage))).

(** The loop [for crypto_type in CryptoType]. *)
Fixpoint simulate_each (self : VPNSimulator) (crypto_types : list CryptoType)
    (all_results : list Frame.ResultRow) : Run (list Frame.ResultRow) :=
  match crypto_types with
  | [] => of_result (Ok all_results)
  | crypto_type :: rest =>
      let+ row := combined_result self crypto_type in
      simulate_each self rest (all_results ++ [row])
  end.

(** [VPNSimulator.run_complete_simulation] *)
Definition run_complete_simulation (self : VPNSimulator)
  : Run Frame.DataFrame :=
  let+ all_results := simulate_each self members [] in
  of_result (Ok (Frame.from_records all_results)).

End Complete.

End Campaign.

(* ===================================================================== *)
(** ** The cost-benefit analysis of the migration                         *)
(* ===================================================================== *)

Module CostBenefit.

(** [self.size_multipliers] *)
Definition size_multipliers : gmap string Q :=
  list_to_map [ ("small", 0.5); ("medium", 1.0); ("large", 2.5) ].

(** *** class CostBenefitAnalyzer *)
Record CostBenefitAnalyzer : Type := mkCostBenefitAnalyzer {
  org_size : string;
  multiplier : Q
}.

(** [CostBenefitAnalyzer.__init__] *)
Definition CostBenefitAnalyzer_init (organization_size : string)
  : CostBenefitAnalyzer :=
  mkCostBenefitAnalyzer organization_size
    (default 1.0 (size_multipliers !! organization_size)).

(** The dictionary [base_costs], in thousands of dollars, in the order its
    items are visited. *)
Definition base_costs : list (string * Q) :=
  [ ("hardware_upgrade", 50); ("software_licenses", 30); ("training", 20);
    ("consulting", 40); ("testing", 25); ("deployment", 35);
    ("monitoring", 15) ].

Definition cost_factors : gmap string Q :=
  list_to_map
    [ ("Kyber-512", 1.0); ("Kyber-768", 1.2); ("Kyber-1024", 1.5);
      ("Dilithium-2", 1.1); ("Dilithium-3", 1.3); ("Traditional", 0.0) ].

(** The dictionary [calculate_implementation_costs] returns. *)
Record Costs : Type := mkCosts {
  breakdown : list (string * Q);
  total : Q;
  annual_maintenance : Q
}.

(** The loop [for category, base_cost in base_costs.items()]. *)
Fixpoint add_costs (items : list (string * Q)) (factor multiplier : Q)
    (detailed_costs : list (string * Q)) (total_cost : Q)
  : list (string * Q) * Q :=
  match items with
  | [] => (detailed_costs, total_cost)
  | (category, base_cost) :: rest =>
      let cost := base_cost * factor * multiplier in
      add_costs rest factor multiplier
                (detailed_costs ++ [(category, cost * 1000)])
                (total_cost + cost * 1000)
  end.

(** [CostBenefitAnalyzer.calculate_implementation_costs] *)
Definition calculate_implementation_costs (self : CostBenefitAnalyzer)
    (crypto_type : string) : Costs :=
  let factor := default 1.0 (cost_factors !! crypto_type) in
  let (detailed_costs, total_cost) :=
    add_costs base_costs factor (multiplier self) [] 0 in
  mkCosts detailed_costs total_cost (total_cost * 0.15).

(** The dictionary [base_benefits], in thousands of dollars a year. *)
Definition base_benefits : list (string * Q) :=
  [ ("breach_prevention", 500); ("compliance", 100); ("reputation", 150);
    ("competitive_advantage", 75); ("future_proofing", 200) ].

Definition benefit_factors : gmap string Q :=
  list_to_map
    [ ("Kyber-512", 0.7); ("Kyber-768", 0.85); ("Kyber-1024", 1.0);
      ("Dilithium-2", 0.8); ("Dilithium-3", 0.9); ("Traditional", 0.1) ].

(** One entry of [yearly_benefits]. *)
Record YearBenefit : Type := mkYearBenefit {
  year : Z;
  annual_benefit : Q;
  cumulative_benefit : Q;
  benefit_breakdown : list (string * Q)
}.

(** The dictionary [calculate_benefits] returns. *)
Record Benefits : Type := mkBenefits {
  yearly : list YearBenefit;
  total_5_years : Q
}.

(** The loop [for category, base_benefit in base_benefits.items()]. *)
Fixpoint add_benefits (items : list (string * Q))
    (factor multiplier time_factor : Q)
    (benefit_breakdown : list (string * Q)) (annual_benefit : Q)
  : list (string * Q) * Q :=
  match items with
  | [] => (benefit_breakdown, annual_benefit)
  | (category, base_benefit) :: rest =>
      let benefit :=
        base_benefit * factor * multiplier * time_factor * 1000 in
      add_benefits rest factor multiplier time_factor
                   (benefit_breakdown ++ [(category, benefit)])
                   (annual_benefit + benefit)
  end.

(** The loop [for year in range(1, years + 1)]. *)
Fixpoint add_years (years : list Z) (factor multiplier : Q)
    (yearly_benefits : list YearBenefit) (cumulative_benefits : Q)
  : list YearBenefit * Q :=
  match years with
  | [] => (yearly_benefits, cumulative_benefits)
  | year :: rest =>
      let time_factor := 1 + (inject_Z year * 0.1) in
      let (benefit_breakdown, annual_benefit) :=
        add_benefits base_benefits factor multiplier time_factor [] 0 in
      let cumulative_benefits := cumulative_benefits + annual_benefit in
      add_years rest factor multiplier
                (yearly_benefits
                 ++ [mkYearBenefit year annual_benefit cumulative_benefits
                                   benefit_breakdown])
                cumulative_benefits
  end.

(** [range(a, b)] *)
Definition range (a b : Z) : list Z :=
  map (fun i => (a + Z.of_nat i)%Z) (seq 0 (Z.to_nat (b - a))).

(** [CostBenefitAnalyzer.calculate_benefits] *)
Definition calculate_benefits (self : CostBenefitAnalyzer)
    (crypto_type : string) (years : Z) : Benefits :=
  let factor := default 0.5 (benefit_factors !! crypto_type) in
  let (yearly_benefits, cumulative_benefits) :=
    add_years (range 1 (years + 1)) factor (multiplier self) [] 0 in
  mkBenefits yearly_benefits cumulative_benefits.

(** [CostBenefitAnalyzer._get_roi_recommendation] *)
Definition _get_roi_recommendation (roi : Q) : string :=
  if Qltb 100 roi
  then "Altamente recomendado - Excelente retorno de inversión"
  else if Qltb 50 roi then "Recomendado - Buen retorno de inversión"
  else if Qltb 20 roi then "Considerar - Retorno moderado"
  else if Qltb 0 roi then "Evaluar alternativas - Retorno bajo"
  else "No recomendado - Retorno negativo".

(** The loop of [calculate_roi] that looks for the payback period: the
    first year whose cumulative benefit covers the investment. *)
Fixpoint payback (yearly : list YearBenefit) (initial_investment : Q)
  : option Z :=
  match yearly with
  | [] => None
  | year_data :: rest =>
      if Qle_bool initial_investment (cumulative_benefit year_data)
      then Some (year year_data)
      else payback rest initial_investment
  end.

(** The dictionary [calculate_roi] returns. *)
Record Roi : Type := mkRoi {
  initial_investment : Q;
  total_costs_5y : Q;
  total_benefits_5y : Q;
  net_benefit : Q;
  roi_percentage : Q;
  payback_period_years : option Z;
  recommendation : string
}.

(** [CostBenefitAnalyzer.calculate_roi] *)
Definition calculate_roi (self : CostBenefitAnalyzer) (crypto_type : string)
  : result Roi :=
  let costs := calculate_implementation_costs self crypto_type in
  let benefits := calculate_benefits self crypto_type 5 in
  let initial_investment := total costs in
  let total_benefits := total_5_years benefits in
  let annual_maintenance := annual_maintenance costs * 5 in
  let net_benefit :=
    total_benefits - (initial_investment + annual_maintenance) in
  let? ratio := truediv net_benefit initial_investment in
  let roi_percentage := ratio * 100 in
  let payback_period := payback (yearly benefits) initial_investment in
  Ok (mkRoi initial_investment (initial_investment + annual_maintenance)
            total_benefits net_benefit roi_percentage payback_period
            (_get_roi_recommendation roi_percentage)).

End CostBenefit.

(* ===================================================================== *)
(** ** Properties of the tunnel simulator                                 *)
(* ===================================================================== *)

Import Tunnel.

(** The [k]-th reading of the clock, and the [k]-th draw of [random()],
    from world [w] on. *)
Definition reading (w : World) (k : nat) : Q :=
  clock w (k + clock_reads w)%nat.

Definition draw (w : World) (k : nat) : Q := rng w (k + rng_draws w)%nat.

(** The world after [c] more readings of the clock, [s] of the calendar and
    [r] more draws. *)
Definition advance (w : World) (c s r : nat) : World :=
  mkWorld (clock w) (calendar w) (rng w) (rng_int w) (sha256_hex w)
          (c + clock_reads w) (s + calendar_reads w) (r + rng_draws w).

(** [random.uniform(a, b)] for the draw [u]. *)
Definition uniform (a b u : Q) : Q := a + (b - a) * u.

(** The lengths of the sleeps of a handshake, in the order of execution:
    the traditional one sleeps in key generation, key exchange and the
    encryption test, the post-quantum one in key generation,
    encapsulation, decapsulation, signing, verification and the encryption
    test. *)
Definition encrypt_sleep (size_kb : Z) (u : Q) : Q :=
  (inject_Z size_kb / 1024) * uniform 0.005 0.01 u.

Definition traditional_sleeps (self : VPNTunnel) (w : World) : list Q :=
  [uniform 0.05 0.1 (draw w 0); uniform 0.02 0.04 (draw w 3);
   encrypt_sleep (packet_size_kb self) (draw w 5)].

Definition postquantum_sleeps (self : VPNTunnel) (w : World) : list Q :=
  [uniform 0.0005 0.002 (draw w 0); uniform 0.0005 0.002 (draw w 3);
   uniform 0.0005 0.002 (draw w 5); uniform 0.005 0.015 (draw w 6);
   uniform 0.002 0.005 (draw w 7);
   encrypt_sleep (packet_size_kb self) (draw w 8)].

(** The first exception a sequence of sleeps raises. *)
Fixpoint first_raise (lengths : list Q) : option PyError :=
  match lengths with
  | [] => None
  | d :: rest =>
      match sleep_outcome d with
      | Raise e => Some e
      | Ok _ => first_raise rest
      end
  end.

(** Runs the monads of a definition that has been unfolded, in a world
    given by its components, down to the oracles of the world, the
    outcomes of [time.sleep] and the arithmetic. *)
Ltac run_sim :=
  lazy beta iota zeta
       delta [bind bindR ret lift mbind mret raise call perform attribute
              assign invoke time_time datetime_now_isoformat random_uniform
              random_random random_randint time_sleep sha256_hexdigest
              clock calendar rng rng_int sha256_hex clock_reads
              calendar_reads rng_draws fst snd Nat.add negb
              traditional_sleeps postquantum_sleeps encrypt_sleep uniform
              reading draw advance first_raise
              set_shared_secret set_established established tunnel_type
              packet_size_kb shared_secret].

Ltac split_sleeps :=
  repeat match goal with
         | |- context [sleep_outcome ?d] =>
             let o := fresh "o" in
             destruct (sleep_outcome d) as [[]|o]
         end.

Import TraditionalCrypto PostQuantumCrypto.

(** What a traditional handshake measured, in terms of the clock readings
    and the draws of the world [w] it started in. *)
Definition traditional_fields (self : VPNTunnel) (w : World)
    (m : VPNMetrics) (ph : PhaseTimes) : Prop :=
  (vpn_type m = "Traditional" /\ key_size m = 256%Z
   /\ ciphertext_size m = (packet_size_kb self * 1024)%Z
   /\ signature_size m = 256%Z)
  /\ (keygen_time m = reading w 1 - reading w 0
      /\ key_exchange_time m = reading w 3 - reading w 2
      /\ handshake_total_time m
         = (reading w 1 - reading w 0) + (reading w 3 - reading w 2)
      /\ encryption_time m = reading w 5 - reading w 4
      /\ decryption_time m = (reading w 5 - reading w 4) * 1.1)
  /\ (latency_ms m
      = (10 + (20 - 10) * draw w 7) + (2 + (5 - 2) * draw w 8)
      /\ throughput_mbps m = 80 + (100 - 80) * draw w 9
      /\ packet_loss_percent m = 0.1 + (0.5 - 0.1) * draw w 10
      /\ cpu_usage_percent m = 15 + (25 - 15) * draw w 11
      /\ memory_mb m = rng_int w (12 + rng_draws w) 50%Z 80%Z)
  /\ ph = mkPhaseTimes (keygen_time m) (key_exchange_time m) None None None
                       (encryption_time m).

Lemma traditional_run (self : VPNTunnel) (w : World) :
  match _establish_traditional self w with
  | (self', Ok (m, ph), w') =>
      first_raise (traditional_sleeps self w) = None
      /\ established self' = true
      /\ tunnel_type self' = tunnel_type self
      /\ packet_size_kb self' = packet_size_kb self
      /\ w' = advance w 6 1 13
      /\ traditional_fields self w m ph
  | (self', Raise e, w') =>
      first_raise (traditional_sleeps self w) = Some e
      /\ established self' = established self
      /\ tunnel_type self' = tunnel_type self
      /\ packet_size_kb self' = packet_size_kb self
  end.
Proof.
  destruct w as [ck cal rg ri sh cr sr rd], self as [kind size est secret].
  unfold _establish_traditional, key_generation, key_exchange, encrypt_data,
    traditional_fields.
  run_sim. split_sleeps. all: repeat split; reflexivity.
Qed.

(** The same for a post-quantum handshake. *)
Definition postquantum_fields (self : VPNTunnel) (w : World)
    (m : VPNMetrics) (ph : PhaseTimes) : Prop :=
  (vpn_type m = "PostQuantum" /\ key_size m = 3584%Z
   /\ ciphertext_size m = 1088%Z /\ signature_size m = 3293%Z)
  /\ (keygen_time m = reading w 1 - reading w 0
      /\ key_exchange_time m
         = (reading w 3 - reading w 2) + (reading w 5 - reading w 4)
      /\ handshake_total_time m
         = (reading w 1 - reading w 0) + (reading w 3 - reading w 2)
           + (reading w 5 - reading w 4) + (reading w 7 - reading w 6)
           + (reading w 9 - reading w 8)
      /\ encryption_time m = reading w 11 - reading w 10
      /\ decryption_time m = (reading w 11 - reading w 10) * 1.1)
  /\ (latency_ms m
      = (10 + (20 - 10) * draw w 10) + (5 + (12 - 5) * draw w 11)
      /\ throughput_mbps m = 65 + (85 - 65) * draw w 12
      /\ packet_loss_percent m = 0.2 + (0.8 - 0.2) * draw w 13
      /\ cpu_usage_percent m = 25 + (40 - 25) * draw w 14
      /\ memory_mb m = rng_int w (15 + rng_draws w) 80%Z 120%Z)
  /\ ph = mkPhaseTimes (keygen_time m) (reading w 3 - reading w 2)
                       (Some (reading w 5 - reading w 4))
                       (Some (reading w 7 - reading w 6))
                       (Some (reading w 9 - reading w 8))
                       (encryption_time m).

Lemma postquantum_run (self : VPNTunnel) (w : World) :
  match _establish_postquantum self w with
  | (self', Ok (m, ph), w') =>
      first_raise (postquantum_sleeps self w) = None
      /\ established self' = true
      /\ tunnel_type self' = tunnel_type self
      /\ packet_size_kb self' = packet_size_kb self
      /\ w' = advance w 12 1 16
      /\ postquantum_fields self w m ph
  | (self', Raise e, w') =>
      first_raise (postquantum_sleeps self w) = Some e
      /\ established self' = established self
      /\ tunnel_type self' = tunnel_type self
      /\ packet_size_kb self' = packet_size_kb self
  end.
Proof.
  destruct w as [ck cal rg ri sh cr sr rd], self as [kind size est secret].
  unfold _establish_postquantum, kyber_keygen, kyber_encapsulate,
    kyber_decapsulate, dilithium_sign, dilithium_verify, encrypt_data,
    postquantum_fields.
  run_sim. split_sleeps. all: repeat split; reflexivity.
Qed.

(** The sleeps of the handshake of the family of a tunnel. *)
Definition handshake_sleeps (self : VPNTunnel) (w : World) : list Q :=
  if String.eqb (tunnel_type self) "Traditional"
  then traditional_sleeps self w
  else postquantum_sleeps self w.

(** [establish_tunnel] reads the calendar once and runs the handshake of
    the family.  When it returns, no sleep has raised, the tunnel is
    established and the record is the one the handshake measured; when it
    raises, the exception is the first one a sleep raised and the tunnel is
    established only if it was before. *)
Lemma establish_tunnel_phases_run (self : VPNTunnel) (w : World) :
  match establish_tunnel_phases self w with
  | (self', Ok (m, ph), w') =>
      first_raise (handshake_sleeps self w) = None
      /\ established self' = true
      /\ tunnel_type self' = tunnel_type self
      /\ packet_size_kb self' = packet_size_kb self
      /\ (if String.eqb (tunnel_type self) "Traditional"
          then w' = advance w 6 2 13 /\ traditional_fields self w m ph
          else w' = advance w 12 2 16 /\ postquantum_fields self w m ph)
  | (self', Raise e, w') =>
      first_raise (handshake_sleeps self w) = Some e
      /\ established self' = established self
      /\ tunnel_type self' = tunnel_type self
      /\ packet_size_kb self' = packet_size_kb self
  end.
Proof.
  unfold establish_tunnel_phases, handshake_sleeps, mbind, perform,
    attribute, datetime_now_isoformat, ret.
  destruct (String.eqb (tunnel_type self) "Traditional").
  - pose proof (traditional_run self (advance w 0 1 0)) as H.
    change (advance w 0 1 0)
      with (mkWorld (clock w) (calendar w) (rng w) (rng_int w)
              (sha256_hex w) (clock_reads w) (S (calendar_reads w))
              (rng_draws w)) in H.
    destruct (_establish_traditional self _) as [[self' [[m ph]|e]] w'].
    + destruct H as (H0 & H1 & H2 & H3 & H4 & H5).
      repeat split; try assumption; apply H5.
    + exact H.
  - pose proof (postquantum_run self (advance w 0 1 0)) as H.
    change (advance w 0 1 0)
      with (mkWorld (clock w) (calendar w) (rng w) (rng_int w)
              (sha256_hex w) (clock_reads w) (S (calendar_reads w))
              (rng_draws w)) in H.
    destruct (_establish_postquantum self _) as [[self' [[m ph]|e]] w'].
    + destruct H as (H0 & H1 & H2 & H3 & H4 & H5).
      repeat split; try assumption; apply H5.
    + exact H.
Qed.

(** [establish_tunnel] returns the record of its body, or raises what the
    body raises. *)
Lemma establish_tunnel_of_phases (self : VPNTunnel) (w : World) :
  establish_tunnel self w
  = let '(self', r, w') := establish_tunnel_phases self w in
    (self', match r with Ok (m, _) => Ok m | Raise e => Raise e end, w').
Proof.
  unfold establish_tunnel, mbind, mret, ret.
  destruct (establish_tunnel_phases self w) as [[self' [[m ph]|e]] w'];
    reflexivity.
Qed.

Lemma establish_tunnel_returned (self self' : VPNTunnel) (m : VPNMetrics)
    (w w' : World) :
  establish_tunnel self w = (self', Ok m, w') ->
  exists ph, establish_tunnel_phases self w = (self', Ok (m, ph), w').
Proof.
  rewrite establish_tunnel_of_phases.
  destruct (establish_tunnel_phases self w) as [[s [[m0 ph]|e]] w0];
    intros E; inversion E; subst. now exists ph.
Qed.

(** *** The lengths [time.sleep] accepts *)

Lemma sleep_outcome_accepts (secs : Q) :
  0 <= secs -> secs <= 9000000000 -> sleep_outcome secs = Ok tt.
Proof.
  intros H0 H1. unfold sleep_outcome, Qltb.
  assert (E1 : Qle_bool (-9223372036854775808) (secs * 1000000000) = true)
    by (apply Qle_bool_iff; lra).
  assert (E2 : Qle_bool 9223372036854775808 (secs * 1000000000) = false).
  { apply not_true_iff_false. intros E. apply Qle_bool_iff in E. lra. }
  assert (E3 : Qle_bool 0 secs = true) by (apply Qle_bool_iff; exact H0).
  cbv zeta. rewrite E1, E2, E3. reflexivity.
Qed.

Lemma sleep_outcome_refuses (secs : Q) :
  -9000000000 <= secs -> secs < 0 -> sleep_outcome secs = Raise ValueError.
Proof.
  intros H0 H1. unfold sleep_outcome, Qltb.
  assert (E1 : Qle_bool (-9223372036854775808) (secs * 1000000000) = true)
    by (apply Qle_bool_iff; lra).
  assert (E2 : Qle_bool 9223372036854775808 (secs * 1000000000) = false).
  { apply not_true_iff_false. intros E. apply Qle_bool_iff in E. lra. }
  assert (E3 : Qle_bool 0 secs = false).
  { apply not_true_iff_false. intros E. apply Qle_bool_iff in E. lra. }
  cbv zeta. rewrite E1, E2, E3. reflexivity.
Qed.

Lemma uniform_range (a b u : Q) :
  a <= b -> 0 <= u -> u <= 1 -> a <= uniform a b u /\ uniform a b u <= b.
Proof.
  unfold uniform. intros Hab H0 H1.
  assert (H2 : 0 <= (b - a) * u) by (apply Qmult_le_0_compat; lra).
  assert (H3 : 0 <= (b - a) * (1 - u)) by (apply Qmult_le_0_compat; lra).
  split; lra.
Qed.

(** The packet sizes for which the sleep of the encryption test is within
    what [time.sleep] converts. *)
Definition sized (size_kb : Z) : Prop :=
  (0 <= size_kb <= 1000000000000)%Z.

Lemma encrypt_sleep_accepted (size_kb : Z) (u : Q) :
  sized size_kb -> 0 <= u -> u <= 1 ->
  sleep_outcome (encrypt_sleep size_kb u) = Ok tt.
Proof.
  intros [Hlo Hhi] H0 H1. unfold encrypt_sleep.
  destruct (uniform_range 0.005 0.01 u ltac:(lra) H0 H1) as [Ha Hb].
  assert (H2 : 0 <= inject_Z size_kb)
    by (change 0 with (inject_Z 0); rewrite <- Zle_Qle; exact Hlo).
  assert (H3 : inject_Z size_kb <= 1000000000000)
    by (change 1000000000000 with (inject_Z 1000000000000);
        rewrite <- Zle_Qle; exact Hhi).
  set (x := inject_Z size_kb) in *. set (y := uniform 0.005 0.01 u) in *.
  change (x / 1024) with (x * (1 # 1024)).
  assert (H4 : 0 <= x * (1 # 1024) * y) by (apply Qmult_le_0_compat; lra).
  assert (H5 : 0 <= x * (1 # 1024) * (0.01 - y))
    by (apply Qmult_le_0_compat; lra).
  apply sleep_outcome_accepts; lra.
Qed.

Lemma encrypt_sleep_refused (size_kb : Z) (u : Q) :
  (-1000000000000 <= size_kb < 0)%Z -> 0 <= u -> u <= 1 ->
  sleep_outcome (encrypt_sleep size_kb u) = Raise ValueError.
Proof.
  intros [Hlo Hhi] H0 H1. unfold encrypt_sleep.
  destruct (uniform_range 0.005 0.01 u ltac:(lra) H0 H1) as [Ha Hb].
  assert (H2 : inject_Z size_kb <= -1).
  { change (-1) with (inject_Z (-1)). rewrite <- Zle_Qle. lia. }
  assert (H3 : -1000000000000 <= inject_Z size_kb)
    by (change (-1000000000000) with (inject_Z (-1000000000000));
        rewrite <- Zle_Qle; exact Hlo).
  set (x := inject_Z size_kb) in *. set (y := uniform 0.005 0.01 u) in *.
  change (x / 1024) with (x * (1 # 1024)).
  assert (H4 : 0 <= - x * (1 # 1024) * (y - 0.005))
    by (apply Qmult_le_0_compat; lra).
  assert (H5 : 0 <= - x * (1 # 1024) * (0.01 - y))
    by (apply Qmult_le_0_compat; lra).
  apply sleep_outcome_refuses; lra.
Qed.

Lemma uniform_sleep_accepted (a b u : Q) :
  0 <= a -> a <= b -> b <= 1 -> 0 <= u -> u <= 1 ->
  sleep_outcome (uniform a b u) = Ok tt.
Proof.
  intros Ha Hab Hb H0 H1.
  destruct (uniform_range a b u Hab H0 H1).
  apply sleep_outcome_accepts; lra.
Qed.

(** With draws between 0 and 1 the sleeps of the phases of a handshake are
    accepted, and the sleep of the encryption test is accepted for a packet
    size that is not negative and refused for a negative one. *)
Lemma handshake_sleeps_accepted (self : VPNTunnel) (w : World) :
  (forall n, 0 <= rng w n /\ rng w n <= 1) ->
  sized (packet_size_kb self) ->
  first_raise (handshake_sleeps self w) = None.
Proof.
  intros Hrng Hsize.
  pose proof (fun k => proj1 (Hrng (k + rng_draws w)%nat)) as H0.
  pose proof (fun k => proj2 (Hrng (k + rng_draws w)%nat)) as H1.
  unfold handshake_sleeps, traditional_sleeps, postquantum_sleeps.
  destruct (String.eqb (tunnel_type self) "Traditional");
    cbn [first_raise];
    rewrite ?uniform_sleep_accepted, ?encrypt_sleep_accepted;
    try reflexivity; try assumption; try apply H0; try apply H1;
    try (vm_compute; discriminate).
Qed.

Lemma handshake_sleeps_refused (self : VPNTunnel) (w : World) :
  (forall n, 0 <= rng w n /\ rng w n <= 1) ->
  (-1000000000000 <= packet_size_kb self < 0)%Z ->
  first_raise (handshake_sleeps self w) = Some ValueError.
Proof.
  intros Hrng Hsize.
  pose proof (fun k => proj1 (Hrng (k + rng_draws w)%nat)) as H0.
  pose proof (fun k => proj2 (Hrng (k + rng_draws w)%nat)) as H1.
  unfold handshake_sleeps, traditional_sleeps, postquantum_sleeps.
  destruct (String.eqb (tunnel_type self) "Traditional");
    cbn [first_raise];
    rewrite ?uniform_sleep_accepted, ?encrypt_sleep_refused;
    try reflexivity; try assumption; try apply H0; try apply H1;
    try (vm_compute; discriminate).
Qed.

(** So [establish_tunnel] returns a record in such a world, for such a
    packet size, and raises [ValueError] for a negative one. *)
Lemma establish_tunnel_returns (self : VPNTunnel) (w : World) :
  (forall n, 0 <= rng w n /\ rng w n <= 1) ->
  sized (packet_size_kb self) ->
  exists self' m w', establish_tunnel self w = (self', Ok m, w').
Proof.
  intros Hrng Hsize. rewrite establish_tunnel_of_phases.
  pose proof (establish_tunnel_phases_run self w) as H.
  destruct (establish_tunnel_phases self w) as [[self' [[m ph]|e]] w'].
  - now exists self', m, w'.
  - rewrite (handshake_sleeps_accepted self w Hrng Hsize) in H.
    destruct H as [H _]. discriminate.
Qed.

Lemma establish_tunnel_refuses (self : VPNTunnel) (w : World) :
  (forall n, 0 <= rng w n /\ rng w n <= 1) ->
  (-1000000000000 <= packet_size_kb self < 0)%Z ->
  exists self' w', establish_tunnel self w = (self', Raise ValueError, w').
Proof.
  intros Hrng Hsize. rewrite establish_tunnel_of_phases.
  pose proof (establish_tunnel_phases_run self w) as H.
  rewrite (handshake_sleeps_refused self w Hrng Hsize) in H.
  destruct (establish_tunnel_phases self w) as [[self' [[m ph]|e]] w'].
  - destruct H as [H _]. discriminate.
  - destruct H as [H _]. inversion H; subst. now exists self', w'.
Qed.

(** The sum of the handshake phases of a run: key generation, key exchange
    (encapsulation), and, where the family has them, decapsulation, signing
    and verification, added in the order of execution.  The encryption test
    is not among them. *)
Definition handshake_phase_sum (ph : PhaseTimes) : Q :=
  match ph_decapsulate ph, ph_sign ph, ph_verify ph with
  | Some decap, Some sign, Some verify =>
      ph_keygen ph + ph_exchange ph + decap + sign + verify
  | _, _, _ => ph_keygen ph + ph_exchange ph
  end.

(** Splits a conjunction into its conjuncts, and nothing else. *)
Ltac conjuncts := repeat match goal with |- _ /\ _ => split end.

(** C1.  For every tunnel and every world, when [establish_tunnel] returns
    a record, the [handshake_total_time] of the record is the sum of the
    elapsed times of the handshake phases its body measured: key generation
    plus key exchange for a traditional tunnel, key generation,
    encapsulation, decapsulation, signing and verification for a
    post-quantum one.  The elapsed time of the encryption test is not part
    of the sum: it is the separate field [encryption_time], measured on
    clock readings the total does not read. *)
Theorem handshake_total_is_phase_sum (self self' : VPNTunnel)
    (m : VPNMetrics) (w w' : World) :
  establish_tunnel self w = (self', Ok m, w') ->
  exists ph,
    establish_tunnel_phases self w = (self', Ok (m, ph), w')
    /\ handshake_total_time m = handshake_phase_sum ph
    /\ encryption_time m = ph_encrypt_test ph
    /\ (if String.eqb (tunnel_type self) "Traditional"
        then ph_decapsulate ph = None /\ ph_sign ph = None
             /\ ph_verify ph = None
             /\ handshake_total_time m = keygen_time m + key_exchange_time m
             /\ handshake_total_time m
                = (reading w 1 - reading w 0) + (reading w 3 - reading w 2)
             /\ encryption_time m = reading w 5 - reading w 4
        else exists decap sign verify,
             ph_decapsulate ph = Some decap /\ ph_sign ph = Some sign
             /\ ph_verify ph = Some verify
             /\ key_exchange_time m = ph_exchange ph + decap
             /\ handshake_total_time m
                = (reading w 1 - reading w 0) + (reading w 3 - reading w 2)
                  + (reading w 5 - reading w 4) + (reading w 7 - reading w 6)
                  + (reading w 9 - reading w 8)
             /\ encryption_time m = reading w 11 - reading w 10).
Proof.
  intros E. destruct (establish_tunnel_returned _ _ _ _ _ E) as [ph Eph].
  exists ph. split; [exact Eph|].
  pose proof (establish_tunnel_phases_run self w) as H. rewrite Eph in H.
  destruct H as (_ & _ & _ & _ & H).
  destruct (String.eqb (tunnel_type self) "Traditional").
  - destruct H as (_ & _ & (Hk & Hx & Hh & He & _) & _ & ->).
    unfold handshake_phase_sum.
    cbn [ph_keygen ph_exchange ph_decapsulate ph_sign ph_verify
         ph_encrypt_test].
    rewrite Hh, Hk, Hx, He. conjuncts; reflexivity.
  - destruct H as (_ & _ & (Hk & Hx & Hh & He & _) & _ & ->).
    unfold handshake_phase_sum.
    cbn [ph_keygen ph_exchange ph_decapsulate ph_sign ph_verify
         ph_encrypt_test].
    rewrite Hh, Hk, Hx, He. conjuncts; [reflexivity ..|].
    eexists _, _, _. conjuncts; reflexivity.
Qed.

(** A sample world: the clock advances by a millisecond at each reading,
    every draw of [random()] is a half, [randint(a, b)] returns [a], and the
    digest of a string is the string. *)
Definition sample_world : World :=
  mkWorld (fun n => inject_Z (Z.of_nat n) / 1000)
          (fun _ => "2025-11-25T10:00:00")
          (fun _ => 0.5)
          (fun _ a _ => a)
          (fun s => s)
          0 0 0.

(** The C1 theorem for a post-quantum tunnel in the sample world. *)
Lemma handshake_total_is_phase_sum_witness :
  exists self' m w' ph,
    establish_tunnel (VPNTunnel_init "PostQuantum" 100) sample_world
    = (self', Ok m, w')
    /\ handshake_total_time m = handshake_phase_sum ph
    /\ handshake_total_time m == 0.005.
Proof.
  assert (E : exists self' m w',
             establish_tunnel (VPNTunnel_init "PostQuantum" 100) sample_world
             = (self', Ok m, w')
                                 /\ handshake_total_time m == 0.005).
  { eexists _, _, _. split; [lazy; reflexivity|]. vm_compute. reflexivity. }
  destruct E as (self' & m & w' & E & Hm).
  destruct (handshake_total_is_phase_sum
              (VPNTunnel_init "PostQuantum" 100) self' m sample_world w' E)
    as (ph & _ & H & _).
  exists self', m, w', ph. split; [exact E|]. split; [exact H|exact Hm].
Defined.

(** C10.  For every tunnel, of either family, and every world, a record
    [establish_tunnel] returns has [decryption_time] equal to
    [encryption_time * 1.1]: the product of the measured encryption time and
    the constant, with no draw of its own. *)
Theorem decryption_is_encryption_times_1_1 (self self' : VPNTunnel)
    (m : VPNMetrics) (w w' : World) :
  establish_tunnel self w = (self', Ok m, w') ->
  decryption_time m = encryption_time m * 1.1.
Proof.
  intros E. destruct (establish_tunnel_returned _ _ _ _ _ E) as [ph Eph].
  pose proof (establish_tunnel_phases_run self w) as H. rewrite Eph in H.
  destruct H as (_ & _ & _ & _ & H).
  destruct (String.eqb (tunnel_type self) "Traditional");
    destruct H as (_ & _ & (_ & _ & _ & He & Hd) & _);
    rewrite He, Hd; reflexivity.
Qed.

(** The C10 theorem for a traditional tunnel in the sample world. *)
Lemma decryption_is_encryption_times_1_1_witness :
  exists self' m w',
    establish_tunnel (VPNTunnel_init "Traditional" 100) sample_world
    = (self', Ok m, w')
    /\ decryption_time m = encryption_time m * 1.1.
Proof.
  assert (E : exists self' m w',
             establish_tunnel (VPNTunnel_init "Traditional" 100) sample_world
             = (self', Ok m, w')).
  { eexists _, _, _. lazy. reflexivity. }
  destruct E as (self' & m & w' & E).
  exists self', m, w'. split; [exact E|].
  exact (decryption_is_encryption_times_1_1
           (VPNTunnel_init "Traditional" 100) self' m sample_world w' E).
Defined.

(** What [send_data] raises on a tunnel that is not established. *)
Definition not_established_error : PyError :=
  Exception "Túnel no establecido. Llamar a establish_tunnel() primero.".

(** [send_data] checks the state first.  On an established tunnel it reads
    the clock, encrypts, which reads the clock twice around a sleep, and
    reads the clock again; it never assigns to the tunnel. *)
Lemma send_data_run (size_kb : Z) (self : VPNTunnel) (w : World) :
  send_data size_kb self w
  = if negb (established self)
    then (self, Raise not_established_error, w)
    else match sleep_outcome (encrypt_sleep size_kb (draw w 0)) with
         | Ok _ =>
             (self,
              Ok (mkSendReport size_kb
                    ((reading w 2 - reading w 1) * 1000)
                    ((reading w 3 - reading w 0) * 1000)),
              advance w 4 0 2)
         | Raise e => (self, Raise e, advance w 2 0 1)
         end.
Proof.
  destruct w as [ck cal rg ri sh cr sr rd], self as [kind size est secret].
  unfold send_data, encrypt_data, not_established_error.
  destruct est; run_sim; [|reflexivity].
  split_sleeps; reflexivity.
Qed.

(** The sequence of operations a caller applies to a tunnel object, going
    on after a call that raised. *)
Inductive TunnelOp : Type :=
| OpEstablish
| OpSend (size_kb : Z).

Definition is_establish (op : TunnelOp) : bool :=
  match op with OpEstablish => true | OpSend _ => false end.

Definition is_send (op : TunnelOp) : bool :=
  match op with OpEstablish => false | OpSend _ => true end.

(** One operation: the tunnel it leaves and whether the call returned. *)
Definition run_op (op : TunnelOp) (self : VPNTunnel)
  : Sim (VPNTunnel * bool) :=
  fun w =>
    match op with
    | OpEstablish =>
        let '(self', r, w') := establish_tunnel self w in
        (self', is_ok r, w')
    | OpSend size_kb =>
        let '(self', r, w') := send_data size_kb self w in
        (self', is_ok r, w')
    end.

(** The operations in turn: the tunnel they leave, and for each operation
    whether it returned. *)
Fixpoint run_ops (ops : list TunnelOp) (self : VPNTunnel)
  : Sim (VPNTunnel * list bool) :=
  match ops with
  | [] => ret (self, [])
  | op :: ops' =>
      let* (self', returned) := run_op op self in
      let* (self'', rest) := run_ops ops' self' in
      ret (self'', returned :: rest)
  end.

(** Whether one of the operations was an [establish_tunnel] that
    returned. *)
Fixpoint established_by (ops : list TunnelOp) (returned : list bool)
  : bool :=
  match ops, returned with
  | op :: ops', r :: returned' =>
      (is_establish op && r) || established_by ops' returned'
  | _, _ => false
  end.

(** Whether every [send_data] that returned came after an
    [establish_tunnel] that returned, on a tunnel whose state at the start
    is [ready]. *)
Fixpoint sends_in_order (ready : bool) (ops : list TunnelOp)
    (returned : list bool) : bool :=
  match ops, returned with
  | op :: ops', r :: returned' =>
      (if is_send op && r then ready else true)
      && sends_in_order (ready || (is_establish op && r)) ops' returned'
  | _, _ => true
  end.

Lemma establish_tunnel_state (self self' : VPNTunnel)
    (r : result VPNMetrics) (w w' : World) :
  establish_tunnel self w = (self', r, w') ->
  established self' = established self || is_ok r.
Proof.
  rewrite establish_tunnel_of_phases.
  pose proof (establish_tunnel_phases_run self w) as H.
  destruct (establish_tunnel_phases self w) as [[s [[m ph]|e]] w0];
    intros E; inversion E; subst; cbn [is_ok].
  - destruct H as (_ & -> & _). now rewrite orb_true_r.
  - destruct H as (_ & -> & _). now rewrite orb_false_r.
Qed.

Lemma send_data_state (size_kb : Z) (self self' : VPNTunnel)
    (r : result SendReport) (w w' : World) :
  send_data size_kb self w = (self', r, w') ->
  self' = self /\ (is_ok r = true -> established self = true).
Proof.
  rewrite send_data_run.
  destruct (established self); cbn [negb].
  - destruct (sleep_outcome _) as [[]|e]; intros E; inversion E; auto.
  - intros E; inversion E; subst. split; [reflexivity|discriminate].
Qed.

Lemma run_ops_state (ops : list TunnelOp) :
  forall (self : VPNTunnel) (w : World),
    let '(self', returned, _) := run_ops ops self w in
    length returned = length ops
    /\ established self'
       = established self || established_by ops returned
    /\ sends_in_order (established self) ops returned = true.
Proof.
  induction ops as [|op ops IH]; intros self w.
  - cbn. now rewrite orb_false_r.
  - cbn [run_ops]. unfold bind at 1.
    destruct (run_op op self w) as [[self1 r] w1] eqn:E1.
    unfold bind at 1. specialize (IH self1 w1).
    destruct (run_ops ops self1 w1) as [[self2 rest] w2].
    unfold ret. destruct IH as (Hlen & Hest & Hord).
    cbn [length established_by sends_in_order].
    assert (H1 : established self1
                 = established self || (is_establish op && r)
                 /\ (is_send op && r = true -> established self = true)).
    { unfold run_op in E1. destruct op as [|size_kb].
      - destruct (establish_tunnel self w) as [[s r0] w0] eqn:E.
        inversion E1; subst. cbn [is_establish is_send andb].
        split; [exact (establish_tunnel_state _ _ _ _ _ E)|discriminate].
      - destruct (send_data size_kb self w) as [[s r0] w0] eqn:E.
        inversion E1; subst. cbn [is_establish is_send andb].
        destruct (send_data_state _ _ _ _ _ _ E) as [-> H].
        split; [now rewrite orb_false_r|exact H]. }
    destruct H1 as [H1 H2]. rewrite <- H1, Hord, Hest, H1.
    split; [now rewrite Hlen|]. split; [now rewrite orb_assoc|].
    rewrite andb_true_r.
    destruct (is_send op && r); [apply H2|]; reflexivity.
Qed.

(** C4.  A tunnel object is not established when it is constructed, and a
    call of [establish_tunnel] establishes it exactly when it returns: a
    call that raises leaves the state as it was.  On a tunnel that is not
    established [send_data] raises, for every size, the exception that says
    so, and changes nothing.  When [send_data] returns, the tunnel was
    established, it is left as it was, and what is returned is the size
    sent with the encryption time and the total time, measured on the
    clock, in milliseconds; on an established tunnel it does return for
    every size from 0 to 10^12 KB, and for a negative size it raises the
    [ValueError] of [time.sleep].  So in every sequence of calls on a fresh
    tunnel, whatever raised in between, the tunnel ends established exactly
    when an [establish_tunnel] returned, and every [send_data] that returned
    came after one. *)
Theorem send_data_requires_established :
  (forall tunnel_type packet_size_kb,
      established (VPNTunnel_init tunnel_type packet_size_kb) = false)
  /\ (forall self w self' r w',
         establish_tunnel self w = (self', r, w') ->
         established self' = established self || is_ok r)
  /\ (forall size_kb self w,
         established self = false ->
         send_data size_kb self w = (self, Raise not_established_error, w))
  /\ (forall size_kb self w self' report w',
         send_data size_kb self w = (self', Ok report, w') ->
         established self = true
         /\ self' = self
         /\ report = mkSendReport size_kb
                       ((reading w 2 - reading w 1) * 1000)
                       ((reading w 3 - reading w 0) * 1000)
         /\ w' = advance w 4 0 2)
  /\ (forall size_kb self w,
         established self = true ->
         0 <= draw w 0 -> draw w 0 <= 1 ->
         (sized size_kb ->
          exists report,
            send_data size_kb self w = (self, Ok report, advance w 4 0 2))
         /\ ((-1000000000000 <= size_kb < 0)%Z ->
             send_data size_kb self w
             = (self, Raise ValueError, advance w 2 0 1)))
  /\ (forall tunnel_type packet_size_kb ops w,
         let '(self, returned, _) :=
           run_ops ops (VPNTunnel_init tunnel_type packet_size_kb) w in
         length returned = length ops
         /\ established self = established_by ops returned
         /\ sends_in_order false ops returned = true).
Proof.
  split; [reflexivity|]. split.
  { intros self w self' r w'. apply establish_tunnel_state. }
  split.
  { intros size_kb self w He. rewrite send_data_run, He. reflexivity. }
  split.
  { intros size_kb self w self' report w'. rewrite send_data_run.
    destruct (established self); cbn [negb]; [|discriminate].
    destruct (sleep_outcome _) as [[]|e]; intros E; inversion E.
    repeat split. }
  split.
  { intros size_kb self w He H0 H1. rewrite send_data_run, He. cbn [negb].
    split; intros Hsize.
    - rewrite (encrypt_sleep_accepted _ _ Hsize H0 H1). eexists. reflexivity.
    - rewrite (encrypt_sleep_refused _ _ Hsize H0 H1). reflexivity. }
  intros tunnel_type packet_size_kb ops w.
  exact (run_ops_state ops (VPNTunnel_init tunnel_type packet_size_kb) w).
Qed.

(** The C4 theorem in the sample world: [send_data] is refused on a fresh
    post-quantum tunnel, and after [establish_tunnel] has returned it
    returns, with an encryption time of one millisecond and a total time of
    three. *)
Lemma send_data_requires_established_witness :
  send_data 100 (VPNTunnel_init "PostQuantum" 100) sample_world
  = (VPNTunnel_init "PostQuantum" 100, Raise not_established_error,
     sample_world)
  /\ exists self m w report,
       establish_tunnel (VPNTunnel_init "PostQuantum" 100) sample_world
       = (self, Ok m, w)
       /\ established self = true
       /\ send_data 100 self w = (self, Ok report, advance w 4 0 2)
       /\ size_kb report = 100%Z
       /\ encryption_time_ms report == 1
       /\ total_time_ms report == 3.
Proof.
  destruct send_data_requires_established
    as (Hinit & Hest & Hnot & Hret & Hok & _).
  split.
  { apply Hnot, Hinit. }
  assert (E : exists self m w,
             establish_tunnel (VPNTunnel_init "PostQuantum" 100) sample_world
             = (self, Ok m, w)
             /\ draw w 0 == 0.5
             /\ (reading w 2 - reading w 1) * 1000 == 1
             /\ (reading w 3 - reading w 0) * 1000 == 3).
  { eexists _, _, _. split; [lazy; reflexivity|].
    repeat split; vm_compute; reflexivity. }
  destruct E as (self & m & w & E & Hd & He & Ht).
  pose proof (Hest _ _ _ _ _ E) as Hs. rewrite Hinit in Hs. cbn in Hs.
  assert (H0 : 0 <= draw w 0) by (rewrite Hd; discriminate).
  assert (H1 : draw w 0 <= 1) by (rewrite Hd; discriminate).
  destruct (Hok 100%Z self w Hs H0 H1) as [Hsend _].
  destruct Hsend as [report Hsend]; [split; lia|].
  destruct (Hret _ _ _ _ _ _ Hsend) as (_ & _ & -> & _).
  exists self, m, w. eexists. split; [exact E|]. split; [exact Hs|].
  split; [exact Hsend|]. cbn [size_kb encryption_time_ms total_time_ms].
  split; [reflexivity|]. split; assumption.
Defined.

(* ===================================================================== *)
(** ** Properties of the metrics analyzer                                 *)
(* ===================================================================== *)

(** The value [avg] returns. *)
Definition mean_of (metrics : list VPNMetrics) (field : NumericField) : Q :=
  match map (fun m => getattr m field) metrics with
  | [] => 0
  | values => sum values / inject_Z (Z.of_nat (length values))
  end.

(** The averages of one family. *)
Definition stats_of (metrics : list VPNMetrics) : FamilyStats :=
  mkFamilyStats (mean_of metrics F_handshake_total_time * 1000)
                (mean_of metrics F_latency_ms)
                (mean_of metrics F_throughput_mbps)
                (mean_of metrics F_cpu_usage_percent)
                (mean_of metrics F_memory_mb)
                (mean_of metrics F_key_size).

(** The six divisors of the overhead analysis are all different from zero:
    the traditional average of five dimensions, and the post-quantum average
    of the throughput. *)
Definition divisors_nonzero (trad pqc : FamilyStats) : bool :=
  negb (Qeq_bool (avg_handshake_ms trad) 0)
  && negb (Qeq_bool (avg_latency_ms trad) 0)
  && negb (Qeq_bool (avg_throughput_mbps pqc) 0)
  && negb (Qeq_bool (avg_cpu_percent trad) 0)
  && negb (Qeq_bool (avg_memory_mb trad) 0)
  && negb (Qeq_bool (avg_key_size_bytes trad) 0).

(** The ratios of the overhead analysis when no division fails. *)
Definition ratios_of (trad pqc : FamilyStats) : OverheadAnalysis :=
  mkOverheadAnalysis
    ((avg_handshake_ms pqc / avg_handshake_ms trad - 1) * 100)
    ((avg_latency_ms pqc / avg_latency_ms trad - 1) * 100)
    ((avg_throughput_mbps trad / avg_throughput_mbps pqc - 1) * 100)
    ((avg_cpu_percent pqc / avg_cpu_percent trad - 1) * 100)
    ((avg_memory_mb pqc / avg_memory_mb trad - 1) * 100)
    ((avg_key_size_bytes pqc / avg_key_size_bytes trad - 1) * 100).

Lemma avg_ok (metrics : list VPNMetrics) (field : NumericField) :
  avg metrics field = Ok (mean_of metrics field).
Proof.
  unfold avg, mean_of, statistics_mean.
  destruct (map (fun m => getattr m field) metrics); reflexivity.
Qed.

Lemma family_stats_ok (metrics : list VPNMetrics) :
  family_stats metrics = Ok (stats_of metrics).
Proof. unfold family_stats. rewrite !avg_ok. reflexivity. Qed.

Lemma family_averages_ok (metrics : list VPNMetrics) :
  family_averages metrics
  = Ok (stats_of (traditional_metrics metrics),
        stats_of (pqc_metrics metrics)).
Proof. unfold family_averages. rewrite !family_stats_ok. reflexivity. Qed.

Lemma overhead_of_spec (trad pqc : FamilyStats) :
  overhead_of trad pqc
  = if divisors_nonzero trad pqc then Ok (ratios_of trad pqc)
    else Raise ZeroDivisionError.
Proof.
  unfold overhead_of, divisors_nonzero, truediv, ratios_of.
  destruct (Qeq_bool (avg_handshake_ms trad) 0); [reflexivity|].
  destruct (Qeq_bool (avg_latency_ms trad) 0); [reflexivity|].
  destruct (Qeq_bool (avg_throughput_mbps pqc) 0); [reflexivity|].
  destruct (Qeq_bool (avg_cpu_percent trad) 0); [reflexivity|].
  destruct (Qeq_bool (avg_memory_mb trad) 0); [reflexivity|].
  destruct (Qeq_bool (avg_key_size_bytes trad) 0); reflexivity.
Qed.

(** What [generate_report] returns, in every case. *)
Lemma generate_report_spec (metrics : list VPNMetrics) (w : World) :
  let trad := stats_of (traditional_metrics metrics) in
  let pqc := stats_of (pqc_metrics metrics) in
  fst (generate_report metrics w)
  = if divisors_nonzero trad pqc
    then Ok (mkReport (calendar w (calendar_reads w)) (length metrics)
                      trad pqc (ratios_of trad pqc))
    else Raise ZeroDivisionError.
Proof.
  unfold generate_report, bind. cbn [datetime_now_isoformat ret fst].
  rewrite family_averages_ok. cbn [rbind]. rewrite overhead_of_spec.
  destruct (divisors_nonzero _ _); reflexivity.
Qed.

(** Two records, one of each family, with values in the ranges the tunnel
    simulator draws from. *)
Definition traditional_record : VPNMetrics :=
  mkVPNMetrics "2025-11-25T10:00:00" "Traditional"
               0.0625 0.03125 0.09375 0.0009765625 (0.0009765625 * 1.1)
               256 102400 256 16 90 0.25 20 64.

Definition postquantum_record : VPNMetrics :=
  mkVPNMetrics "2025-11-25T10:00:01" "PostQuantum"
               0.0009765625 0.001953125 0.01171875 0.0009765625
               (0.0009765625 * 1.1)
               3584 1088 3293 24 72 0.5 30 96.


(** The traditional record with a throughput of zero. *)
Definition stalled_record : VPNMetrics :=
  mkVPNMetrics "2025-11-25T10:00:00" "Traditional"
               0.0625 0.03125 0.09375 0.0009765625 (0.0009765625 * 1.1)
               256 102400 256 16 0 0.25 20 64.




(** C3, as stated, fails: with the stalled traditional record the
    traditional average of the throughput is zero, and [generate_report]
    raises nothing; it returns a report whose throughput entry is
    [(0 / 72 - 1) * 100 = -100]. *)
Lemma zero_traditional_throughput_is_not_flagged :
  exists r,
    fst (generate_report [stalled_record; postquantum_record] sample_world)
    = Ok r
    /\ avg_throughput_mbps (traditional r) == 0
    /\ throughput_degradation_percent (overhead_analysis r) == -100.
Proof.
  eexists. split; [vm_compute; reflexivity|].
  split; reflexivity.
Qed.

(** C3, amended.  When the traditional average of the handshake time, the
    latency, the CPU use, the memory or the key size is zero,
    [generate_report] raises [ZeroDivisionError] and returns no report, so no
    ratio of any kind.  For the throughput the divisor is the post-quantum
    average: the report raises when that one is zero, and a traditional
    throughput average of zero is, by itself, no error. *)
Theorem zero_divisor_raises :
  (forall metrics w t p,
      family_averages metrics = Ok (t, p) ->
      avg_handshake_ms t == 0 \/ avg_latency_ms t == 0
      \/ avg_cpu_percent t == 0 \/ avg_memory_mb t == 0
      \/ avg_key_size_bytes t == 0 \/ avg_throughput_mbps p == 0 ->
      fst (generate_report metrics w) = Raise ZeroDivisionError)
  /\ (forall metrics w t p,
         family_averages metrics = Ok (t, p) ->
         divisors_nonzero t p = true ->
         avg_throughput_mbps t == 0 ->
         exists r,
           fst (generate_report metrics w) = Ok r
           /\ throughput_degradation_percent (overhead_analysis r) == -100).
Proof.
  split.
  - intros metrics w t p Hfam Hz. rewrite family_averages_ok in Hfam.
    injection Hfam as <- <-. rewrite generate_report_spec.
    unfold divisors_nonzero.
    destruct Hz as [H|[H|[H|[H|[H|H]]]]];
      apply Qeq_bool_iff in H; rewrite H; cbn [negb andb];
      rewrite ?andb_false_r; reflexivity.
  - intros metrics w t p Hfam Hnz Hz. rewrite family_averages_ok in Hfam.
    injection Hfam as <- <-. rewrite generate_report_spec, Hnz.
    eexists. split; [reflexivity|].
    cbn [overhead_analysis ratios_of throughput_degradation_percent].
    rewrite Hz. unfold divisors_nonzero in Hnz.
    assert (Hp : ~ avg_throughput_mbps
                     (stats_of (pqc_metrics metrics)) == 0).
    { intros Hp. apply Qeq_bool_iff in Hp. rewrite Hp in Hnz.
      cbn [negb andb] in Hnz. rewrite ?andb_false_r in Hnz.
      discriminate Hnz. }
    field. exact Hp.
Qed.

(** The C3 theorem at a record set without traditional records: every
    traditional average is zero and the report raises. *)
Lemma zero_divisor_raises_witness :
  fst (generate_report [postquantum_record] sample_world)
  = Raise ZeroDivisionError.
Proof.
  refine (proj1 zero_divisor_raises [postquantum_record] sample_world
            _ _ (family_averages_ok [postquantum_record]) _).
  left. reflexivity.
Defined.

(** The record set without any record: the averages are computed, and the
    overhead analysis that follows them raises. *)
Lemma generate_report_empty_raises (w : World) :
  fst (generate_report [] w) = Raise ZeroDivisionError.
Proof. reflexivity. Qed.

(** The family averages of an empty family. *)
Definition zero_stats : FamilyStats := mkFamilyStats 0 0 0 0 0 0.

Lemma stats_of_empty : stats_of [] = zero_stats.
Proof. reflexivity. Qed.

(** C6.  The aggregation of [generate_report] does not return zero-valued
    statistics for an empty record set: it raises [ZeroDivisionError], and
    it does so as soon as one of the two families has no record, because
    the averages of an empty family are the divisors, or give the divisor,
    of the overhead analysis.  What holds is the part about the helpers:
    [avg] returns 0 for every numeric field of an empty family, so the
    averages of an empty family are all zero, and [stdev] returns 0 for a
    family of no record or of exactly one. *)
Theorem empty_family_report_raises (sqrt : Q -> Q) :
  (forall w, fst (generate_report [] w) = Raise ZeroDivisionError)
  /\ (forall metrics w,
         traditional_metrics metrics = [] \/ pqc_metrics metrics = [] ->
         fst (generate_report metrics w) = Raise ZeroDivisionError)
  /\ (forall field, avg [] field = Ok 0)
  /\ family_stats [] = Ok zero_stats
  /\ family_averages [] = Ok (zero_stats, zero_stats)
  /\ (forall field, stdev sqrt [] field = Ok 0)
  /\ (forall m field, stdev sqrt [m] field = Ok 0).
Proof.
  split; [reflexivity|]. split.
  { intros metrics w H. rewrite generate_report_spec. cbv zeta.
    unfold divisors_nonzero.
    destruct H as [-> | ->]; rewrite stats_of_empty;
      cbn [zero_stats avg_handshake_ms avg_throughput_mbps];
      change (Qeq_bool 0 0) with true; cbn [negb andb];
      rewrite ?andb_false_r; reflexivity. }
  repeat split; reflexivity.
Qed.

(** The C6 theorem at a record set of one post-quantum record: the
    traditional family is empty and the report raises. *)
Lemma empty_family_report_raises_witness :
  fst (generate_report [postquantum_record] sample_world)
  = Raise ZeroDivisionError.
Proof.
  refine (proj1 (proj2 (empty_family_report_raises (fun x => x)))
            [postquantum_record] sample_world _).
  left. reflexivity.
Defined.

(* ===================================================================== *)
(** ** Properties of the load model                                       *)
(* ===================================================================== *)

Import Topology.

Lemma Qltb_lt (a b : Q) : Qltb a b = true <-> a < b.
Proof.
  unfold Qltb. rewrite negb_true_iff, <- not_true_iff_false, Qle_bool_iff.
  split; [apply Qnot_le_lt | apply Qlt_not_le].
Qed.

Lemma Qltb_ge (a b : Q) : Qltb a b = false <-> b <= a.
Proof.
  unfold Qltb. rewrite negb_false_iff. apply Qle_bool_iff.
Qed.

(** Whether the attempt that takes draw number [n] fails. *)
Definition attempt_fails (concurrent_users : Z) (draws : nat -> Q) (n : nat)
  : bool :=
  Qltb (draws n) (failure_probability concurrent_users).

(** The times the loop appends for the users in turn, the first of them
    taking draw number [n]: a failed attempt counts three times its
    connection time. *)
Fixpoint attempt_times (base_time concurrent_users : Z) (draws : nat -> Q)
    (n : nat) (users : list UserLocation) : list Q :=
  match users with
  | [] => []
  | user :: rest =>
      (if attempt_fails concurrent_users draws n
       then connection_time_of base_time user * 3
       else connection_time_of base_time user)
      :: attempt_times base_time concurrent_users draws (S n) rest
  end.

(** The number of failed attempts among them. *)
Fixpoint failures (concurrent_users : Z) (draws : nat -> Q) (n : nat)
    (users : list UserLocation) : Z :=
  match users with
  | [] => 0
  | _ :: rest =>
      ((if attempt_fails concurrent_users draws n then 1 else 0)
       + failures concurrent_users draws (S n) rest)%Z
  end.

(** The tally after the attempt of [user] in world [w]. *)
Definition tally_after (base_time concurrent_users : Z) (tally : Tally)
    (user : UserLocation) (w : World) : Tally :=
  if attempt_fails concurrent_users (rng w) (rng_draws w)
  then mkTally (connection_times tally
                ++ [connection_time_of base_time user * 3])
               (successful_connections tally)
               (failed_connections tally + 1)%Z
  else mkTally (connection_times tally ++ [connection_time_of base_time user])
               (successful_connections tally + 1)%Z
               (failed_connections tally).

Lemma attempt_run (base_time concurrent_users : Z) (tally : Tally)
    (user : UserLocation) (w : World) :
  attempt base_time concurrent_users tally user w
  = (tally_after base_time concurrent_users tally user w,
     snd (random_random w)).
Proof.
  unfold attempt, tally_after, attempt_fails, bind. cbn [random_random snd].
  destruct (Qltb (rng w (rng_draws w)) (failure_probability concurrent_users));
    reflexivity.
Qed.

Lemma attempts_spec (base_time concurrent_users : Z)
    (users : list UserLocation) :
  forall (tally : Tally) (w : World),
    let tally' := fst (attempts base_time concurrent_users tally users w) in
    connection_times tally'
    = (connection_times tally
       ++ attempt_times base_time concurrent_users (rng w) (rng_draws w)
                        users)%list
    /\ failed_connections tally'
       = (failed_connections tally
          + failures concurrent_users (rng w) (rng_draws w) users)%Z
    /\ (successful_connections tally' + failed_connections tally'
        = successful_connections tally + failed_connections tally
          + Z.of_nat (length users))%Z.
Proof.
  induction users as [|user rest IH]; intros tally w; cbv zeta.
  - cbn. rewrite app_nil_r. repeat split; lia.
  - cbn [attempts attempt_times failures length].
    unfold bind. rewrite attempt_run.
    destruct (IH (tally_after base_time concurrent_users tally user w)
                 (snd (random_random w))) as (Ht & Hf & Hs).
    cbn [random_random snd rng rng_draws] in *.
    rewrite Ht, Hs, Hf. unfold tally_after.
    destruct (attempt_fails concurrent_users (rng w) (rng_draws w));
      cbn [connection_times failed_connections successful_connections];
      rewrite <- app_assoc; repeat split; try reflexivity; lia.
Qed.

Lemma attempt_times_length (base_time concurrent_users : Z)
    (draws : nat -> Q) (users : list UserLocation) :
  forall n,
    length (attempt_times base_time concurrent_users draws n users)
    = length users.
Proof.
  induction users as [|user rest IH]; intros n; cbn; [|rewrite IH];
    reflexivity.
Qed.



Lemma np_max_scan (values : list Q) :
  forall m,
    let top := fold_left (fun m v => if Qltb m v then v else m) values m in
    (top = m \/ In top values)
    /\ m <= top /\ (forall v, In v values -> v <= top).
Proof.
  induction values as [|x values IH]; intros m; cbn [fold_left].
  - repeat split; [left; reflexivity|apply Qle_refl|intros v []].
  - destruct (IH (if Qltb m x then x else m)) as (Hin & Hle & Hall).
    cbv zeta. destruct (Qltb m x) eqn:E.
    + apply Qltb_lt in E. split; [|split].
      * right. destruct Hin as [->|Hin]; [left; reflexivity|right; exact Hin].
      * eapply Qle_trans; [apply Qlt_le_weak, E|exact Hle].
      * intros v [<-|Hv]; [exact Hle|apply Hall, Hv].
    + apply Qltb_ge in E. split; [|split].
      * destruct Hin as [->|Hin]; [left; reflexivity|right; right; exact Hin].
      * exact Hle.
      * intros v [<-|Hv]; [|apply Hall, Hv].
        eapply Qle_trans; [exact E|exact Hle].
Qed.

(** [np_max] returns an entry of the list that no entry exceeds. *)
Lemma np_max_spec (values : list Q) (top : Q) :
  np_max values = Ok top ->
  In top values /\ (forall v, In v values -> v <= top).
Proof.
  destruct values as [|x values]; [discriminate|]. cbn [np_max].
  intros H. injection H as <-.
  destruct (np_max_scan values x) as (Hin & Hle & Hall). split.
  - destruct Hin as [->|Hin]; [left; reflexivity|right; exact Hin].
  - intros v [<-|Hv]; [exact Hle|apply Hall, Hv].
Qed.

Lemma np_min_scan (values : list Q) :
  forall m,
    let low := fold_left (fun m v => if Qltb v m then v else m) values m in
    (low = m \/ In low values)
    /\ low <= m /\ (forall v, In v values -> low <= v).
Proof.
  induction values as [|x values IH]; intros m; cbn [fold_left].
  - repeat split; [left; reflexivity|apply Qle_refl|intros v []].
  - destruct (IH (if Qltb x m then x else m)) as (Hin & Hle & Hall).
    cbv zeta. destruct (Qltb x m) eqn:E.
    + apply Qltb_lt in E. split; [|split].
      * right. destruct Hin as [->|Hin]; [left; reflexivity|right; exact Hin].
      * eapply Qle_trans; [exact Hle|apply Qlt_le_weak, E].
      * intros v [<-|Hv]; [exact Hle|apply Hall, Hv].
    + apply Qltb_ge in E. split; [|split].
      * destruct Hin as [->|Hin]; [left; reflexivity|right; right; exact Hin].
      * exact Hle.
      * intros v [<-|Hv]; [|apply Hall, Hv].
        eapply Qle_trans; [exact Hle|exact E].
Qed.

(** [np_min] returns an entry of the list below which no entry is. *)
Lemma np_min_spec (values : list Q) (low : Q) :
  np_min values = Ok low ->
  In low values /\ (forall v, In v values -> low <= v).
Proof.
  destruct values as [|x values]; [discriminate|]. cbn [np_min].
  intros H. injection H as <-.
  destruct (np_min_scan values x) as (Hin & Hle & Hall). split.
  - destruct Hin as [->|Hin]; [left; reflexivity|right; exact Hin].
  - intros v [<-|Hv]; [exact Hle|apply Hall, Hv].
Qed.

(** The users [simulate_concurrent_connections] draws for a run. *)
Definition sample_of_run (self : RemoteAccessVPN) (concurrent_users : Z)
  : Sim (result (list UserLocation)) :=
  random_sample (user_locations self)
    (Z.min concurrent_users (Z.of_nat (length (user_locations self)))).

Lemma simulate_concurrent_connections_run (self : RemoteAccessVPN)
    (crypto_type : string) (concurrent_users : Z) (w : World) :
  fst (simulate_concurrent_connections self crypto_type concurrent_users w)
  = match sample_of_run self concurrent_users w with
    | (Raise e, _) => Raise e
    | (Ok active_users, w1) =>
        connection_metrics crypto_type concurrent_users
          (fst (attempts (base_time_of crypto_type) concurrent_users
                         (mkTally [] 0 0) active_users w1))
    end.
Proof.
  unfold simulate_concurrent_connections, sample_of_run, bindR, bind.
  destruct (random_sample _ _ w) as [[active_users|e] w1]; [|reflexivity].
  destruct (attempts _ _ _ active_users w1) as [tally w2]. reflexivity.
Qed.


(** A remote access network of two users. *)
Definition sample_vpn : RemoteAccessVPN :=
  mkRemoteAccessVPN 2
    [ mkUserLocation "USER_000" 500 Fiber 100;
      mkUserLocation "USER_001" 250 FourG 50 ].


(** C8.  With no concurrent user the simulation returns no metrics: no user
    is sampled, the list of connection times is empty, and [np.max] of the
    empty list raises [ValueError].  The success rate, further down the same
    dictionary, divides by the number of concurrent users and raises
    [ZeroDivisionError] for zero whatever the count of successes; so with
    zero concurrent users no tally at all yields metrics. *)
Theorem zero_concurrent_users_raises :
  (forall self crypto_type w,
      fst (simulate_concurrent_connections self crypto_type 0 w)
      = Raise ValueError)
  /\ (forall successful,
         truediv (inject_Z successful) (inject_Z 0) = Raise ZeroDivisionError)
  /\ (forall crypto_type tally,
         is_ok (connection_metrics crypto_type 0 tally) = false).
Proof.
  split; [|split].
  - intros self crypto_type w.
    rewrite simulate_concurrent_connections_run. unfold sample_of_run.
    rewrite Z.min_l by lia. unfold random_sample.
    destruct (Z.ltb_spec (Z.of_nat (length (user_locations self))) 0);
      [lia|].
    reflexivity.
  - reflexivity.
  - intros crypto_type tally. unfold connection_metrics.
    destruct (np_max _); [|reflexivity].
    destruct (np_min _); reflexivity.
Qed.

(* ===================================================================== *)
(** ** Properties of the algorithm tables                                 *)
(* ===================================================================== *)

Import Registry.

(** The metrics of a run under another algorithm name. *)
Definition with_crypto_type (name : string)
    (r : result ConnectionMetrics) : result ConnectionMetrics :=
  match r with
  | Ok m =>
      Ok (mkConnectionMetrics name (Topology.concurrent_users m)
            (avg_connection_time_ms m) (max_connection_time_ms m)
            (min_connection_time_ms m) (success_rate m) (failed m))
  | Raise e => Raise e
  end.

Lemma CRYPTO_PARAMS_total (c : CryptoType) :
  exists params, getitem CRYPTO_PARAMS c = Ok params.
Proof. destruct c; eexists; vm_compute; reflexivity. Qed.

(** C9, as stated, fails in the load model: the name ["RSA-3072"] has no
    entry in [base_times], its base time is the default 150, and the
    simulation returns metrics for it. *)
Lemma unknown_algorithm_gets_default :
  base_times !! "RSA-3072" = None
  /\ base_time_of "RSA-3072" = 150%Z
  /\ is_ok (fst (simulate_concurrent_connections sample_vpn "RSA-3072" 2
                   sample_world)) = true.
Proof. repeat split; vm_compute; reflexivity. Qed.

(** C9, amended.  Indexing the table of parameters with a key that has no
    entry raises [KeyError] and returns no default; every member of
    [CryptoType] has an entry, so in [simulate_key_exchange] the lookup
    succeeds and only a division can fail.  In the load model a name
    without entry in [base_times] is no error: its base time is 150, and
    the run is the run of an algorithm whose base time is 150, under that
    name. *)
Theorem unknown_algorithm_lookup :
  (forall (table : gmap CryptoType CryptoParams) c,
      table !! c = None -> getitem table c = Raise KeyError)
  /\ (forall c, exists params, getitem CRYPTO_PARAMS c = Ok params)
  /\ (forall self c packet_loss w,
         is_ok (fst (simulate_key_exchange self c packet_loss w))
         = negb (Qeq_bool (cpu_speed_ghz self * 1000000000) 0)
           && negb (Qeq_bool (Registry.bandwidth_mbps self * 1000000) 0))
  /\ (forall name,
         base_times !! name = None -> base_time_of name = 150%Z)
  /\ (forall self name concurrent_users w,
         base_times !! name = None ->
         fst (simulate_concurrent_connections self name concurrent_users w)
         = with_crypto_type name
             (fst (simulate_concurrent_connections self "Kyber-512"
                     concurrent_users w))).
Proof.
  assert (Hdefault : forall name,
             base_times !! name = None -> base_time_of name = 150%Z).
  { intros name H. unfold base_time_of. rewrite H. reflexivity. }
  split; [|split; [|split; [|split]]].
  - intros table c H. unfold getitem. rewrite H. reflexivity.
  - exact CRYPTO_PARAMS_total.
  - intros self c packet_loss w.
    destruct (CRYPTO_PARAMS_total c) as [params Hp].
    unfold simulate_key_exchange, bindR, ret. rewrite Hp. unfold truediv.
    destruct (Qeq_bool (cpu_speed_ghz self * 1000000000) 0); [reflexivity|].
    destruct (Qeq_bool (Registry.bandwidth_mbps self * 1000000) 0);
      [reflexivity|].
    unfold bind. destruct (retransmit _ _ _ _ w) as [[n t] w']. reflexivity.
  - exact Hdefault.
  - intros self name concurrent_users w H.
    rewrite !simulate_concurrent_connections_run, (Hdefault name H).
    change (base_time_of "Kyber-512") with 150%Z.
    destruct (sample_of_run self concurrent_users w)
      as [[active_users|e] w1]; [|reflexivity].
    unfold connection_metrics.
    destruct (np_max _); [|reflexivity].
    destruct (np_min _); [|reflexivity].
    cbn [rbind]. destruct (truediv _ _); reflexivity.
Qed.

(** The C9 theorem at the name ["RSA-3072"]. *)
Lemma unknown_algorithm_lookup_witness :
  base_time_of "RSA-3072" = 150%Z.
Proof.
  apply (proj1 (proj2 (proj2 (proj2 unknown_algorithm_lookup)))).
  vm_compute. reflexivity.
Defined.

(* ===================================================================== *)
(** ** Properties of the recommendation                                   *)
(* ===================================================================== *)

Import Frame.

Section FirstBest.

Context {A : Type} (better : A -> A -> bool) (P : A -> Prop).

Hypothesis better_trans : forall x y z,
  P x -> P y -> P z ->
  better x y = true -> better y z = true -> better x z = true.

Hypothesis better_cotrans : forall x y z,
  P x -> P y -> P z ->
  better x y = true -> better x z = true \/ better z y = true.

(** The scan keeps an entry that beats all the entries before it and that
    no entry after it beats. *)
Lemma first_best_scan (rest : list (nat * A)) :
  forall (pre : list (nat * A)) (best : nat * A) (mid : list (nat * A)),
    (forall x, In x (pre ++ best :: mid ++ rest) -> P (snd x)) ->
    (forall x, In x pre -> better (snd best) (snd x) = true) ->
    (forall x, In x mid -> better (snd x) (snd best) = false) ->
    exists pre' post',
      (pre ++ best :: mid ++ rest
       = pre' ++ first_best better best rest :: post')%list
      /\ (forall x, In x pre' ->
             better (snd (first_best better best rest)) (snd x) = true)
      /\ (forall x, In x post' ->
             better (snd x) (snd (first_best better best rest)) = false).
Proof using better_trans better_cotrans.
  induction rest as [|x rest IH]; intros pre best mid HP Hpre Hmid.
  - exists pre, mid. rewrite app_nil_r. auto.
  - cbn [first_best].
    assert (Pbest : P (snd best)).
    { apply HP. apply in_or_app. right. left. reflexivity. }
    assert (Px : P (snd x)).
    { apply HP. apply in_or_app. right. right. apply in_or_app. right.
      left. reflexivity. }
    destruct (better (snd x) (snd best)) eqn:E.
    + destruct (IH (pre ++ best :: mid)%list x []) as (pre' & post' & H).
      * intros y Hy. apply HP. cbn [app] in Hy.
        rewrite <- app_assoc in Hy. exact Hy.
      * intros y Hy. apply in_app_or in Hy.
        assert (Py : P (snd y)).
        { apply HP. apply in_or_app. destruct Hy as [Hy|[Hy|Hy]].
          - left. exact Hy.
          - right. left. exact Hy.
          - right. right. apply in_or_app. left. exact Hy. }
        destruct Hy as [Hy|[<-|Hy]].
        -- exact (better_trans _ _ _ Px Pbest Py E (Hpre y Hy)).
        -- exact E.
        -- destruct (better_cotrans _ _ (snd y) Px Pbest Py E) as [H|H];
             [exact H|]. rewrite (Hmid y Hy) in H. discriminate H.
      * intros y [].
      * exists pre', post'. cbn [app] in H. rewrite <- app_assoc in H.
        exact H.
    + destruct (IH pre best (mid ++ [x])%list) as (pre' & post' & H).
      * intros y Hy. apply HP. rewrite <- app_assoc in Hy. exact Hy.
      * exact Hpre.
      * intros y Hy. apply in_app_or in Hy. destruct Hy as [Hy|[<-|[]]].
        -- apply Hmid, Hy.
        -- exact E.
      * exists pre', post'. rewrite <- app_assoc in H. exact H.
Qed.

Lemma first_best_spec (best : nat * A) (rest : list (nat * A)) :
  (forall x, In x (best :: rest) -> P (snd x)) ->
  exists pre post,
    best :: rest = (pre ++ first_best better best rest :: post)%list
    /\ (forall x, In x pre ->
           better (snd (first_best better best rest)) (snd x) = true)
    /\ (forall x, In x post ->
           better (snd x) (snd (first_best better best rest)) = false).
Proof using better_trans better_cotrans.
  intros HP.
  apply (first_best_scan rest [] best []); [exact HP| |]; intros x [].
Qed.

End FirstBest.

Lemma Qgtb_trans (x y z : Q) :
  Qltb y x = true -> Qltb z y = true -> Qltb z x = true.
Proof.
  rewrite !Qltb_lt. intros H1 H2. eapply Qlt_trans; eassumption.
Qed.

Lemma Qgtb_cotrans (x y z : Q) :
  Qltb y x = true -> Qltb z x = true \/ Qltb y z = true.
Proof.
  rewrite !Qltb_lt. intros H.
  destruct (Qlt_le_dec z x) as [Hz|Hz]; [left; exact Hz|right].
  eapply Qlt_le_trans; eassumption.
Qed.

Lemma f64_ltb_trans (x y z : float64) :
  f64_ltb x y = true -> f64_ltb y z = true -> f64_ltb x z = true.
Proof.
  destruct x as [|[]|x], y as [|[]|y], z as [|[]|z]; cbn;
    try discriminate; try reflexivity.
  rewrite !Qltb_lt. intros H1 H2. eapply Qlt_trans; eassumption.
Qed.

Lemma f64_ltb_cotrans (x y z : float64) :
  f64_isnan z = false ->
  f64_ltb x y = true -> f64_ltb x z = true \/ f64_ltb z y = true.
Proof.
  destruct x as [|[]|x], y as [|[]|y], z as [|[]|z]; cbn;
    try discriminate; auto.
  rewrite !Qltb_lt. intros _ H.
  destruct (Qlt_le_dec x z) as [Hz|Hz]; [left; exact Hz|right].
  eapply Qle_lt_trans; eassumption.
Qed.

(** A decomposition of a filtered list comes from one of the list. *)
Lemma filter_split {A : Type} (p : A -> bool) (l : list A) :
  forall (a : list A) (r : A) (b : list A),
    List.filter p l = (a ++ r :: b)%list ->
    exists pre post,
      l = (pre ++ r :: post)%list
      /\ List.filter p pre = a /\ List.filter p post = b /\ p r = true.
Proof.
  induction l as [|x l IH]; intros a r b H; cbn [List.filter] in H.
  - destruct a; discriminate H.
  - destruct (p x) eqn:E.
    + destruct a as [|a0 a]; cbn [app] in H; injection H as -> H.
      * exists [], l. cbn. auto.
      * destruct (IH _ _ _ H) as (pre & post & -> & Ha & Hb & Hr).
        exists (a0 :: pre), post. cbn [app List.filter]. rewrite E, Ha.
        auto.
    + destruct (IH _ _ _ H) as (pre & post & -> & Ha & Hb & Hr).
      exists (x :: pre), post. cbn [app List.filter]. rewrite E. auto.
Qed.

(** [idxmax] returns the label of an entry that is larger than every entry
    before it and at least as large as every entry after it. *)
Lemma idxmax_spec (col : list (nat * Q)) (label : nat) :
  idxmax col = Ok label ->
  exists pre v post,
    col = (pre ++ (label, v) :: post)%list
    /\ (forall x, In x pre -> snd x < v)
    /\ (forall x, In x post -> snd x <= v).
Proof.
  destruct col as [|best rest]; [discriminate|].
  cbn [idxmax]. intros H. injection H as <-.
  destruct (first_best_spec (fun a b => Qltb b a) (fun _ => True))
    with (best := best) (rest := rest) as (pre & post & Heq & Hpre & Hpost).
  - intros x y z _ _ _. apply Qgtb_trans.
  - intros x y z _ _ _. apply Qgtb_cotrans.
  - auto.
  - exists pre, (snd (first_best (fun a b => Qltb b a) best rest)), post.
    rewrite <- surjective_pairing. split; [exact Heq|]. split.
    + intros x Hx. apply Qltb_lt, Hpre, Hx.
    + intros x Hx. apply Qltb_ge, Hpost, Hx.
Qed.

(** [idxmin] returns the label of an entry that is a number, smaller than
    every number before it and at most as large as every number after
    it. *)
Lemma idxmin_spec (col : list (nat * float64)) (label : nat) :
  idxmin col = Ok label ->
  exists pre v post,
    col = (pre ++ (label, v) :: post)%list
    /\ f64_isnan v = false
    /\ (forall x, In x pre ->
           f64_isnan (snd x) = true \/ f64_ltb v (snd x) = true)
    /\ (forall x, In x post -> f64_ltb (snd x) v = false).
Proof.
  unfold idxmin.
  destruct (List.filter _ col) as [|best rest] eqn:Hf; [discriminate|].
  intros H. injection H as <-.
  destruct (first_best_spec f64_ltb (fun a => f64_isnan a = false))
    with (best := best) (rest := rest) as (pre & post & Heq & Hpre & Hpost).
  - intros x y z _ _ _. apply f64_ltb_trans.
  - intros x y z _ _ Hz. apply f64_ltb_cotrans, Hz.
  - intros x Hx. rewrite <- Hf in Hx. apply filter_In in Hx.
    apply negb_true_iff, Hx.
  - rewrite Heq in Hf.
    destruct (filter_split _ _ _ _ _ Hf)
      as (pre0 & post0 & -> & Hpre0 & Hpost0 & Hr).
    exists pre0, (snd (first_best f64_ltb best rest)), post0.
    rewrite <- surjective_pairing. split; [reflexivity|].
    split; [apply negb_true_iff, Hr|]. split.
    + intros x Hx. destruct (f64_isnan (snd x)) eqn:E; [left; reflexivity|].
      right. apply Hpre. rewrite <- Hpre0. apply filter_In.
      rewrite E. auto.
    + intros x Hx. destruct (f64_isnan (snd x)) eqn:E.
      * destruct (snd x); try discriminate E. reflexivity.
      * apply Hpost. rewrite <- Hpost0. apply filter_In. rewrite E. auto.
Qed.

Lemma map_fst_combine_seq {A : Type} (l : list A) :
  forall s, map fst (combine (seq s (length l)) l) = seq s (length l).
Proof.
  induction l as [|x l IH]; intros s; cbn; [|rewrite IH]; reflexivity.
Qed.

Lemma map_snd_combine_seq {A : Type} (l : list A) :
  forall s, map snd (combine (seq s (length l)) l) = l.
Proof.
  induction l as [|x l IH]; intros s; cbn; [|rewrite IH]; reflexivity.
Qed.

(** In a column labelled by position, the label of an entry is the number
    of entries before it. *)
Lemma combine_seq_split {A : Type} (l : list A) (s : nat)
    (pre : list (nat * A)) (i : nat) (v : A) (post : list (nat * A)) :
  combine (seq s (length l)) l = (pre ++ (i, v) :: post)%list ->
  i = (s + length pre)%nat
  /\ l = (map snd pre ++ v :: map snd post)%list.
Proof.
  intros H. split.
  - apply (f_equal (map fst)) in H.
    rewrite map_fst_combine_seq, map_app in H. cbn [map fst] in H.
    assert (Hlen : (length pre < length l)%nat).
    { apply (f_equal (@length nat)) in H.
      rewrite length_seq, length_app, length_map in H. cbn in H. lia. }
    pose proof (seq_nth s 0%nat Hlen) as Hn.
    rewrite H in Hn. rewrite <- (length_map fst pre) in Hn at 1.
    rewrite nth_middle in Hn. exact Hn.
  - apply (f_equal (map snd)) in H.
    rewrite map_snd_combine_seq, map_app in H. exact H.
Qed.

Lemma map_split {A B : Type} (g : A -> B) (l : list A)
    (a : list B) (v : B) (b : list B) :
  map g l = (a ++ v :: b)%list ->
  exists l1 x l2,
    l = (l1 ++ x :: l2)%list /\ map g l1 = a /\ g x = v /\ map g l2 = b.
Proof.
  intros H. apply map_eq_app in H. destruct H as (l1 & l2' & -> & Ha & H).
  apply map_eq_cons in H. destruct H as (x & l2 & -> & Hx & Hb).
  exists l1, x, l2. auto.
Qed.

(** The criterion of the recommendation of [generate_report] on a row of
    [self.pqc]: its entry in the column ['throughput_reduction_%']. *)
Definition reduction_of (self : VPNAnalyzer) (lr : nat * ResultRow)
  : float64 :=
  throughput_reduction (overhead_of_row self (snd lr)).

Lemma best_pqc_spec (self : VPNAnalyzer) (name : string) :
  Frame.best_pqc self = Ok name ->
  exists pre lr post,
    pqc self = (pre ++ lr :: post)%list
    /\ algorithm (snd lr) = name
    /\ f64_isnan (reduction_of self lr) = false
    /\ (forall x, In x pre ->
           f64_isnan (reduction_of self x) = true
           \/ f64_ltb (reduction_of self lr) (reduction_of self x) = true)
    /\ (forall x, In x post ->
           f64_ltb (reduction_of self x) (reduction_of self lr) = false).
Proof.
  unfold Frame.best_pqc.
  destruct (calculate_overhead self) as [|o odf] eqn:Ho; [discriminate|].
  rewrite <- Ho.
  destruct (idxmin _) as [idx|] eqn:Hi; [|discriminate]. cbn [rbind].
  destruct (nth_error _ idx) as [row|] eqn:Hn; [|discriminate].
  intros H. injection H as <-.
  apply idxmin_spec in Hi.
  destruct Hi as (pre & v & post & Hc & Hv & Hpre & Hpost).
  rewrite <- (length_map throughput_reduction) in Hc.
  apply combine_seq_split in Hc. destruct Hc as [-> Hc]. cbn [Nat.add] in Hn.
  unfold calculate_overhead in Hc, Hn. rewrite map_map in Hc.
  apply map_split in Hc.
  destruct Hc as (l1 & lr & l2 & Hpqc & H1 & Hlr & H2).
  exists l1, lr, l2. split; [exact Hpqc|].
  assert (Hlen : length pre = length l1).
  { apply (f_equal (@length float64)) in H1.
    rewrite !length_map in H1. symmetry. exact H1. }
  rewrite Hpqc, map_app, Hlen in Hn. cbn [map] in Hn.
  rewrite <- (length_map (fun lr => overhead_of_row self (snd lr)) l1) in Hn.
  rewrite nth_error_app2 in Hn by lia. rewrite Nat.sub_diag in Hn.
  cbn in Hn. injection Hn as <-.
  split; [reflexivity|]. unfold reduction_of. rewrite Hlr.
  split; [exact Hv|]. split.
  - intros x Hx.
    assert (Hin : In (throughput_reduction (overhead_of_row self (snd x)))
                     (map snd pre)).
    { rewrite <- H1. apply (in_map (fun lr => throughput_reduction
                                       (overhead_of_row self (snd lr)))).
      exact Hx. }
    apply in_map_iff in Hin. destruct Hin as (y & Hy & Hyin).
    rewrite <- Hy. apply Hpre, Hyin.
  - intros x Hx.
    assert (Hin : In (throughput_reduction (overhead_of_row self (snd x)))
                     (map snd post)).
    { rewrite <- H2. apply (in_map (fun lr => throughput_reduction
                                       (overhead_of_row self (snd lr)))).
      exact Hx. }
    apply in_map_iff in Hin. destruct Hin as (y & Hy & Hyin).
    rewrite <- Hy. apply Hpost, Hyin.
Qed.

Lemma NoDup_fst_filter {A : Type} (p : nat * A -> bool)
    (l : list (nat * A)) :
  List.NoDup (map fst l) -> List.NoDup (map fst (List.filter p l)).
Proof.
  induction l as [|x l IH]; cbn [map List.filter]; intros H; [exact H|].
  apply List.NoDup_cons_iff in H. destruct H as [Hx Hl].
  destruct (p x); [|exact (IH Hl)].
  cbn [map]. constructor; [|exact (IH Hl)].
  intros Hin. apply Hx. apply in_map_iff in Hin.
  destruct Hin as (y & Hy & Hyin). apply filter_In in Hyin.
  rewrite <- Hy. apply in_map, Hyin.
Qed.

Lemma loc_middle (pre : DataFrame) (lr : nat * ResultRow) (post : DataFrame) :
  ~ In (fst lr) (map fst pre) ->
  loc (pre ++ lr :: post)%list (fst lr) = Ok (snd lr).
Proof.
  induction pre as [|[l r] pre IH]; intros H.
  - destruct lr as [l r]. cbn. rewrite Nat.eqb_refl. reflexivity.
  - cbn [app loc]. cbn [map fst In] in H.
    destruct (Nat.eqb_spec l (fst lr)) as [E|E].
    + exfalso. apply H. left. exact E.
    + apply IH. intros Hin. apply H. right. exact Hin.
Qed.

Lemma map_snd_select (p : ResultRow -> bool) (rows : list ResultRow) :
  forall s,
    map snd (List.filter (fun lr => p (snd lr))
                         (combine (seq s (length rows)) rows))
    = List.filter p rows.
Proof.
  induction rows as [|r rows IH]; intros s; [reflexivity|].
  cbn [length seq combine List.filter snd].
  destruct (p r); cbn [map snd]; rewrite IH; reflexivity.
Qed.

Lemma in_combine_seq {A : Type} (l : list A) (v : A) :
  forall s, In v l -> exists i, In (i, v) (combine (seq s (length l)) l).
Proof.
  induction l as [|x l IH]; intros s []; cbn [length seq combine].
  - subst x. exists s. left. reflexivity.
  - destruct (IH (S s) H) as [i Hi]. exists i. right. exact Hi.
Qed.

(** The row the summary selects for a label [idxmax] returned. *)
Lemma summary_selection (rows : list ResultRow) (label : nat) :
  idxmax (column throughput_mbps
            (select quantum_resistant (from_records rows))) = Ok label ->
  exists pre row post,
    select quantum_resistant (from_records rows)
    = (pre ++ (label, row) :: post)%list
    /\ loc (select quantum_resistant (from_records rows)) label = Ok row
    /\ quantum_resistant row = true
    /\ (forall x, In x pre -> throughput_mbps (snd x) < throughput_mbps row)
    /\ (forall x, In x post ->
           throughput_mbps (snd x) <= throughput_mbps row).
Proof.
  intros H. apply idxmax_spec in H.
  destruct H as (pre' & v & post' & Hc & Hpre & Hpost).
  unfold column in Hc. apply map_split in Hc.
  destruct Hc as (pre & [l row] & post & Hpqc & H1 & Hlr & H2).
  cbn [fst snd] in Hlr. injection Hlr as -> <-.
  exists pre, row, post. split; [exact Hpqc|].
  assert (Hnd : List.NoDup (map fst (select quantum_resistant
                                  (from_records rows)))).
  { apply NoDup_fst_filter. unfold from_records.
    rewrite map_fst_combine_seq. apply seq_NoDup. }
  split.
  { rewrite Hpqc in Hnd |- *. rewrite map_app in Hnd. cbn [map] in Hnd.
    apply List.NoDup_remove_2 in Hnd.
    apply (loc_middle pre (label, row) post).
    intros Hin. apply Hnd. apply in_or_app. left. exact Hin. }
  split.
  { assert (Hin : In (label, row)
                     (select quantum_resistant (from_records rows))).
    { rewrite Hpqc. apply in_or_app. right. left. reflexivity. }
    apply filter_In in Hin. apply Hin. }
  split.
  - intros x Hx.
    apply (Hpre (fst x, throughput_mbps (snd x))). rewrite <- H1.
    apply (in_map (fun lr => (fst lr, throughput_mbps (snd lr)))), Hx.
  - intros x Hx.
    apply (Hpost (fst x, throughput_mbps (snd x))). rewrite <- H2.
    apply (in_map (fun lr => (fst lr, throughput_mbps (snd lr)))), Hx.
Qed.

Lemma summary_best_pqc_spec (rows : list ResultRow) (row : ResultRow) :
  Summary.best_pqc rows = Ok row ->
  exists pre post,
    List.filter quantum_resistant rows = (pre ++ row :: post)%list
    /\ quantum_resistant row = true
    /\ (forall x, In x pre -> throughput_mbps x < throughput_mbps row)
    /\ (forall x, In x post -> throughput_mbps x <= throughput_mbps row).
Proof.
  unfold Summary.best_pqc.
  destruct (idxmax _) as [label|] eqn:Hi; [|discriminate]. cbn [rbind].
  destruct (summary_selection rows label Hi)
    as (pre & row' & post & Hpqc & Hloc & Hqr & Hpre & Hpost).
  rewrite Hloc. intros H. injection H as <-.
  exists (map snd pre), (map snd post).
  split.
  { rewrite <- (map_snd_select quantum_resistant rows 0).
    fold (from_records rows). fold (select quantum_resistant
                                          (from_records rows)).
    rewrite Hpqc, map_app. reflexivity. }
  split; [exact Hqr|]. split.
  - intros x Hx. apply in_map_iff in Hx. destruct Hx as (y & <- & Hy).
    apply Hpre, Hy.
  - intros x Hx. apply in_map_iff in Hx. destruct Hx as (y & <- & Hy).
    apply Hpost, Hy.
Qed.

Lemma summary_best_pqc_returns (rows : list ResultRow) :
  (exists row, In row rows /\ quantum_resistant row = true) ->
  exists best, Summary.best_pqc rows = Ok best.
Proof.
  intros (row & Hin & Hqr). unfold Summary.best_pqc.
  destruct (idxmax _) as [label|] eqn:Hi.
  - destruct (summary_selection rows label Hi)
      as (pre & best & post & _ & Hloc & _).
    exists best. cbn [rbind]. exact Hloc.
  - exfalso.
    assert (Hf : In row (List.filter quantum_resistant rows)).
    { apply filter_In. auto. }
    rewrite <- (map_snd_select quantum_resistant rows 0) in Hf.
    fold (from_records rows) in Hf.
    fold (select quantum_resistant (from_records rows)) in Hf.
    unfold idxmax, column in Hi.
    destruct (select quantum_resistant (from_records rows));
      [destruct Hf | discriminate Hi].
Qed.

Lemma best_pqc_returns (self : VPNAnalyzer) :
  Frame.traditional self <> [] ->
  (exists lr, In lr (pqc self)
              /\ Qeq_bool (throughput_mbps (snd lr)) 0 = false) ->
  exists name, Frame.best_pqc self = Ok name.
Proof.
  intros Ht (lr & Hin & Hnz). unfold Frame.best_pqc.
  destruct (calculate_overhead self) as [|o odf] eqn:Ho.
  { unfold calculate_overhead in Ho.
    destruct (pqc self); [destruct Hin | discriminate Ho]. }
  rewrite <- Ho.
  assert (Hnan : f64_isnan (reduction_of self lr) = false).
  { unfold reduction_of, overhead_of_row. cbn [throughput_reduction].
    unfold trad_avg, nanmean.
    destruct (Frame.traditional self) as [|t ts]; [contradiction|].
    cbn [map f64_truediv]. rewrite Hnz. reflexivity. }
  destruct (idxmin _) as [idx|] eqn:Hi; cbn [rbind].
  - apply idxmin_spec in Hi.
    destruct Hi as (pre & v & post & Hc & _).
    rewrite <- (length_map throughput_reduction) in Hc.
    apply combine_seq_split in Hc. destruct Hc as [-> Hc].
    cbn [Nat.add].
    destruct (nth_error _ (length pre)) as [row|] eqn:Hn;
      [eexists; reflexivity|].
    exfalso. apply nth_error_None in Hn.
    apply (f_equal (@length float64)) in Hc.
    rewrite length_map, length_app, length_map in Hc. cbn in Hc. lia.
  - exfalso. unfold idxmin in Hi.
    destruct (List.filter _ _) as [|x xs] eqn:Hf; [|discriminate Hi].
    assert (Hv : In (reduction_of self lr)
                   (map throughput_reduction (calculate_overhead self))).
    { unfold calculate_overhead. rewrite map_map.
      apply (in_map (reduction_of self)), Hin. }
    apply (in_combine_seq _ _ 0%nat) in Hv. destruct Hv as [i Hi'].
    rewrite length_map in Hi'.
    assert (Hfi : In (i, reduction_of self lr) []).
    { rewrite <- Hf. apply filter_In. split; [exact Hi'|].
      cbn [snd]. rewrite Hnan. reflexivity. }
    destruct Hfi.
Qed.

(** C5.  The recommendation of the analyzer's report names a row of the
    quantum-resistant part of the frame, and among those rows the first one
    whose throughput reduction is the smallest: its criterion is a number,
    every quantum-resistant row before it has a strictly greater criterion
    (or none), and no row after it has a smaller one.  The recommendation of
    the executive summary is the first quantum-resistant row of the largest
    throughput.  Both are functions of the rows in their order, so the same
    rows give the same algorithm; and both return an algorithm when there is
    one to choose from (for the report: a traditional row to compare with
    and a quantum-resistant row of non-zero throughput). *)
Theorem best_algorithm_selection :
  (forall df name,
      Frame.best_pqc (VPNAnalyzer_init df) = Ok name ->
      exists pre lr post,
        select quantum_resistant df = (pre ++ lr :: post)%list
        /\ quantum_resistant (snd lr) = true
        /\ algorithm (snd lr) = name
        /\ f64_isnan (reduction_of (VPNAnalyzer_init df) lr) = false
        /\ (forall x, In x pre ->
               f64_isnan (reduction_of (VPNAnalyzer_init df) x) = true
               \/ f64_ltb (reduction_of (VPNAnalyzer_init df) lr)
                          (reduction_of (VPNAnalyzer_init df) x) = true)
        /\ (forall x, In x post ->
               f64_ltb (reduction_of (VPNAnalyzer_init df) x)
                       (reduction_of (VPNAnalyzer_init df) lr) = false))
  /\ (forall df,
         (exists lr, In lr df /\ quantum_resistant (snd lr) = false) ->
         (exists lr, In lr df /\ quantum_resistant (snd lr) = true
                     /\ Qeq_bool (throughput_mbps (snd lr)) 0 = false) ->
         exists name, Frame.best_pqc (VPNAnalyzer_init df) = Ok name)
  /\ (forall rows row,
         Summary.best_pqc rows = Ok row ->
         exists pre post,
           List.filter quantum_resistant rows = (pre ++ row :: post)%list
           /\ quantum_resistant row = true
           /\ (forall x, In x pre ->
                  throughput_mbps x < throughput_mbps row)
           /\ (forall x, In x post ->
                  throughput_mbps x <= throughput_mbps row))
  /\ (forall rows,
         (exists row, In row rows /\ quantum_resistant row = true) ->
         exists best, Summary.best_pqc rows = Ok best).
Proof.
  split; [|split; [|split]].
  - intros df name H. apply best_pqc_spec in H.
    destruct H as (pre & lr & post & Hpqc & Hname & Hrest).
    exists pre, lr, post. cbn [pqc VPNAnalyzer_init] in Hpqc.
    split; [exact Hpqc|]. split; [|split; [exact Hname|exact Hrest]].
    assert (Hin : In lr (select quantum_resistant df)).
    { rewrite Hpqc. apply in_or_app. right. left. reflexivity. }
    apply filter_In in Hin. apply Hin.
  - intros df (t & Ht & Htq) (lr & Hin & Hqr & Hnz).
    apply best_pqc_returns.
    + cbn [Frame.traditional VPNAnalyzer_init]. intros He.
      assert (H : In t (select (fun r => negb (quantum_resistant r)) df)).
      { apply filter_In. rewrite Htq. auto. }
      rewrite He in H. destruct H.
    + exists lr. split; [|exact Hnz].
      cbn [pqc VPNAnalyzer_init]. apply filter_In. auto.
  - exact summary_best_pqc_spec.
  - exact summary_best_pqc_returns.
Qed.

(** A frame of five algorithms; the two Kyber rows have the same
    throughput. *)
Definition sample_rows : list ResultRow :=
  [ mkResultRow "RSA-2048" false 256 11.5 11.5 5 8 52;
    mkResultRow "ECC-P256" false 32 10.25 11.75 5 6 50.5;
    mkResultRow "Kyber-512" true 800 10.125 10.5 15 7.5 74.25;
    mkResultRow "Kyber-768" true 1184 10.25 10.5 15 8.75 85.75;
    mkResultRow "Dilithium-2" true 1312 10.25 10.25 15 10 89.75 ].

(** The C5 theorem on the sample frame. *)
Lemma best_algorithm_selection_witness :
  (exists name,
      Frame.best_pqc (VPNAnalyzer_init (from_records sample_rows)) = Ok name)
  /\ (exists best, Summary.best_pqc sample_rows = Ok best).
Proof.
  split.
  - apply (proj1 (proj2 best_algorithm_selection)).
    + eexists. split; [left; reflexivity|reflexivity].
    + eexists. split; [right; right; left; reflexivity|].
      split; reflexivity.
  - apply (proj2 (proj2 (proj2 best_algorithm_selection))).
    eexists. split; [right; right; left; reflexivity|reflexivity].
Defined.

(** On the sample frame the tie of the two Kyber rows goes to the first. *)
Example sample_rows_recommendation :
  Frame.best_pqc (VPNAnalyzer_init (from_records sample_rows))
  = Ok "Kyber-512"
  /\ option_map algorithm
       (match Summary.best_pqc sample_rows with
        | Ok row => Some row
        | Raise _ => None
        end) = Some "Kyber-512"
  /\ Frame.best_pqc (VPNAnalyzer_init (from_records (rev sample_rows)))
     = Ok "Kyber-768".
Proof. repeat split; vm_compute; reflexivity. Qed.

(** The frame analyzer divides as [numpy] does: against a traditional
    average of zero its overhead is an infinity, and nothing is raised. *)
Example calculate_overhead_divides_silently :
  map cpu_overhead
      (calculate_overhead
         (VPNAnalyzer_init
            (from_records
               [ mkResultRow "RSA-2048" false 256 11.5 11.5 5 0 52;
                 mkResultRow "Kyber-512" true 800 10.125 10.5 15 7.5 74.25 ])))
  = [Inf false].
Proof. vm_compute. reflexivity. Qed.

(* ===================================================================== *)
(** ** Further properties of the tunnel simulator                         *)
(* ===================================================================== *)

Import Tunnel.

(** The record [establish_tunnel] returns is the one the handshake of the
    family measured, and the world is left with its oracles, advanced by
    the readings and draws of the family. *)
Lemma establish_tunnel_record (self self' : VPNTunnel) (m : VPNMetrics)
    (w w' : World) :
  establish_tunnel self w = (self', Ok m, w') ->
  exists ph,
    if String.eqb (tunnel_type self) "Traditional"
    then w' = advance w 6 2 13 /\ traditional_fields self w m ph
    else w' = advance w 12 2 16 /\ postquantum_fields self w m ph.
Proof.
  intros E. destruct (establish_tunnel_returned _ _ _ _ _ E) as [ph Eph].
  pose proof (establish_tunnel_phases_run self w) as H. rewrite Eph in H.
  exists ph. apply H.
Qed.

(** X1.  When the clock of the world never goes back, every duration of a
    record [establish_tunnel] returns is non-negative, for either family:
    the key generation time, the key exchange time, the handshake total and
    the encryption time; and the decryption time is at least the encryption
    time. *)
Theorem durations_are_nonnegative (self self' : VPNTunnel) (m : VPNMetrics)
    (w w' : World) :
  (forall n, clock w n <= clock w (S n)) ->
  establish_tunnel self w = (self', Ok m, w') ->
  0 <= keygen_time m /\ 0 <= key_exchange_time m
  /\ 0 <= handshake_total_time m /\ 0 <= encryption_time m
  /\ encryption_time m <= decryption_time m.
Proof.
  intros Hclock E.
  destruct (establish_tunnel_record _ _ _ _ _ E) as [ph Hf].
  pose proof (fun k => Hclock (k + clock_reads w)%nat) as H.
  destruct (String.eqb (tunnel_type self) "Traditional").
  - destruct Hf as (_ & _ & (-> & -> & -> & -> & ->) & _). unfold reading.
    pose proof (H 0%nat) as H0. pose proof (H 2%nat) as H2.
    pose proof (H 4%nat) as H4. cbn [Nat.add] in *.
    repeat split; lra.
  - destruct Hf as (_ & _ & (-> & -> & -> & -> & ->) & _). unfold reading.
    pose proof (H 0%nat) as H0. pose proof (H 2%nat) as H2.
    pose proof (H 4%nat) as H4. pose proof (H 6%nat) as H6.
    pose proof (H 8%nat) as H8. pose proof (H 10%nat) as H10.
    cbn [Nat.add] in *.
    repeat split; lra.
Qed.

(** The X1 theorem for a post-quantum tunnel in the sample world. *)
Lemma durations_are_nonnegative_witness :
  exists self' m w',
    establish_tunnel (VPNTunnel_init "PostQuantum" 100) sample_world
    = (self', Ok m, w')
    /\ 0 <= handshake_total_time m.
Proof.
  assert (E : exists self' m w',
             establish_tunnel (VPNTunnel_init "PostQuantum" 100) sample_world
             = (self', Ok m, w')).
  { eexists _, _, _. lazy. reflexivity. }
  destruct E as (self' & m & w' & E).
  exists self', m, w'. split; [exact E|].
  refine (proj1 (proj2 (proj2
            (durations_are_nonnegative (VPNTunnel_init "PostQuantum" 100)
               self' m sample_world w' _ E)))).
  intros n. cbn [clock sample_world]. unfold Qdiv.
  apply Qmult_le_compat_r; [|discriminate].
  rewrite <- Zle_Qle. lia.
Defined.

(** X2.  When every draw of [random()] lies between 0 and 1, the simulated
    network and resource fields of a record [establish_tunnel] returns lie
    in the ranges of their family: latency in [12, 25] ms, throughput in
    [80, 100] Mbps, packet loss in [0.1, 0.5] and CPU use in [15, 25] for a
    traditional tunnel; latency in [15, 32], throughput in [65, 85], packet
    loss in [0.2, 0.8] and CPU use in [25, 40] for any other tunnel type. *)
Theorem environment_fields_in_range (self self' : VPNTunnel)
    (m : VPNMetrics) (w w' : World) :
  (forall n, 0 <= rng w n /\ rng w n <= 1) ->
  establish_tunnel self w = (self', Ok m, w') ->
  if String.eqb (tunnel_type self) "Traditional"
  then (12 <= latency_ms m /\ latency_ms m <= 25)
       /\ (80 <= throughput_mbps m /\ throughput_mbps m <= 100)
       /\ (0.1 <= packet_loss_percent m /\ packet_loss_percent m <= 0.5)
       /\ (15 <= cpu_usage_percent m /\ cpu_usage_percent m <= 25)
  else (15 <= latency_ms m /\ latency_ms m <= 32)
       /\ (65 <= throughput_mbps m /\ throughput_mbps m <= 85)
       /\ (0.2 <= packet_loss_percent m /\ packet_loss_percent m <= 0.8)
       /\ (25 <= cpu_usage_percent m /\ cpu_usage_percent m <= 40).
Proof.
  intros Hrng E.
  destruct (establish_tunnel_record _ _ _ _ _ E) as [ph Hf].
  pose proof (fun k => Hrng (k + rng_draws w)%nat) as H.
  destruct (String.eqb (tunnel_type self) "Traditional").
  - destruct Hf as (_ & _ & _ & (-> & -> & -> & -> & _) & _). unfold draw.
    pose proof (H 7%nat) as H7. pose proof (H 8%nat) as H8.
    pose proof (H 9%nat) as H9. pose proof (H 10%nat) as H10.
    pose proof (H 11%nat) as H11.
    repeat split; lra.
  - destruct Hf as (_ & _ & _ & (-> & -> & -> & -> & _) & _). unfold draw.
    pose proof (H 10%nat) as H10. pose proof (H 11%nat) as H11.
    pose proof (H 12%nat) as H12. pose proof (H 13%nat) as H13.
    pose proof (H 14%nat) as H14.
    repeat split; lra.
Qed.

(** The X2 theorem for a traditional tunnel in the sample world. *)
Lemma environment_fields_in_range_witness :
  exists self' m w',
    establish_tunnel (VPNTunnel_init "Traditional" 100) sample_world
    = (self', Ok m, w')
    /\ 80 <= throughput_mbps m.
Proof.
  assert (E : exists self' m w',
             establish_tunnel (VPNTunnel_init "Traditional" 100) sample_world
             = (self', Ok m, w')).
  { eexists _, _, _. lazy. reflexivity. }
  destruct E as (self' & m & w' & E).
  exists self', m, w'. split; [exact E|].
  assert (Hrng : forall n, 0 <= rng sample_world n /\ rng sample_world n <= 1).
  { intros n. cbn. split; discriminate. }
  pose proof (environment_fields_in_range
                (VPNTunnel_init "Traditional" 100) self' m sample_world w'
                Hrng E) as H.
  change (String.eqb (tunnel_type (VPNTunnel_init "Traditional" 100))
            "Traditional") with true in H.
  exact (proj1 (proj1 (proj2 H))).
Defined.

(** Records that come in pairs, the first of each pair with [PT] and the
    second with [PQ]. *)
Inductive alternating (PT PQ : VPNMetrics -> Prop) : list VPNMetrics -> Prop :=
| alternating_nil : alternating PT PQ []
| alternating_pair m1 m2 rest :
    PT m1 -> PQ m2 -> alternating PT PQ rest ->
    alternating PT PQ (m1 :: m2 :: rest).

(** One iteration of the loop of [run_simulation] whose two handshakes
    return, and one whose first handshake raises. *)
Lemma run_iterations_step (n : nat) (p : Z) (metrics : list VPNMetrics)
    (w w1 w2 : World) (s1 s2 : VPNTunnel) (m1 m2 : VPNMetrics) :
  establish_tunnel (VPNTunnel_init "Traditional" p) w = (s1, Ok m1, w1) ->
  establish_tunnel (VPNTunnel_init "PostQuantum" p) w1 = (s2, Ok m2, w2) ->
  run_iterations (S n) p metrics w
  = run_iterations n p (add_metric (add_metric metrics m1) m2) w2.
Proof.
  intros E1 E2. cbn [run_iterations].
  unfold mbind, invoke, assign, call, time_sleep, ret.
  rewrite E1. change (sleep_outcome 0.5) with (Ok tt). cbv iota beta.
  rewrite E2. reflexivity.
Qed.

Lemma run_iterations_raises (n : nat) (p : Z) (metrics : list VPNMetrics)
    (w w1 : World) (s1 : VPNTunnel) (e : PyError) :
  establish_tunnel (VPNTunnel_init "Traditional" p) w = (s1, Raise e, w1) ->
  run_iterations (S n) p metrics w = (metrics, Raise e, w1).
Proof.
  intros E1. cbn [run_iterations]. unfold mbind, invoke. rewrite E1.
  reflexivity.
Qed.

Section RunInvariant.

(** An invariant [Inv] of the world that every handshake keeps, under which
    a traditional handshake for the packet size [p] returns a record with
    [PT] and a post-quantum one a record with [PQ]. *)
Variable Inv : World -> Prop.
Variables PT PQ : VPNMetrics -> Prop.
Variable p : Z.

Hypothesis traditional_step : forall w,
  Inv w ->
  exists self' m w',
    establish_tunnel (VPNTunnel_init "Traditional" p) w = (self', Ok m, w')
    /\ PT m /\ Inv w'.

Hypothesis postquantum_step : forall w,
  Inv w ->
  exists self' m w',
    establish_tunnel (VPNTunnel_init "PostQuantum" p) w = (self', Ok m, w')
    /\ PQ m /\ Inv w'.

Lemma run_iterations_invariant (n : nat) :
  forall metrics w,
    Inv w ->
    exists new w',
      run_iterations n p metrics w = ((metrics ++ new)%list, Ok tt, w')
      /\ alternating PT PQ new
      /\ length new = (2 * n)%nat
      /\ Inv w'.
Proof using traditional_step postquantum_step.
  induction n as [|n IH]; intros metrics w Hw.
  - exists [], w. cbn. rewrite app_nil_r.
    repeat split; [constructor|exact Hw].
  - destruct (traditional_step w Hw) as (s1 & m1 & w1 & E1 & H1 & Hw1).
    destruct (postquantum_step w1 Hw1) as (s2 & m2 & w2 & E2 & H2 & Hw2).
    rewrite (run_iterations_step n p metrics w w1 w2 s1 s2 m1 m2 E1 E2).
    destruct (IH (add_metric (add_metric metrics m1) m2) w2 Hw2)
      as (new & w' & Heq & Halt & Hlen & Hinv).
    exists (m1 :: m2 :: new), w'.
    split; [|split; [constructor; assumption|]].
    + rewrite Heq. unfold add_metric. rewrite <- !app_assoc. reflexivity.
    + split; [cbn [length]; lia|exact Hinv].
Qed.

End RunInvariant.

(** The families of the records of [n] iterations. *)
Definition family_pattern (n : nat) : list string :=
  concat (repeat ["Traditional"; "PostQuantum"] n).

Lemma alternating_families (l : list VPNMetrics) :
  alternating (fun m => vpn_type m = "Traditional")
              (fun m => vpn_type m = "PostQuantum") l ->
  map vpn_type l = family_pattern (Nat.div2 (length l)).
Proof.
  induction 1 as [|m1 m2 rest H1 H2 _ IH]; [reflexivity|].
  cbn [map length Nat.div2 family_pattern repeat concat app].
  rewrite H1, H2, IH. reflexivity.
Qed.

(** The draws of a world lie between 0 and 1. *)
Definition unit_draws (w : World) : Prop :=
  forall n, 0 <= rng w n /\ rng w n <= 1.

Lemma family_step (kind : string) (p : Z) (w : World) :
  unit_draws w -> sized p ->
  exists self' m w',
    establish_tunnel (VPNTunnel_init kind p) w = (self', Ok m, w')
    /\ vpn_type m
       = (if String.eqb kind "Traditional"
          then "Traditional" else "PostQuantum")
    /\ unit_draws w'.
Proof.
  intros Hw Hp.
  destruct (establish_tunnel_returns (VPNTunnel_init kind p) w Hw Hp)
    as (self' & m & w' & E).
  exists self', m, w'. split; [exact E|].
  destruct (establish_tunnel_record _ _ _ _ _ E) as [ph Hf].
  cbn [tunnel_type VPNTunnel_init] in Hf.
  destruct (String.eqb kind "Traditional");
    destruct Hf as (-> & (Hty & _) & _); (split; [exact Hty|exact Hw]).
Qed.

(** X3.  In a world whose draws lie between 0 and 1, [run_simulation]
    with a packet size from 0 to 10^12 KB returns, and it only appends: it
    leaves the records it was given followed by two new records for each
    iteration, a traditional one and then a post-quantum one.  With a
    negative packet size and at least one iteration it raises the
    [ValueError] of [time.sleep] and appends nothing.  A count of
    iterations that is zero or negative appends nothing and touches
    nothing. *)
Theorem run_simulation_appends (metrics : list VPNMetrics)
    (iterations packet_size_kb : Z) (w : World) :
  (forall n, 0 <= rng w n /\ rng w n <= 1) ->
  (sized packet_size_kb ->
   exists new w',
     run_simulation iterations packet_size_kb metrics w
     = ((metrics ++ new)%list, Ok tt, w')
     /\ length new = (2 * Z.to_nat iterations)%nat
     /\ map vpn_type new = family_pattern (Z.to_nat iterations))
  /\ ((-1000000000000 <= packet_size_kb < 0)%Z -> (1 <= iterations)%Z ->
      exists w',
        run_simulation iterations packet_size_kb metrics w
        = (metrics, Raise ValueError, w'))
  /\ ((iterations <= 0)%Z ->
      run_simulation iterations packet_size_kb metrics w
      = (metrics, Ok tt, w)).
Proof.
  intros Hrng. unfold run_simulation. split; [|split].
  - intros Hp.
    destruct (run_iterations_invariant unit_draws
                (fun m => vpn_type m = "Traditional")
                (fun m => vpn_type m = "PostQuantum") packet_size_kb)
      with (n := Z.to_nat iterations) (metrics := metrics) (w := w)
      as (new & w' & Heq & Halt & Hlen & _).
    + intros w0 Hw0. exact (family_step "Traditional" _ w0 Hw0 Hp).
    + intros w0 Hw0. exact (family_step "PostQuantum" _ w0 Hw0 Hp).
    + exact Hrng.
    + exists new, w'. split; [exact Heq|]. split; [exact Hlen|].
      rewrite (alternating_families new Halt), Hlen.
      rewrite Nat.div2_double. reflexivity.
  - intros Hp Hi.
    destruct (Z.to_nat iterations) as [|n] eqn:En; [lia|].
    destruct (establish_tunnel_refuses
                (VPNTunnel_init "Traditional" packet_size_kb) w Hrng Hp)
      as (s1 & w1 & E1).
    exists w1. exact (run_iterations_raises n _ metrics w w1 s1 _ E1).
  - intros Hi. replace (Z.to_nat iterations) with 0%nat by lia.
    cbn. rewrite app_nil_r || reflexivity.
Qed.

(** The X3 theorem for one iteration from an empty analyzer in the sample
    world. *)
Lemma run_simulation_appends_witness :
  exists new w',
    run_simulation 1 100 [] sample_world = (new, Ok tt, w')
    /\ map vpn_type new = ["Traditional"; "PostQuantum"].
Proof.
  assert (Hrng : forall n, 0 <= rng sample_world n /\ rng sample_world n <= 1).
  { intros n. cbn. split; discriminate. }
  destruct (proj1 (run_simulation_appends [] 1 100 sample_world Hrng))
    as (new & w' & E & _ & Hf); [split; lia|].
  exists new, w'. split; [exact E|exact Hf].
Defined.

(** *** Averages of bounded values *)

Lemma count_succ (n : nat) :
  inject_Z (Z.of_nat (S n)) == inject_Z (Z.of_nat n) + 1.
Proof. rewrite Nat2Z.inj_succ, <- Z.add_1_r, inject_Z_plus. reflexivity. Qed.

Lemma count_pos {A : Type} (l : list A) :
  l <> [] -> 0 < inject_Z (Z.of_nat (length l)).
Proof.
  destruct l as [|x l]; [contradiction|]. intros _.
  change 0 with (inject_Z 0). rewrite <- Zlt_Qlt. cbn [length]. lia.
Qed.

Lemma fold_left_Qplus_bounds (l : list Q) (lo hi : Q) :
  (forall x, In x l -> lo <= x /\ x <= hi) ->
  forall a,
    a + inject_Z (Z.of_nat (length l)) * lo <= fold_left Qplus l a
    /\ fold_left Qplus l a <= a + inject_Z (Z.of_nat (length l)) * hi.
Proof.
  induction l as [|x l IH]; intros H a.
  - cbn [fold_left length]. change (inject_Z (Z.of_nat 0)) with 0.
    split; lra.
  - cbn [fold_left length].
    destruct (H x (or_introl eq_refl)) as [Hlo Hhi].
    destruct (IH (fun y Hy => H y (or_intror Hy)) (a + x)) as [IHlo IHhi].
    rewrite count_succ. split; lra.
Qed.

Lemma fold_left_Qplus_grows (l : list Q) :
  (forall x, In x l -> 0 < x) ->
  forall a, a <= fold_left Qplus l a.
Proof.
  induction l as [|x l IH]; intros H a; cbn [fold_left]; [lra|].
  pose proof (H x (or_introl eq_refl)).
  pose proof (IH (fun y Hy => H y (or_intror Hy)) (a + x)). lra.
Qed.

(** The average [avg] returns lies between bounds of the values. *)
Lemma mean_of_bounds (metrics : list VPNMetrics) (field : NumericField)
    (lo hi : Q) :
  metrics <> [] ->
  (forall m, In m metrics -> lo <= getattr m field /\ getattr m field <= hi) ->
  lo <= mean_of metrics field /\ mean_of metrics field <= hi.
Proof.
  intros Hne H. unfold mean_of.
  set (values := map (fun m => getattr m field) metrics).
  assert (Hv : values <> []).
  { subst values. destruct metrics; [contradiction|discriminate]. }
  assert (Hb : forall x, In x values -> lo <= x /\ x <= hi).
  { intros x Hx. subst values. apply in_map_iff in Hx.
    destruct Hx as (m & <- & Hm). apply H, Hm. }
  destruct values as [|v values]; [contradiction|].
  pose proof (count_pos (v :: values) Hv) as Hn.
  destruct (fold_left_Qplus_bounds (v :: values) lo hi Hb 0) as [Hlo Hhi].
  unfold sum. split.
  - apply Qle_shift_div_l; [exact Hn|]. lra.
  - apply Qle_shift_div_r; [exact Hn|]. lra.
Qed.

(** The average of values that are all positive is positive. *)
Lemma mean_of_positive (metrics : list VPNMetrics) (field : NumericField) :
  metrics <> [] ->
  (forall m, In m metrics -> 0 < getattr m field) ->
  0 < mean_of metrics field.
Proof.
  intros Hne H. unfold mean_of.
  set (values := map (fun m => getattr m field) metrics).
  assert (Hb : forall x, In x values -> 0 < x).
  { intros x Hx. subst values. apply in_map_iff in Hx.
    destruct Hx as (m & <- & Hm). apply H, Hm. }
  assert (Hv : values <> []).
  { subst values. destruct metrics; [contradiction|discriminate]. }
  destruct values as [|v values]; [contradiction|].
  pose proof (count_pos (v :: values) Hv) as Hn.
  apply Qlt_shift_div_l; [exact Hn|].
  unfold sum. cbn [fold_left].
  pose proof (Hb v (or_introl eq_refl)).
  pose proof (fold_left_Qplus_grows values
                (fun y Hy => Hb y (or_intror Hy)) (0 + v)).
  lra.
Qed.

(** *** The report of a simulation *)

(** A world as the libraries promise it: the clock advances between two
    readings, [random()] is between 0 and 1, and [randint(a, b)] is between
    [a] and [b]. *)
Definition well_behaved (w : World) : Prop :=
  (forall n, clock w n < clock w (S n))
  /\ (forall n, 0 <= rng w n /\ rng w n <= 1)
  /\ (forall n a b, (a <= b)%Z -> (a <= rng_int w n a b <= b)%Z).

(** What the record of a traditional handshake satisfies in such a world,
    and what the record of a post-quantum handshake does. *)
Definition traditional_profile (m : VPNMetrics) : Prop :=
  vpn_type m = "Traditional" /\ key_size m = 256%Z
  /\ 0 < handshake_total_time m
  /\ (12 <= latency_ms m /\ latency_ms m <= 25)
  /\ (80 <= throughput_mbps m /\ throughput_mbps m <= 100)
  /\ (15 <= cpu_usage_percent m /\ cpu_usage_percent m <= 25)
  /\ (50 <= memory_mb m <= 80)%Z.

Definition postquantum_profile (m : VPNMetrics) : Prop :=
  vpn_type m = "PostQuantum" /\ key_size m = 3584%Z
  /\ 0 < handshake_total_time m
  /\ (15 <= latency_ms m /\ latency_ms m <= 32)
  /\ (65 <= throughput_mbps m /\ throughput_mbps m <= 85)
  /\ (25 <= cpu_usage_percent m /\ cpu_usage_percent m <= 40)
  /\ (80 <= memory_mb m <= 120)%Z.

Lemma well_behaved_oracles (w w' : World) :
  clock w' = clock w -> rng w' = rng w -> rng_int w' = rng_int w ->
  well_behaved w -> well_behaved w'.
Proof. unfold well_behaved. intros -> -> ->. auto. Qed.

Lemma traditional_step_ok (p : Z) (w : World) :
  sized p -> well_behaved w ->
  exists self' m w',
    establish_tunnel (VPNTunnel_init "Traditional" p) w = (self', Ok m, w')
    /\ traditional_profile m /\ well_behaved w'.
Proof.
  intros Hp Hw. pose proof Hw as (Hclock & Hrng & Hint).
  destruct (establish_tunnel_returns (VPNTunnel_init "Traditional" p) w
              Hrng Hp) as (self' & m & w' & E).
  exists self', m, w'. split; [exact E|].
  destruct (establish_tunnel_record _ _ _ _ _ E) as [ph Hf].
  change (String.eqb (tunnel_type (VPNTunnel_init "Traditional" p))
            "Traditional") with true in Hf.
  destruct Hf as (-> & (Hty & Hks & _) & (_ & _ & Hh & _)
                  & (Hl & Ht & _ & Hc & Hm) & _).
  split; [|exact (well_behaved_oracles w _ eq_refl eq_refl eq_refl Hw)].
  unfold traditional_profile.
  rewrite Hty, Hks, Hh, Hl, Ht, Hc, Hm. unfold reading, draw.
  pose proof (fun k => Hclock (k + clock_reads w)%nat) as Hk.
  pose proof (fun k => Hrng (k + rng_draws w)%nat) as Hr.
  pose proof (Hk 0%nat). pose proof (Hk 2%nat).
  pose proof (Hr 7%nat). pose proof (Hr 8%nat). pose proof (Hr 9%nat).
  pose proof (Hr 11%nat). cbn [Nat.add] in *.
  repeat split; try lra; apply Hint; lia.
Qed.

Lemma postquantum_step_ok (p : Z) (w : World) :
  sized p -> well_behaved w ->
  exists self' m w',
    establish_tunnel (VPNTunnel_init "PostQuantum" p) w = (self', Ok m, w')
    /\ postquantum_profile m /\ well_behaved w'.
Proof.
  intros Hp Hw. pose proof Hw as (Hclock & Hrng & Hint).
  destruct (establish_tunnel_returns (VPNTunnel_init "PostQuantum" p) w
              Hrng Hp) as (self' & m & w' & E).
  exists self', m, w'. split; [exact E|].
  destruct (establish_tunnel_record _ _ _ _ _ E) as [ph Hf].
  change (String.eqb (tunnel_type (VPNTunnel_init "PostQuantum" p))
            "Traditional") with false in Hf.
  destruct Hf as (-> & (Hty & Hks & _) & (_ & _ & Hh & _)
                  & (Hl & Ht & _ & Hc & Hm) & _).
  split; [|exact (well_behaved_oracles w _ eq_refl eq_refl eq_refl Hw)].
  unfold postquantum_profile.
  rewrite Hty, Hks, Hh, Hl, Ht, Hc, Hm. unfold reading, draw.
  pose proof (fun k => Hclock (k + clock_reads w)%nat) as Hk.
  pose proof (fun k => Hrng (k + rng_draws w)%nat) as Hr.
  pose proof (Hk 0%nat). pose proof (Hk 2%nat). pose proof (Hk 4%nat).
  pose proof (Hk 6%nat). pose proof (Hk 8%nat).
  pose proof (Hr 10%nat). pose proof (Hr 11%nat). pose proof (Hr 12%nat).
  pose proof (Hr 14%nat). cbn [Nat.add] in *.
  repeat split; try lra; apply Hint; lia.
Qed.

(** The two families of a list of alternating records. *)
Lemma alternating_families_split (l : list VPNMetrics) :
  alternating traditional_profile postquantum_profile l ->
  Forall traditional_profile (traditional_metrics l)
  /\ Forall postquantum_profile (pqc_metrics l)
  /\ (l <> [] -> traditional_metrics l <> [] /\ pqc_metrics l <> []).
Proof.
  induction 1 as [|m1 m2 rest H1 H2 _ (IHt & IHq & _)].
  - repeat split; try constructor; contradiction.
  - unfold traditional_metrics, pqc_metrics in *. cbn [List.filter].
    destruct H1 as (Ht1 & H1). destruct H2 as (Ht2 & H2).
    rewrite Ht1, Ht2.
    change (String.eqb "Traditional" "Traditional") with true.
    change (String.eqb "PostQuantum" "Traditional") with false.
    change (String.eqb "Traditional" "PostQuantum") with false.
    change (String.eqb "PostQuantum" "PostQuantum") with true.
    cbv iota. split; [|split].
    + constructor; [exact (conj Ht1 H1)|exact IHt].
    + constructor; [exact (conj Ht2 H2)|exact IHq].
    + intros _. split; discriminate.
Qed.

Lemma nonzero_of_positive (x : Q) : 0 < x -> negb (Qeq_bool x 0) = true.
Proof.
  intros H. apply negb_true_iff, not_true_iff_false. intros E.
  apply Qeq_bool_iff in E. rewrite E in H. exact (Qlt_irrefl 0 H).
Qed.

Lemma ratio_nonnegative (t p : Q) :
  0 < t -> t <= p -> 0 <= (p / t - 1) * 100.
Proof.
  intros Ht Hp.
  assert (H : 1 <= p / t) by (apply Qle_shift_div_l; lra). lra.
Qed.

(** X4.  In a well-behaved world, and for a packet size from 0 to 10^12
    KB, the simulation of at least one iteration returns and the report of
    its records is always produced: no division fails.  It counts two
    records for each iteration, its key size increase is exactly 1300 %
    (3584 bytes against 256), its CPU and memory overheads are not
    negative, and its average throughputs lie in the ranges of the two
    families. *)
Theorem simulated_report_is_defined (n : nat) (p : Z) (w w' : World) :
  well_behaved w -> (1 <= n)%nat -> sized p ->
  exists metrics w1 r,
    run_simulation (Z.of_nat n) p [] w = (metrics, Ok tt, w1)
    /\ fst (generate_report metrics w') = Ok r
    /\ total_simulations r = (2 * n)%nat
    /\ key_size_increase_percent (overhead_analysis r) == 1300
    /\ 0 <= cpu_overhead_percent (overhead_analysis r)
    /\ 0 <= memory_overhead_percent (overhead_analysis r)
    /\ (80 <= avg_throughput_mbps (traditional r)
        /\ avg_throughput_mbps (traditional r) <= 100)
    /\ (65 <= avg_throughput_mbps (postquantum r)
        /\ avg_throughput_mbps (postquantum r) <= 85).
Proof.
  intros Hw Hn Hp. unfold run_simulation. rewrite Nat2Z.id.
  destruct (run_iterations_invariant well_behaved
              traditional_profile postquantum_profile p
              (fun w0 => traditional_step_ok p w0 Hp)
              (fun w0 => postquantum_step_ok p w0 Hp) n [] w Hw)
    as (new & w1 & Heq & Halt & Hlen & _).
  cbn [app] in Heq. exists new, w1. rewrite Heq.
  destruct (alternating_families_split new Halt) as (Ht & Hq & Hne).
  destruct Hne as [Htne Hqne].
  { intros ->. cbn in Hlen. lia. }
  rewrite List.Forall_forall in Ht, Hq.
  set (T := traditional_metrics new) in *.
  set (P := pqc_metrics new) in *.
  (* the averages of the traditional family *)
  assert (HTh : 0 < mean_of T F_handshake_total_time).
  { apply mean_of_positive; [exact Htne|]. intros m Hm. apply (Ht m Hm). }
  assert (HTl : 12 <= mean_of T F_latency_ms /\ mean_of T F_latency_ms <= 25).
  { apply mean_of_bounds; [exact Htne|]. intros m Hm. apply (Ht m Hm). }
  assert (HTt : 80 <= mean_of T F_throughput_mbps
                /\ mean_of T F_throughput_mbps <= 100).
  { apply mean_of_bounds; [exact Htne|]. intros m Hm. apply (Ht m Hm). }
  assert (HTc : 15 <= mean_of T F_cpu_usage_percent
                /\ mean_of T F_cpu_usage_percent <= 25).
  { apply mean_of_bounds; [exact Htne|]. intros m Hm. apply (Ht m Hm). }
  assert (HTm : 50 <= mean_of T F_memory_mb /\ mean_of T F_memory_mb <= 80).
  { apply mean_of_bounds; [exact Htne|]. intros m Hm. cbn [getattr].
    destruct (Ht m Hm) as (_ & _ & _ & _ & _ & _ & Hmem).
    change 50 with (inject_Z 50). change 80 with (inject_Z 80).
    rewrite <- !Zle_Qle. exact Hmem. }
  assert (HTk : 256 <= mean_of T F_key_size /\ mean_of T F_key_size <= 256).
  { apply mean_of_bounds; [exact Htne|]. intros m Hm. cbn [getattr].
    destruct (Ht m Hm) as (_ & -> & _). split; apply Qle_refl. }
  (* the averages of the post-quantum family *)
  assert (HPt : 65 <= mean_of P F_throughput_mbps
                /\ mean_of P F_throughput_mbps <= 85).
  { apply mean_of_bounds; [exact Hqne|]. intros m Hm. apply (Hq m Hm). }
  assert (HPc : 25 <= mean_of P F_cpu_usage_percent
                /\ mean_of P F_cpu_usage_percent <= 40).
  { apply mean_of_bounds; [exact Hqne|]. intros m Hm. apply (Hq m Hm). }
  assert (HPm : 80 <= mean_of P F_memory_mb /\ mean_of P F_memory_mb <= 120).
  { apply mean_of_bounds; [exact Hqne|]. intros m Hm. cbn [getattr].
    destruct (Hq m Hm) as (_ & _ & _ & _ & _ & _ & Hmem).
    change 80 with (inject_Z 80). change 120 with (inject_Z 120).
    rewrite <- !Zle_Qle. exact Hmem. }
  assert (HPk : 3584 <= mean_of P F_key_size /\ mean_of P F_key_size <= 3584).
  { apply mean_of_bounds; [exact Hqne|]. intros m Hm. cbn [getattr].
    destruct (Hq m Hm) as (_ & -> & _). split; apply Qle_refl. }
  assert (Hnz : divisors_nonzero (stats_of T) (stats_of P) = true).
  { unfold divisors_nonzero.
    cbn [stats_of avg_handshake_ms avg_latency_ms avg_throughput_mbps
         avg_cpu_percent avg_memory_mb avg_key_size_bytes].
    rewrite !nonzero_of_positive by lra. reflexivity. }
  rewrite generate_report_spec. fold T P. rewrite Hnz.
  eexists. split; [reflexivity|]. split; [reflexivity|].
  cbn [total_simulations overhead_analysis traditional postquantum ratios_of
       key_size_increase_percent cpu_overhead_percent
       memory_overhead_percent stats_of avg_throughput_mbps avg_cpu_percent
       avg_memory_mb avg_key_size_bytes].
  split; [exact Hlen|]. split; [|split; [|split; [|split]]].
  - assert (Hk : mean_of T F_key_size == 256) by (apply Qle_antisym; lra).
    assert (Hk' : mean_of P F_key_size == 3584) by (apply Qle_antisym; lra).
    rewrite Hk, Hk'. reflexivity.
  - apply ratio_nonnegative; lra.
  - apply ratio_nonnegative; lra.
  - exact HTt.
  - exact HPt.
Qed.

Lemma sample_world_well_behaved : well_behaved sample_world.
Proof.
  split; [|split].
  - intros n. cbn [clock sample_world]. unfold Qdiv.
    apply Qmult_lt_compat_r; [reflexivity|].
    rewrite <- Zlt_Qlt. lia.
  - intros n. cbn. split; discriminate.
  - intros n a b H. cbn. lia.
Qed.

(** The X4 theorem for one iteration in the sample world. *)
Lemma simulated_report_is_defined_witness :
  exists metrics w1 r,
    run_simulation (Z.of_nat 1) 100 [] sample_world = (metrics, Ok tt, w1)
    /\ fst (generate_report metrics sample_world) = Ok r
    /\ key_size_increase_percent (overhead_analysis r) == 1300.
Proof.
  destruct (simulated_report_is_defined 1 100 sample_world sample_world
              sample_world_well_behaved (le_n 1))
    as (metrics & w1 & r & Hrun & Hr & _ & Hk & _); [split; lia|].
  exists metrics, w1, r. split; [exact Hrun|]. split; assumption.
Defined.

(** *** Overheads of equal families and of reordered records *)

(** X5.  When the two families have the same averages, and none of them is
    zero, the overhead analysis returns 0 % in every dimension. *)
Theorem equal_families_have_no_overhead (t p : FamilyStats) :
  divisors_nonzero t p = true ->
  avg_handshake_ms p == avg_handshake_ms t ->
  avg_latency_ms p == avg_latency_ms t ->
  avg_throughput_mbps p == avg_throughput_mbps t ->
  avg_cpu_percent p == avg_cpu_percent t ->
  avg_memory_mb p == avg_memory_mb t ->
  avg_key_size_bytes p == avg_key_size_bytes t ->
  exists o,
    overhead_of t p = Ok o
    /\ handshake_overhead_percent o == 0
    /\ latency_overhead_percent o == 0
    /\ throughput_degradation_percent o == 0
    /\ cpu_overhead_percent o == 0
    /\ memory_overhead_percent o == 0
    /\ key_size_increase_percent o == 0.
Proof.
  intros Hnz Hh Hl Ht Hc Hm Hk. rewrite overhead_of_spec, Hnz.
  eexists. split; [reflexivity|].
  unfold divisors_nonzero in Hnz.
  repeat (apply andb_prop in Hnz; destruct Hnz as [Hnz ?]).
  repeat match goal with
  | H : negb (Qeq_bool ?x 0) = true |- _ =>
      apply negb_true_iff, not_true_iff_false in H;
      rewrite Qeq_bool_iff in H
  end.
  cbn [ratios_of handshake_overhead_percent latency_overhead_percent
       throughput_degradation_percent cpu_overhead_percent
       memory_overhead_percent key_size_increase_percent].
  rewrite Hh, Hl, Hc, Hm, Hk, <- Ht.
  repeat split; field; assumption.
Qed.

(** The X5 theorem on a family compared with itself. *)
Lemma equal_families_have_no_overhead_witness :
  exists o,
    overhead_of (mkFamilyStats 93.75 16 90 20 64 256)
                (mkFamilyStats 93.75 16 90 20 64 256) = Ok o
    /\ handshake_overhead_percent o == 0.
Proof.
  destruct (equal_families_have_no_overhead
              (mkFamilyStats 93.75 16 90 20 64 256)
              (mkFamilyStats 93.75 16 90 20 64 256)
              eq_refl (Qeq_refl _) (Qeq_refl _) (Qeq_refl _) (Qeq_refl _)
              (Qeq_refl _) (Qeq_refl _)) as (o & Ho & Hh & _).
  exists o. split; assumption.
Defined.

(** Two dictionaries of averages, or two overhead analyses, with equal
    numbers. *)
Definition same_stats (a b : FamilyStats) : Prop :=
  avg_handshake_ms a == avg_handshake_ms b
  /\ avg_latency_ms a == avg_latency_ms b
  /\ avg_throughput_mbps a == avg_throughput_mbps b
  /\ avg_cpu_percent a == avg_cpu_percent b
  /\ avg_memory_mb a == avg_memory_mb b
  /\ avg_key_size_bytes a == avg_key_size_bytes b.

Definition same_overhead (a b : OverheadAnalysis) : Prop :=
  handshake_overhead_percent a == handshake_overhead_percent b
  /\ latency_overhead_percent a == latency_overhead_percent b
  /\ throughput_degradation_percent a == throughput_degradation_percent b
  /\ cpu_overhead_percent a == cpu_overhead_percent b
  /\ memory_overhead_percent a == memory_overhead_percent b
  /\ key_size_increase_percent a == key_size_increase_percent b.

Lemma fold_left_Qplus_acc (l : list Q) (a b : Q) :
  a == b -> fold_left Qplus l a == fold_left Qplus l b.
Proof.
  revert a b. induction l as [|x l IH]; intros a b E; cbn [fold_left].
  - exact E.
  - apply IH. rewrite E. reflexivity.
Qed.

Lemma fold_left_Qplus_Permutation (l l' : list Q) :
  Permutation l l' ->
  forall a, fold_left Qplus l a == fold_left Qplus l' a.
Proof.
  induction 1 as [|x l l' _ IH|x y l|l l' l'' _ IH1 _ IH2]; intros a;
    cbn [fold_left].
  - reflexivity.
  - apply IH.
  - apply fold_left_Qplus_acc. ring.
  - rewrite IH1. apply IH2.
Qed.

Lemma filter_Permutation_list {A : Type} (f : A -> bool) (l l' : list A) :
  Permutation l l' -> Permutation (List.filter f l) (List.filter f l').
Proof.
  induction 1 as [|x l l' _ IH|x y l|l l' l'' _ IH1 _ IH2];
    cbn [List.filter].
  - constructor.
  - destruct (f x); [constructor|]; exact IH.
  - destruct (f x), (f y); try reflexivity. constructor.
  - etransitivity; eassumption.
Qed.

Lemma mean_of_Permutation (l l' : list VPNMetrics) (f : NumericField) :
  Permutation l l' -> mean_of l f == mean_of l' f.
Proof.
  intros P. unfold mean_of.
  assert (Pm : Permutation (map (fun m => getattr m f) l)
                           (map (fun m => getattr m f) l'))
    by (apply Permutation_map; exact P).
  pose proof (Permutation_length Pm) as Hlen.
  pose proof (fold_left_Qplus_Permutation _ _ Pm 0) as Hsum.
  destruct (map (fun m => getattr m f) l) as [|x vs] eqn:E,
           (map (fun m => getattr m f) l') as [|x' vs'] eqn:E';
    try discriminate Hlen.
  - reflexivity.
  - unfold sum. rewrite Hsum, Hlen. reflexivity.
Qed.

Lemma stats_of_Permutation (l l' : list VPNMetrics) :
  Permutation l l' -> same_stats (stats_of l) (stats_of l').
Proof.
  intros P. unfold same_stats, stats_of.
  cbn [avg_handshake_ms avg_latency_ms avg_throughput_mbps avg_cpu_percent
       avg_memory_mb avg_key_size_bytes].
  rewrite (mean_of_Permutation l l' F_handshake_total_time P).
  repeat split; try reflexivity; apply mean_of_Permutation; exact P.
Qed.

Lemma Qeq_bool_same (a b : Q) : a == b -> Qeq_bool a 0 = Qeq_bool b 0.
Proof.
  intros E. destruct (Qeq_bool b 0) eqn:Hb.
  - apply Qeq_bool_iff. rewrite E. apply Qeq_bool_iff. exact Hb.
  - apply not_true_iff_false. intros Ha. apply Qeq_bool_iff in Ha.
    apply not_true_iff_false in Hb. apply Hb, Qeq_bool_iff.
    rewrite <- E. exact Ha.
Qed.

Lemma divisors_nonzero_same (t t' p p' : FamilyStats) :
  same_stats t t' -> same_stats p p' ->
  divisors_nonzero t p = divisors_nonzero t' p'.
Proof.
  intros (Th & Tl & Tt & Tc & Tm & Tk) (Ph & Pl & Pt & Pc & Pm & Pk).
  unfold divisors_nonzero.
  rewrite (Qeq_bool_same _ _ Th), (Qeq_bool_same _ _ Tl),
    (Qeq_bool_same _ _ Pt), (Qeq_bool_same _ _ Tc), (Qeq_bool_same _ _ Tm),
    (Qeq_bool_same _ _ Tk).
  reflexivity.
Qed.

Lemma ratios_of_same (t t' p p' : FamilyStats) :
  same_stats t t' -> same_stats p p' ->
  same_overhead (ratios_of t p) (ratios_of t' p').
Proof.
  intros (Th & Tl & Tt & Tc & Tm & Tk) (Ph & Pl & Pt & Pc & Pm & Pk).
  unfold same_overhead, ratios_of.
  cbn [handshake_overhead_percent latency_overhead_percent
       throughput_degradation_percent cpu_overhead_percent
       memory_overhead_percent key_size_increase_percent].
  rewrite Th, Tl, Tt, Tc, Tm, Tk, Ph, Pl, Pt, Pc, Pm, Pk.
  repeat split; reflexivity.
Qed.

(** X6.  The comparative report does not depend on the order in which the
    records were added: for two arrangements of the same records, either
    both reports raise, or both are returned with the same count, the same
    averages of both families and the same overhead analysis. *)
Theorem report_ignores_record_order
    (metrics metrics' : list VPNMetrics) (w : World) :
  Permutation metrics metrics' ->
  match fst (generate_report metrics w),
        fst (generate_report metrics' w) with
  | Ok r, Ok r' =>
      report_timestamp r = report_timestamp r'
      /\ total_simulations r = total_simulations r'
      /\ same_stats (traditional r) (traditional r')
      /\ same_stats (postquantum r) (postquantum r')
      /\ same_overhead (overhead_analysis r) (overhead_analysis r')
  | Raise e, Raise e' => e = e'
  | _, _ => False
  end.
Proof.
  intros P. rewrite !generate_report_spec. cbv zeta.
  assert (Ht : same_stats (stats_of (traditional_metrics metrics))
                          (stats_of (traditional_metrics metrics')))
    by (apply stats_of_Permutation, filter_Permutation_list, P).
  assert (Hp : same_stats (stats_of (pqc_metrics metrics))
                          (stats_of (pqc_metrics metrics')))
    by (apply stats_of_Permutation, filter_Permutation_list, P).
  rewrite (divisors_nonzero_same _ _ _ _ Ht Hp).
  destruct (divisors_nonzero _ _); [|reflexivity].
  cbn [report_timestamp total_simulations traditional postquantum
       overhead_analysis].
  split; [reflexivity|]. split; [apply Permutation_length, P|].
  split; [exact Ht|]. split; [exact Hp|].
  apply ratios_of_same; assumption.
Qed.

(** The X6 theorem on the two sample records, in both orders. *)
Lemma report_ignores_record_order_witness :
  match fst (generate_report [traditional_record; postquantum_record]
                             sample_world),
        fst (generate_report [postquantum_record; traditional_record]
                             sample_world) with
  | Ok r, Ok r' =>
      report_timestamp r = report_timestamp r'
      /\ total_simulations r = total_simulations r'
      /\ same_stats (traditional r) (traditional r')
      /\ same_stats (postquantum r) (postquantum r')
      /\ same_overhead (overhead_analysis r) (overhead_analysis r')
  | Raise e, Raise e' => e = e'
  | _, _ => False
  end.
Proof.
  apply (report_ignores_record_order
           [traditional_record; postquantum_record]
           [postquantum_record; traditional_record] sample_world).
  apply perm_swap.
Defined.

(* ===================================================================== *)
(** ** Further properties of the registry based simulator                 *)
(* ===================================================================== *)

Import Registry.

(** The loop of retransmissions started with a count of at most 3 and fuel
    for the rounds that are left: it makes [k] retransmissions for the [k]
    first draws below the loss probability, up to a count of 3, doubles the
    transmission time for each, and takes one more draw than it makes
    retransmissions. *)
Lemma retransmit_spec (fuel : nat) (packet_loss : Q) :
  forall (r : Z) (t : Q) (w : World),
    (0 <= r <= 3)%Z -> (3 - r < Z.of_nat fuel)%Z ->
    exists (k : nat) (t' : Q) (w' : World),
      retransmit fuel packet_loss r t w = ((r + Z.of_nat k)%Z, t', w')
      /\ (r + Z.of_nat k <= 3)%Z
      /\ t' == t * inject_Z (2 ^ Z.of_nat k)
      /\ rng w' = rng w
      /\ rng_draws w' = (rng_draws w + S k)%nat
      /\ (forall i, (i < k)%nat -> rng w (rng_draws w + i)%nat < packet_loss)
      /\ ((r + Z.of_nat k < 3)%Z ->
          packet_loss <= rng w (rng_draws w + k)%nat).
Proof.
  induction fuel as [|fuel IH]; intros r t w Hr Hfuel; [lia|].
  cbn [retransmit]. unfold bind. cbn [random_random].
  destruct (Qltb (rng w (rng_draws w)) packet_loss) eqn:Hdraw;
    [destruct (Z.ltb_spec r 3) as [Hlt|Hge]|]; cbn [andb].
  - set (w1 := mkWorld (clock w) (calendar w) (rng w) (rng_int w)
                       (sha256_hex w) (clock_reads w) (calendar_reads w)
                       (S (rng_draws w))).
    destruct (IH (r + 1)%Z (t * 2) w1 ltac:(lia) ltac:(lia))
      as (k & t' & w' & Hrun & Hk & Ht & Hrng & Hdraws & Hbelow & Hstop).
    exists (S k), t', w'. rewrite Hrun.
    split; [f_equal; f_equal; lia|]. split; [lia|].
    split.
    { rewrite Ht, Nat2Z.inj_succ, Z.pow_succ_r by lia.
      rewrite inject_Z_mult. change (inject_Z 2) with 2. ring. }
    split; [exact Hrng|]. split; [rewrite Hdraws; cbn; lia|].
    cbn [rng rng_draws w1] in Hbelow, Hstop. split.
    + intros [|i] Hi.
      * rewrite Nat.add_0_r. apply Qltb_lt, Hdraw.
      * replace (rng_draws w + S i)%nat with (S (rng_draws w) + i)%nat by lia.
        apply Hbelow. lia.
    + intros Hlt'.
      replace (rng_draws w + S k)%nat with (S (rng_draws w) + k)%nat by lia.
      apply Hstop. lia.
  - exists 0%nat, t, (mkWorld (clock w) (calendar w) (rng w) (rng_int w)
                             (sha256_hex w) (clock_reads w) (calendar_reads w)
                             (S (rng_draws w))).
    unfold ret. rewrite Z.add_0_r.
    split; [reflexivity|]. split; [lia|].
    split; [change (inject_Z (2 ^ Z.of_nat 0)) with 1; ring|].
    split; [reflexivity|].
    split; [cbn; lia|]. split; [intros i Hi; lia|]. lia.
  - exists 0%nat, t, (mkWorld (clock w) (calendar w) (rng w) (rng_int w)
                             (sha256_hex w) (clock_reads w) (calendar_reads w)
                             (S (rng_draws w))).
    unfold ret. rewrite Z.add_0_r.
    split; [reflexivity|]. split; [lia|].
    split; [change (inject_Z (2 ^ Z.of_nat 0)) with 1; ring|].
    split; [reflexivity|].
    split; [cbn; lia|]. split; [intros i Hi; lia|].
    intros _. rewrite Nat.add_0_r. apply Qltb_ge, Hdraw.
Qed.

(** Four rounds are all the loop ever makes: more fuel changes nothing. *)
Lemma retransmit_fuel (packet_loss : Q) (fuel : nat) :
  forall (r : Z) (t : Q) (w : World),
    (0 <= r <= 3)%Z -> (3 - r < Z.of_nat fuel)%Z ->
    retransmit (S fuel) packet_loss r t w = retransmit fuel packet_loss r t w.
Proof.
  induction fuel as [|fuel IH]; intros r t w Hr Hfuel; [lia|].
  cbn [retransmit]. unfold bind. cbn [random_random].
  destruct (Qltb (rng w (rng_draws w)) packet_loss); [|reflexivity].
  destruct (Z.ltb_spec r 3) as [Hlt|Hge]; cbn [andb]; [|reflexivity].
  apply (IH (r + 1)%Z); lia.
Qed.

(** X7.  The key exchange counts its retransmissions faithfully.  When
    [simulate_key_exchange] returns, the number [n] of retransmissions is
    between 0 and 3, the transmission time is the time of one transmission
    of the key doubled [n] times, the total is the key generation time plus
    that transmission time plus the latency, added in seconds in this order
    and then turned into milliseconds, [n + 1] random draws have been made,
    the [n] first of them were below the loss probability, and unless [n]
    is 3 the last one was not. *)
Theorem key_exchange_accounting (self : VPNSimulator) (c : CryptoType)
    (packet_loss : Q) (w w' : World) (kx : KeyExchange) :
  simulate_key_exchange self c packet_loss w = (Ok kx, w') ->
  let n := kx_retransmissions kx in
  (0 <= n <= 3)%Z
  /\ kx_transmission_time_ms kx
     == inject_Z (kx_key_size_bytes kx * 8)
        / (Registry.bandwidth_mbps self * 1000000)
        * inject_Z (2 ^ n) * 1000
  /\ (exists params,
         getitem CRYPTO_PARAMS c = Ok params
         /\ kx_key_size_bytes kx = Registry.key_size params
         /\ kx_key_gen_time_ms kx
            == inject_Z (cpu_cycles params)
               / (cpu_speed_ghz self * 1000000000) * 1000
         /\ kx_total_time_ms kx
            == (inject_Z (cpu_cycles params)
                / (cpu_speed_ghz self * 1000000000)
                + inject_Z (Registry.key_size params * 8)
                  / (Registry.bandwidth_mbps self * 1000000)
                  * inject_Z (2 ^ n)
                + base_latency_ms self / 1000) * 1000)
  /\ kx_network_latency_ms kx == base_latency_ms self / 1000 * 1000
  /\ rng_draws w' = (rng_draws w + Z.to_nat n + 1)%nat
  /\ (forall i, (i < Z.to_nat n)%nat ->
         rng w (rng_draws w + i)%nat < packet_loss)
  /\ ((n < 3)%Z -> packet_loss <= rng w (rng_draws w + Z.to_nat n)%nat).
Proof.
  unfold simulate_key_exchange, bindR, ret.
  destruct (getitem CRYPTO_PARAMS c) as [params|e]; [|discriminate].
  unfold truediv.
  destruct (Qeq_bool (cpu_speed_ghz self * 1000000000) 0); [discriminate|].
  destruct (Qeq_bool (Registry.bandwidth_mbps self * 1000000) 0);
    [discriminate|].
  unfold bind.
  destruct (retransmit_spec 4 packet_loss 0
              (inject_Z (Registry.key_size params * 8)
               / (Registry.bandwidth_mbps self * 1000000)) w
              ltac:(lia) ltac:(lia))
    as (k & t' & w1 & Hrun & Hk & Ht & _ & Hdraws & Hbelow & Hstop).
  rewrite Hrun. intros H. injection H as <- <-.
  cbn [kx_retransmissions kx_transmission_time_ms kx_key_size_bytes
       kx_total_time_ms kx_key_gen_time_ms kx_network_latency_ms].
  cbv zeta. rewrite Z.add_0_l, Nat2Z.id.
  split; [lia|]. split; [rewrite Ht; reflexivity|].
  split.
  { exists params. split; [reflexivity|]. split; [reflexivity|].
    split; [reflexivity|]. rewrite Ht. reflexivity. }
  split; [reflexivity|].
  split; [rewrite Hdraws; lia|]. split; [exact Hbelow|].
  intros Hlt. apply Hstop. lia.
Qed.

(** The X7 theorem on a run of the default simulator. *)
Lemma key_exchange_accounting_witness :
  exists kx w',
    simulate_key_exchange (VPNSimulator_init 100 10) KYBER_768 0.01
                          sample_world = (Ok kx, w')
    /\ (0 <= kx_retransmissions kx <= 3)%Z.
Proof.
  assert (H : exists kx w',
             simulate_key_exchange (VPNSimulator_init 100 10) KYBER_768 0.01
                                   sample_world = (Ok kx, w')).
  { eexists. eexists. vm_compute. reflexivity. }
  destruct H as (kx & w' & H). exists kx, w'. split; [exact H|].
  exact (proj1 (key_exchange_accounting _ _ _ _ _ _ H)).
Defined.

(* ===================================================================== *)
(** ** Properties of the measurements                                     *)
(* ===================================================================== *)

Import Campaign.

(** Every algorithm has its parameters, with positive sizes and costs. *)
Lemma CRYPTO_PARAMS_positive (c : CryptoType) :
  exists params,
    getitem CRYPTO_PARAMS c = Ok params
    /\ (0 < Registry.key_size params)%Z /\ (0 < cpu_cycles params)%Z.
Proof. destruct c; eexists; vm_compute; repeat split; reflexivity. Qed.

Lemma Qeq_bool_zero (x : Q) : x == 0 -> Qeq_bool x 0 = true.
Proof. apply Qeq_bool_iff. Qed.

Lemma Qeq_bool_nonzero (x : Q) : ~ x == 0 -> Qeq_bool x 0 = false.
Proof.
  intros H. apply not_true_iff_false. intros E. apply H, Qeq_bool_iff, E.
Qed.

Lemma inject_Z_pos (z : Z) : (0 < z)%Z -> 0 < inject_Z z.
Proof. intros H. change 0 with (inject_Z 0). rewrite <- Zlt_Qlt. exact H. Qed.

(** The time a megabyte takes: to encrypt, and to send with its overhead. *)
Definition seconds_per_mb (self : VPNSimulator) (params : CryptoParams) : Q :=
  inject_Z (cpu_cycles params) / (cpu_speed_ghz self * 1000000000)
  + (if Registry.quantum_resistant params then 1.15 else 1.05) * 8
    / Registry.bandwidth_mbps self.

Lemma seconds_per_mb_bound (self : VPNSimulator) (params : CryptoParams) :
  0 < Registry.bandwidth_mbps self -> 0 < cpu_speed_ghz self ->
  (0 < cpu_cycles params)%Z ->
  8 < Registry.bandwidth_mbps self * seconds_per_mb self params.
Proof.
  intros Hb Hs Hc. apply inject_Z_pos in Hc. unfold seconds_per_mb.
  set (C := inject_Z (cpu_cycles params)) in *.
  set (b := Registry.bandwidth_mbps self) in *.
  set (s := cpu_speed_ghz self) in *.
  assert (Hcs : 0 < C / (s * 1000000000)).
  { apply Qlt_shift_div_l; lra. }
  assert (Hbc : 0 < b * (C / (s * 1000000000))) by nra.
  assert (E : forall f, b * (C / (s * 1000000000) + f * 8 / b)
                        == b * (C / (s * 1000000000)) + f * 8).
  { intros f. field. lra. }
  rewrite E. destruct (Registry.quantum_resistant params); lra.
Qed.

Lemma data_transfer_run (self : VPNSimulator) (c : CryptoType) (d : Q)
    (params : CryptoParams) :
  getitem CRYPTO_PARAMS c = Ok params ->
  0 < Registry.bandwidth_mbps self -> 0 < cpu_speed_ghz self ->
  (0 < cpu_cycles params)%Z -> ~ d == 0 ->
  exists r,
    simulate_data_transfer self c d = Ok r
    /\ dt_effective_throughput_mbps r == / seconds_per_mb self params
    /\ dt_total_time_s r == d * seconds_per_mb self params
    /\ dt_overhead_percent r
       = ((if Registry.quantum_resistant params then 1.15 else 1.05) - 1)
         * 100
    /\ dt_quantum_resistant r = Registry.quantum_resistant params
    /\ dt_total_time_s r = dt_encryption_time_s r + dt_transmission_time_s r
    /\ dt_effective_throughput_mbps r = d / dt_total_time_s r
    /\ dt_effective_throughput_mbps r
       = d / (inject_Z (cpu_cycles params) * d
              / (cpu_speed_ghz self * 1000000000)
              + d * (if Registry.quantum_resistant params
                     then 1.15 else 1.05) * 8
                / Registry.bandwidth_mbps self).
Proof.
  intros Hp Hb Hs Hc Hd.
  pose proof (seconds_per_mb_bound self params Hb Hs Hc) as HK.
  unfold simulate_data_transfer. rewrite Hp. cbn [rbind]. unfold truediv.
  rewrite (Qeq_bool_nonzero (cpu_speed_ghz self * 1000000000)) by lra.
  cbn [rbind].
  rewrite (Qeq_bool_nonzero (Registry.bandwidth_mbps self)) by lra.
  cbn [rbind].
  unfold seconds_per_mb in *.
  set (C := inject_Z (cpu_cycles params)) in *.
  set (b := Registry.bandwidth_mbps self) in *.
  set (s := cpu_speed_ghz self) in *.
  set (f := if Registry.quantum_resistant params then 1.15 else 1.05) in *.
  set (K := C / (s * 1000000000) + f * 8 / b) in *.
  assert (HKpos : 0 < K) by nra.
  assert (E : C * d / (s * 1000000000) + d * f * 8 / b == d * K).
  { unfold K. field. lra. }
  rewrite (Qeq_bool_nonzero (C * d / (s * 1000000000) + d * f * 8 / b)).
  2:{ rewrite E. intros H0. apply Qmult_integral in H0.
      destruct H0 as [H0|H0]; [exact (Hd H0)|lra]. }
  cbn [rbind]. eexists. split; [reflexivity|].
  cbn [dt_effective_throughput_mbps dt_total_time_s dt_overhead_percent
       dt_quantum_resistant dt_encryption_time_s dt_transmission_time_s].
  split; [rewrite E; field; split; [lra|exact Hd]|].
  split; [exact E|]. repeat split; reflexivity.
Qed.

(** The ranges of the bandwidth (in Mbps), of the processor speed (in GHz)
    and of the data size (in MB) on which the measurements are stated: far
    from the numbers that overflow or vanish when they are divided. *)
Definition in_range (self : VPNSimulator) : Prop :=
  (0.001 <= Registry.bandwidth_mbps self
   /\ Registry.bandwidth_mbps self <= 1000000)
  /\ (0.001 <= cpu_speed_ghz self /\ cpu_speed_ghz self <= 1000).

Lemma in_range_positive (self : VPNSimulator) :
  in_range self ->
  0 < Registry.bandwidth_mbps self /\ 0 < cpu_speed_ghz self.
Proof. intros [[H1 _] [H2 _]]. split; lra. Qed.

(** X8.  The effective throughput of a data transfer.  With a bandwidth, a
    processor speed or a data size of zero [simulate_data_transfer] raises
    [ZeroDivisionError].  With a bandwidth from 0.001 to 10^6 Mbps, a
    processor speed from 0.001 to 1000 GHz and a data size from 0.001 to
    10^6 MB it returns; the total time is the encryption time plus the
    transmission time, the throughput is the data size over that total
    time, it is positive, and eight times the throughput stays below the
    bandwidth (by the encryption overhead of 5 % at least). *)
Theorem data_transfer_throughput (self : VPNSimulator) (c : CryptoType)
    (d : Q) :
  (Registry.bandwidth_mbps self == 0 \/ cpu_speed_ghz self == 0 \/ d == 0 ->
   simulate_data_transfer self c d = Raise ZeroDivisionError)
  /\ (in_range self -> 0.001 <= d -> d <= 1000000 ->
      exists r,
        simulate_data_transfer self c d = Ok r
        /\ dt_total_time_s r
           = dt_encryption_time_s r + dt_transmission_time_s r
        /\ dt_effective_throughput_mbps r = d / dt_total_time_s r
        /\ 0 < dt_effective_throughput_mbps r
        /\ dt_effective_throughput_mbps r * 8
           < Registry.bandwidth_mbps self).
Proof.
  destruct (CRYPTO_PARAMS_positive c) as (params & Hp & _ & Hc). split.
  - intros H. unfold simulate_data_transfer. rewrite Hp. cbn [rbind].
    unfold truediv.
    destruct (Qeq_bool (cpu_speed_ghz self * 1000000000) 0) eqn:Es;
      [reflexivity|]. cbn [rbind].
    destruct (Qeq_bool (Registry.bandwidth_mbps self) 0) eqn:Eb;
      [reflexivity|]. cbn [rbind].
    destruct H as [H|[H|H]].
    + rewrite (Qeq_bool_zero _ H) in Eb. discriminate Eb.
    + rewrite Qeq_bool_zero in Es; [discriminate Es|]. rewrite H. ring.
    + rewrite Qeq_bool_zero; [reflexivity|]. rewrite H.
      apply Qeq_bool_neq in Es, Eb. field. split; [exact Eb|].
      intros E0. apply Es. rewrite E0. ring.
  - intros Hself Hd0 Hd1.
    destruct (in_range_positive self Hself) as [Hb Hs].
    assert (Hd : ~ d == 0) by lra.
    pose proof (seconds_per_mb_bound self params Hb Hs Hc) as HK.
    assert (HKpos : 0 < seconds_per_mb self params) by nra.
    destruct (data_transfer_run self c d params Hp Hb Hs Hc Hd)
      as (r & Hr & Hthr & _ & _ & _ & Htot & Hdiv & _).
    exists r. split; [exact Hr|]. split; [exact Htot|].
    split; [exact Hdiv|]. rewrite Hthr.
    split; [apply Qinv_lt_0_compat, HKpos|].
    assert (E : / seconds_per_mb self params * 8
                == 8 / seconds_per_mb self params) by (field; lra).
    rewrite E.
    apply Qlt_shift_div_r; [exact HKpos|exact HK].
Qed.

(** The X8 theorem on the default simulator and 100 MB. *)
Lemma data_transfer_throughput_witness :
  simulate_data_transfer (VPNSimulator_init 100 10) KYBER_768 0
  = Raise ZeroDivisionError
  /\ exists r,
       simulate_data_transfer (VPNSimulator_init 100 10) KYBER_768 100 = Ok r
       /\ 0 < dt_effective_throughput_mbps r.
Proof.
  split.
  - apply (proj1 (data_transfer_throughput (VPNSimulator_init 100 10)
                    KYBER_768 0)).
    right. right. reflexivity.
  - destruct (proj2 (data_transfer_throughput (VPNSimulator_init 100 10)
                       KYBER_768 100))
      as (r & Hr & _ & _ & Hpos & _);
      [repeat split; discriminate|discriminate|discriminate|].
    exists r. split; assumption.
Defined.

(** *** The processor samples *)

Lemma clamp_range (x : Q) : 0 <= min 100 (max 0 x) /\ min 100 (max 0 x) <= 100.
Proof.
  unfold min, max.
  destruct (Qltb 0 x) eqn:E0.
  - apply Qltb_lt in E0. destruct (Qltb x 100) eqn:E1.
    + apply Qltb_lt in E1. split; lra.
    + split; lra.
  - replace (Qltb 0 100) with true by reflexivity. split; lra.
Qed.

Lemma sample_cpu_spec (n : nat) (base_cpu_usage crypto_cpu_usage : Q) :
  forall (cpu_samples : list Q) (g : Gauss),
    exists new,
      fst (sample_cpu n base_cpu_usage crypto_cpu_usage cpu_samples g)
      = (cpu_samples ++ new)%list
      /\ length new = n
      /\ (forall x, In x new -> 0 <= x /\ x <= 100)
      /\ gauss_calls
           (snd (sample_cpu n base_cpu_usage crypto_cpu_usage cpu_samples g))
         = (gauss_calls g + n)%nat.
Proof.
  induction n as [|n IH]; intros cpu_samples g; cbn [sample_cpu].
  - exists []. rewrite app_nil_r. cbn [fst snd length].
    split; [reflexivity|]. split; [reflexivity|].
    split; [intros x []|lia].
  - cbn [random_gauss].
    destruct (IH (cpu_samples
                  ++ [min 100 (max 0 (base_cpu_usage + crypto_cpu_usage
                        + gauss_values g (gauss_calls g) 0 2))])%list
                 (mkGauss (gauss_values g) (S (gauss_calls g))))
      as (new & Hl & Hn & Hr & Hg).
    eexists (_ :: new). rewrite Hl, Hg, <- app_assoc.
    split; [reflexivity|]. split; [cbn [length]; rewrite Hn; reflexivity|].
    split; [|cbn; lia].
    intros x [<-|Hx]; [apply clamp_range|apply Hr, Hx].
Qed.

(** The mean of a list that is not empty lies between its bounds. *)
Lemma np_mean_bounds (values : list Q) (lo hi : Q) :
  values <> [] ->
  (forall x, In x values -> lo <= x /\ x <= hi) ->
  lo <= np_mean values /\ np_mean values <= hi.
Proof.
  intros Hne H. pose proof (count_pos values Hne) as Hn.
  destruct (fold_left_Qplus_bounds values lo hi H 0) as [Hlo Hhi].
  unfold np_mean, sum. split.
  - apply Qle_shift_div_l; [exact Hn|]. lra.
  - apply Qle_shift_div_r; [exact Hn|]. lra.
Qed.

Lemma cpu_usage_run (sqrt : Q -> Q) (self : VPNSimulator) (c : CryptoType)
    (duration_seconds : Z) (g : Gauss) :
  ~ cpu_speed_ghz self == 0 -> (1 <= duration_seconds)%Z ->
  exists r,
    fst (simulate_cpu_usage sqrt self c duration_seconds g) = Ok r
    /\ 0 <= cu_min_cpu_usage r
    /\ cu_min_cpu_usage r <= cu_avg_cpu_usage r
    /\ cu_avg_cpu_usage r <= cu_max_cpu_usage r
    /\ cu_max_cpu_usage r <= 100
    /\ gauss_calls (snd (simulate_cpu_usage sqrt self c duration_seconds g))
       = (gauss_calls g + Z.to_nat duration_seconds)%nat.
Proof.
  intros Hs Hd. destruct (CRYPTO_PARAMS_positive c) as (params & Hp & _).
  unfold simulate_cpu_usage. rewrite Hp. unfold truediv.
  rewrite (Qeq_bool_nonzero (cpu_speed_ghz self * 1000000000)).
  2:{ intros E. apply Hs. lra. }
  set (level := inject_Z (cpu_cycles params * 1000)
                / (cpu_speed_ghz self * 1000000000) * 100).
  destruct (sample_cpu_spec (Z.to_nat duration_seconds) 5 level [] g)
    as (new & Hl & Hn & Hr & Hg).
  destruct (sample_cpu _ 5 level [] g) as [cpu_samples g'].
  cbn [fst snd app] in Hl, Hg |- *. subst cpu_samples.
  assert (Hne : new <> []).
  { intros ->. cbn in Hn. lia. }
  destruct (Topology.np_max new) as [top|] eqn:Hmax;
    [|destruct new; [contradiction|discriminate Hmax]].
  destruct (Topology.np_min new) as [low|] eqn:Hmin;
    [|destruct new; [contradiction|discriminate Hmin]].
  cbn [rbind]. eexists. split; [reflexivity|].
  cbn [cu_min_cpu_usage cu_avg_cpu_usage cu_max_cpu_usage].
  destruct (np_max_spec new top Hmax) as [Htop Hall].
  destruct (np_min_spec new low Hmin) as [Hlow Hall'].
  destruct (np_mean_bounds new low top Hne
              (fun x Hx => conj (Hall' x Hx) (Hall x Hx))) as [H1 H2].
  split; [apply Hr, Hlow|]. split; [exact H1|]. split; [exact H2|].
  split; [apply Hr, Htop|exact Hg].
Qed.

(** X9.  The processor usage [simulate_cpu_usage] reports is a percentage,
    whatever [random.gauss] returns: for a duration of at least one second
    it returns, with [0 <= min <= avg <= max <= 100], after one call of
    [random.gauss] for each second.  For a duration of zero or less there
    is no sample and it raises [ValueError]. *)
Theorem cpu_usage_is_a_percentage (sqrt : Q -> Q) (self : VPNSimulator)
    (c : CryptoType) (duration_seconds : Z) (g : Gauss) :
  ~ cpu_speed_ghz self == 0 ->
  ((duration_seconds <= 0)%Z ->
   fst (simulate_cpu_usage sqrt self c duration_seconds g) = Raise ValueError)
  /\ ((1 <= duration_seconds)%Z ->
      exists r,
        fst (simulate_cpu_usage sqrt self c duration_seconds g) = Ok r
        /\ 0 <= cu_min_cpu_usage r
        /\ cu_min_cpu_usage r <= cu_avg_cpu_usage r
        /\ cu_avg_cpu_usage r <= cu_max_cpu_usage r
        /\ cu_max_cpu_usage r <= 100
        /\ gauss_calls (snd (simulate_cpu_usage sqrt self c duration_seconds g))
           = (gauss_calls g + Z.to_nat duration_seconds)%nat).
Proof.
  intros Hs. split; [|apply cpu_usage_run, Hs].
  intros Hd. destruct (CRYPTO_PARAMS_positive c) as (params & Hp & _).
  unfold simulate_cpu_usage. rewrite Hp. unfold truediv.
  rewrite (Qeq_bool_nonzero (cpu_speed_ghz self * 1000000000)).
  2:{ intros E. apply Hs. lra. }
  replace (Z.to_nat duration_seconds) with 0%nat by lia. reflexivity.
Qed.

(** A stream of variations that swings by 7.5 around zero. *)
Definition sample_gauss : Gauss :=
  mkGauss (fun n mu sigma =>
             mu + sigma * (if Nat.even n then 3.75 else - 3.75)) 0.

(** The X9 theorem on thirty seconds of the default simulator. *)
Lemma cpu_usage_is_a_percentage_witness :
  exists r,
    fst (simulate_cpu_usage (fun x => x) (VPNSimulator_init 100 10)
                            DILITHIUM_3 30 sample_gauss) = Ok r
    /\ 0 <= cu_min_cpu_usage r
    /\ cu_max_cpu_usage r <= 100.
Proof.
  destruct (proj2 (cpu_usage_is_a_percentage
                     (fun x => x) (VPNSimulator_init 100 10) DILITHIUM_3 30
                     sample_gauss ltac:(discriminate)) ltac:(lia))
    as (r & Hr & Hmin & _ & _ & Hmax & _).
  exists r. repeat split; assumption.
Defined.

(* ===================================================================== *)
(** ** The two recommendations                                            *)
(* ===================================================================== *)

Import Frame.

(** Two ways of cutting one list at an element: the same cut, or each
    element lies on the other side of the other one. *)
Lemma split_compare {A : Type} (l1 : list A) :
  forall (a : A) (l2 l1' : list A) (b : A) (l2' : list A),
    (l1 ++ a :: l2 = l1' ++ b :: l2')%list ->
    (length l1 = length l1' /\ a = b)
    \/ (In a l1' /\ In b l2)
    \/ (In b l1 /\ In a l2').
Proof.
  induction l1 as [|x l1 IH]; intros a l2 l1' b l2' H.
  - destruct l1' as [|y l1']; cbn [app] in H; injection H as -> H.
    + left. split; reflexivity.
    + right. left. split; [left; reflexivity|].
      rewrite H. apply in_or_app. right. left. reflexivity.
  - destruct l1' as [|y l1']; cbn [app] in H; injection H as -> H.
    + right. right. split; [left; reflexivity|].
      rewrite <- H. apply in_or_app. right. left. reflexivity.
    + destruct (IH _ _ _ _ _ H) as [[Hl He]|[[Ha Hb]|[Hb Ha]]].
      * left. split; [cbn [length]; rewrite Hl; reflexivity|exact He].
      * right. left. split; [right; exact Ha|exact Hb].
      * right. right. split; [right; exact Hb|exact Ha].
Qed.

(** The mean of positive numbers is a positive number. *)
Lemma nanmean_positive (values : list Q) :
  values <> [] -> (forall x, In x values -> 0 < x) ->
  exists T, nanmean values = Fin T /\ 0 < T.
Proof.
  intros Hne H. pose proof (count_pos values Hne) as Hn.
  destruct values as [|v values]; [contradiction|].
  eexists. split; [reflexivity|].
  apply Qlt_shift_div_l; [exact Hn|].
  unfold sum. cbn [fold_left].
  pose proof (H v (or_introl eq_refl)).
  pose proof (fold_left_Qplus_grows values
                (fun y Hy => H y (or_intror Hy)) (0 + v)).
  lra.
Qed.

(** Against a positive traditional average, the throughput reduction of a
    row of positive throughput is a number, and a smaller reduction is a
    larger throughput. *)
Lemma reduction_is_finite (self : VPNAnalyzer) (T : Q) (x : nat * ResultRow) :
  trad_avg self throughput_mbps = Fin T ->
  0 < throughput_mbps (snd x) ->
  reduction_of self x = Fin ((T / throughput_mbps (snd x) - 1) * 100).
Proof.
  intros HT Hx. unfold reduction_of, overhead_of_row.
  cbn [throughput_reduction]. rewrite HT. cbn [f64_truediv].
  rewrite Qeq_bool_nonzero by lra. reflexivity.
Qed.

Lemma reduction_order (self : VPNAnalyzer) (T : Q) (x y : nat * ResultRow) :
  trad_avg self throughput_mbps = Fin T -> 0 < T ->
  0 < throughput_mbps (snd x) -> 0 < throughput_mbps (snd y) ->
  f64_ltb (reduction_of self x) (reduction_of self y)
  = Qltb (throughput_mbps (snd y)) (throughput_mbps (snd x)).
Proof.
  intros HT HTpos Hx Hy.
  rewrite (reduction_is_finite self T x HT Hx),
    (reduction_is_finite self T y HT Hy).
  cbn [f64_ltb].
  set (a := throughput_mbps (snd x)) in *.
  set (b := throughput_mbps (snd y)) in *.
  assert (Hinv : b < a <-> T / a < T / b).
  { unfold Qdiv. rewrite (Qinv_lt_contravar b a Hy Hx).
    split; intros H.
    - apply Qmult_lt_l; assumption.
    - apply Qmult_lt_l in H; assumption. }
  destruct (Qltb b a) eqn:E.
  - apply Qltb_lt. apply Qltb_lt, Hinv in E. lra.
  - apply Qltb_ge. apply Qltb_ge in E.
    destruct (Qlt_le_dec (T / a) (T / b)) as [Hlt|Hle]; [|lra].
    apply Hinv in Hlt. lra.
Qed.

(** The criterion of the analyzer separates the quantum-resistant rows of
    a frame: of two of them, the one of the larger throughput has the
    smaller throughput reduction in the column the analyzer computes. *)
Definition separated (rows : list ResultRow) : Prop :=
  forall x y,
    In x rows -> In y rows ->
    Frame.quantum_resistant x = true -> Frame.quantum_resistant y = true ->
    throughput_mbps x < throughput_mbps y ->
    f64_ltb
      (throughput_reduction
         (overhead_of_row (VPNAnalyzer_init (from_records rows)) y))
      (throughput_reduction
         (overhead_of_row (VPNAnalyzer_init (from_records rows)) x))
    = true.

(** Rows of the same throughput have the same reduction, so neither is
    below the other. *)
Lemma reduction_of_equal (self : VPNAnalyzer) (T : Q) (x y : nat * ResultRow) :
  trad_avg self throughput_mbps = Fin T ->
  0 < throughput_mbps (snd x) ->
  throughput_mbps (snd x) == throughput_mbps (snd y) ->
  f64_ltb (reduction_of self x) (reduction_of self y) = false.
Proof.
  intros HT Hx E.
  rewrite (reduction_is_finite self T x HT Hx),
    (reduction_is_finite self T y HT) by (rewrite <- E; exact Hx).
  cbn [f64_ltb]. apply Qltb_ge. rewrite E. apply Qle_refl.
Qed.

(** The two recommendations on a frame of positive throughputs with rows of
    both families, whose throughputs the criterion separates. *)
Lemma recommendations_of_positive_frame (rows : list ResultRow) :
  (forall r, In r rows -> 0 < throughput_mbps r) ->
  (exists r, In r rows /\ Frame.quantum_resistant r = false) ->
  (exists r, In r rows /\ Frame.quantum_resistant r = true) ->
  separated rows ->
  exists row,
    Summary.best_pqc rows = Ok row
    /\ Frame.best_pqc (VPNAnalyzer_init (from_records rows))
       = Ok (algorithm row).
Proof.
  intros Hpos (t & Ht & Htq) (q & Hq & Hqq) Hsep.
  set (self := VPNAnalyzer_init (from_records rows)).
  assert (Hpqc : map snd (pqc self) = List.filter Frame.quantum_resistant rows).
  { apply (map_snd_select Frame.quantum_resistant rows 0). }
  assert (Htrad : map snd (Frame.traditional self)
                  = List.filter (fun r => negb (Frame.quantum_resistant r))
                                rows).
  { apply (map_snd_select (fun r => negb (Frame.quantum_resistant r))
                          rows 0). }
  assert (Hin : forall x, In x (pqc self) -> In (snd x) rows).
  { intros x Hx. apply (in_map snd) in Hx. rewrite Hpqc in Hx.
    apply filter_In in Hx. apply Hx. }
  assert (Hqr : forall x, In x (pqc self) ->
                  Frame.quantum_resistant (snd x) = true).
  { intros x Hx. apply (in_map snd) in Hx. rewrite Hpqc in Hx.
    apply filter_In in Hx. apply Hx. }
  destruct (nanmean_positive
              (map (fun lr => throughput_mbps (snd lr))
                   (Frame.traditional self))) as (T & HT & HTpos).
  { rewrite <- (map_map snd throughput_mbps), Htrad.
    assert (Hf : In t (List.filter
                         (fun r => negb (Frame.quantum_resistant r)) rows)).
    { apply filter_In. rewrite Htq. auto. }
    intros He. apply map_eq_nil in He. rewrite He in Hf. destruct Hf. }
  { intros x Hx. apply in_map_iff in Hx. destruct Hx as (lr & <- & Hlr).
    apply (in_map snd) in Hlr. rewrite Htrad in Hlr.
    apply filter_In in Hlr. apply Hpos, Hlr. }
  fold (trad_avg self throughput_mbps) in HT.
  destruct (summary_best_pqc_returns rows) as [row Hrow];
    [exists q; auto|].
  exists row. split; [exact Hrow|].
  destruct (summary_best_pqc_spec rows row Hrow)
    as (pre' & post' & Hcut' & _ & Hpre' & Hpost').
  destruct (best_pqc_returns self) as [name Hname].
  { intros He.
    assert (Hf : In t (map snd (Frame.traditional self))).
    { rewrite Htrad. apply filter_In. rewrite Htq. auto. }
    rewrite He in Hf. destruct Hf. }
  { assert (Hf : In q (map snd (pqc self))).
    { rewrite Hpqc. apply filter_In. auto. }
    apply in_map_iff in Hf. destruct Hf as (lr & Hlr & Hlrin).
    exists lr. split; [exact Hlrin|].
    apply Qeq_bool_nonzero. rewrite Hlr.
    pose proof (Hpos q Hq). lra. }
  rewrite Hname. f_equal.
  destruct (best_pqc_spec self name Hname)
    as (pre & lr & post & Hcut & <- & _ & Hpre & Hpost).
  assert (Hlr : 0 < throughput_mbps (snd lr)).
  { apply Hpos, Hin. rewrite Hcut. apply in_or_app. right. left.
    reflexivity. }
  assert (Hbefore : forall x, In x pre ->
             throughput_mbps (snd x) < throughput_mbps (snd lr)).
  { intros x Hx.
    assert (Hxpos : 0 < throughput_mbps (snd x)).
    { apply Hpos, Hin. rewrite Hcut. apply in_or_app. left. exact Hx. }
    assert (Hxin : In x (pqc self)).
    { rewrite Hcut. apply in_or_app. left. exact Hx. }
    assert (Hlrin : In lr (pqc self)).
    { rewrite Hcut. apply in_or_app. right. left. reflexivity. }
    destruct (Hpre x Hx) as [Hnan|Hlt].
    { rewrite (reduction_is_finite self T x HT Hxpos) in Hnan.
      discriminate Hnan. }
    destruct (Q_dec (throughput_mbps (snd x)) (throughput_mbps (snd lr)))
      as [[Hless|Hmore]|Heq]; [exact Hless| |].
    - pose proof (Hsep (snd lr) (snd x) (Hin lr Hlrin) (Hin x Hxin)
                    (Hqr lr Hlrin) (Hqr x Hxin) Hmore) as Hback.
      fold self in Hback. fold (reduction_of self x) in Hback.
      fold (reduction_of self lr) in Hback.
      rewrite (reduction_is_finite self T x HT Hxpos),
        (reduction_is_finite self T lr HT Hlr) in Hlt, Hback.
      cbn [f64_ltb] in Hlt, Hback.
      apply Qltb_lt in Hlt, Hback. lra.
    - symmetry in Heq.
      rewrite (reduction_of_equal self T lr x HT Hlr Heq) in Hlt.
      discriminate Hlt. }
  assert (Hafter : forall x, In x post ->
             throughput_mbps (snd x) <= throughput_mbps (snd lr)).
  { intros x Hx.
    assert (Hxpos : 0 < throughput_mbps (snd x)).
    { apply Hpos, Hin. rewrite Hcut. apply in_or_app. right. right.
      exact Hx. }
    assert (Hxin : In x (pqc self)).
    { rewrite Hcut. apply in_or_app. right. right. exact Hx. }
    assert (Hlrin : In lr (pqc self)).
    { rewrite Hcut. apply in_or_app. right. left. reflexivity. }
    pose proof (Hpost x Hx) as Hge.
    destruct (Qlt_le_dec (throughput_mbps (snd lr))
                         (throughput_mbps (snd x))) as [Hmore|Hle];
      [|exact Hle].
    pose proof (Hsep (snd lr) (snd x) (Hin lr Hlrin) (Hin x Hxin)
                  (Hqr lr Hlrin) (Hqr x Hxin) Hmore) as Hback.
    fold self in Hback. fold (reduction_of self x) in Hback.
    fold (reduction_of self lr) in Hback.
    rewrite Hback in Hge. discriminate Hge. }
  assert (Hsame : (map snd pre ++ snd lr :: map snd post
                   = pre' ++ row :: post')%list).
  { rewrite <- Hcut', <- Hpqc, Hcut, map_app. reflexivity. }
  destruct (split_compare _ _ _ _ _ _ Hsame)
    as [[_ He]|[[Ha Hb]|[Hb Ha]]].
  - rewrite He. reflexivity.
  - exfalso. apply Hpre' in Ha. apply in_map_iff in Hb.
    destruct Hb as (x & Hx & Hxin). apply Hafter in Hxin.
    rewrite Hx in Hxin. lra.
  - exfalso. apply Hpost' in Ha. apply in_map_iff in Hb.
    destruct Hb as (x & Hx & Hxin). apply Hbefore in Hxin.
    rewrite Hx in Hxin. lra.
Qed.

(** Over the rationals the criterion separates any positive throughputs. *)
Lemma rational_frames_are_separated (rows : list ResultRow) :
  (forall r, In r rows -> 0 < throughput_mbps r) ->
  (exists r, In r rows /\ Frame.quantum_resistant r = false) ->
  separated rows.
Proof.
  intros Hpos (t & Ht & Htq) x y Hx Hy _ _ Hlt.
  set (self := VPNAnalyzer_init (from_records rows)).
  assert (Htrad : map snd (Frame.traditional self)
                  = List.filter (fun r => negb (Frame.quantum_resistant r))
                                rows).
  { apply (map_snd_select (fun r => negb (Frame.quantum_resistant r))
                          rows 0). }
  destruct (nanmean_positive
              (map (fun lr => throughput_mbps (snd lr))
                   (Frame.traditional self))) as (T & HT & HTpos).
  { rewrite <- (map_map snd throughput_mbps), Htrad.
    assert (Hf : In t (List.filter
                         (fun r => negb (Frame.quantum_resistant r)) rows)).
    { apply filter_In. rewrite Htq. auto. }
    intros He. apply map_eq_nil in He. rewrite He in Hf. destruct Hf. }
  { intros v Hv. apply in_map_iff in Hv. destruct Hv as (lr & <- & Hlr).
    apply (in_map snd) in Hlr. rewrite Htrad in Hlr.
    apply filter_In in Hlr. apply Hpos, Hlr. }
  fold (trad_avg self throughput_mbps) in HT.
  pose proof (reduction_order self T (0%nat, y) (0%nat, x) HT HTpos
                (Hpos y Hy) (Hpos x Hx)) as H.
  unfold reduction_of in H. cbn [snd] in H. rewrite H.
  apply Qltb_lt, Hlt.
Qed.



(* ===================================================================== *)
(** ** The complete simulation                                            *)
(* ===================================================================== *)

Lemma key_exchange_run (self : VPNSimulator) (c : CryptoType)
    (packet_loss : Q) (w : World) (params : CryptoParams) :
  getitem CRYPTO_PARAMS c = Ok params ->
  ~ Registry.bandwidth_mbps self == 0 -> ~ cpu_speed_ghz self == 0 ->
  exists kx w' n,
    simulate_key_exchange self c packet_loss w = (Ok kx, w')
    /\ kx_key_size_bytes kx = Registry.key_size params
    /\ (0 <= n <= 3)%Z
    /\ kx_total_time_ms kx
       == (inject_Z (cpu_cycles params) / (cpu_speed_ghz self * 1000000000)
           + inject_Z (Registry.key_size params * 8)
             / (Registry.bandwidth_mbps self * 1000000) * inject_Z (2 ^ n)
           + base_latency_ms self / 1000) * 1000.
Proof.
  intros Hp Hb Hs.
  unfold simulate_key_exchange, bindR, ret. rewrite Hp. unfold truediv.
  rewrite (Qeq_bool_nonzero (cpu_speed_ghz self * 1000000000)).
  2:{ intros E. apply Hs. lra. }
  rewrite (Qeq_bool_nonzero (Registry.bandwidth_mbps self * 1000000)).
  2:{ intros E. apply Hb. lra. }
  unfold bind.
  destruct (retransmit_spec 4 packet_loss 0
              (inject_Z (Registry.key_size params * 8)
               / (Registry.bandwidth_mbps self * 1000000)) w
              ltac:(lia) ltac:(lia))
    as (k & t' & w1 & Hrun & Hk & Ht & _).
  rewrite Hrun. eexists. exists w1, (Z.of_nat k).
  split; [reflexivity|].
  cbn [kx_key_size_bytes kx_total_time_ms].
  split; [reflexivity|]. split; [lia|]. rewrite Ht. reflexivity.
Qed.

(** What the row of an algorithm holds, whatever was drawn, each number by
    the operations that compute it. *)
Definition measured (self : VPNSimulator) (c : CryptoType) (row : ResultRow)
  : Prop :=
  exists params,
    getitem CRYPTO_PARAMS c = Ok params
    /\ algorithm row = value c
    /\ Frame.quantum_resistant row = Registry.quantum_resistant params
    /\ key_size_bytes row = Registry.key_size params
    /\ (exists n : Z,
           (0 <= n <= 3)%Z
           /\ key_exchange_time_ms row
              == (inject_Z (cpu_cycles params)
                  / (cpu_speed_ghz self * 1000000000)
                  + inject_Z (Registry.key_size params * 8)
                    / (Registry.bandwidth_mbps self * 1000000)
                    * inject_Z (2 ^ n)
                  + base_latency_ms self / 1000) * 1000)
    /\ throughput_mbps row
       = 100 / (inject_Z (cpu_cycles params) * 100
                / (cpu_speed_ghz self * 1000000000)
                + 100 * (if Registry.quantum_resistant params
                         then 1.15 else 1.05) * 8
                  / Registry.bandwidth_mbps self)
    /\ encryption_overhead row
       = ((if Registry.quantum_resistant params then 1.15 else 1.05) - 1)
         * 100
    /\ (0 <= avg_cpu_usage row /\ avg_cpu_usage row <= 100)
    /\ memory_usage_mb row
       = 50 + inject_Z (Registry.key_size params) / 1024
         + inject_Z (Registry.key_size params * 10) / 1024
         + (if Registry.quantum_resistant params
            then inject_Z (Registry.key_size params * 20) / 1024
            else inject_Z (Registry.key_size params * 5) / 1024).

Lemma combined_result_run (sqrt : Q -> Q) (self : VPNSimulator)
    (c : CryptoType) (g : Gauss) (w : World) :
  0 < Registry.bandwidth_mbps self -> 0 < cpu_speed_ghz self ->
  exists row g' w',
    combined_result sqrt self c g w = (Ok row, g', w')
    /\ measured self c row
    /\ gauss_calls g' = (gauss_calls g + 30)%nat.
Proof.
  intros Hb Hs.
  destruct (CRYPTO_PARAMS_positive c) as (params & Hp & Hk & Hc).
  destruct (key_exchange_run self c 0.01 w params Hp)
    as (kx & w' & n & Hkx & Hsize & Hn & Htotal); [lra|lra|].
  destruct (data_transfer_run self c 100 params Hp Hb Hs Hc)
    as (dt & Hdt & _ & _ & Hover & _ & _ & _ & Hthr); [discriminate|].
  destruct (cpu_usage_run sqrt self c 30 g)
    as (cu & Hcu & Hmin & Hlo & Hhi & Hmax & Hg); [lra|lia|].
  unfold combined_result, bindRun, of_sim, of_result, of_gauss.
  rewrite Hkx, Hdt.
  destruct (simulate_cpu_usage sqrt self c 30 g) as [rcu g'].
  cbn [fst snd] in Hcu, Hg. subst rcu.
  unfold simulate_memory_usage. rewrite Hp. cbn [rbind].
  eexists. exists g', w'. split; [reflexivity|]. split; [|exact Hg].
  exists params. split; [exact Hp|].
  cbn [algorithm Frame.quantum_resistant key_size_bytes key_exchange_time_ms
       throughput_mbps encryption_overhead avg_cpu_usage memory_usage_mb
       mu_total_memory_mb].
  split; [reflexivity|]. split; [reflexivity|]. split; [exact Hsize|].
  split; [exists n; split; [exact Hn|exact Htotal]|].
  split; [exact Hthr|]. split; [exact Hover|].
  split; [split; lra|].
  destruct (Registry.quantum_resistant params); reflexivity.
Qed.

Lemma simulate_each_run (sqrt : Q -> Q) (self : VPNSimulator)
    (crypto_types : list CryptoType) :
  0 < Registry.bandwidth_mbps self -> 0 < cpu_speed_ghz self ->
  forall (all_results : list ResultRow) (g : Gauss) (w : World),
    exists new g' w',
      simulate_each sqrt self crypto_types all_results g w
      = (Ok (all_results ++ new)%list, g', w')
      /\ Forall2 (measured self) crypto_types new
      /\ gauss_calls g' = (gauss_calls g + 30 * length crypto_types)%nat.
Proof.
  intros Hb Hs.
  induction crypto_types as [|c rest IH]; intros all_results g w.
  - exists [], g, w. cbn [simulate_each]. unfold of_result.
    rewrite app_nil_r. split; [reflexivity|].
    split; [constructor|cbn; lia].
  - destruct (combined_result_run sqrt self c g w Hb Hs)
      as (row & g1 & w1 & Hrow & Hm & Hg1).
    destruct (IH (all_results ++ [row])%list g1 w1)
      as (new & g' & w' & Hrun & Hall & Hg').
    exists (row :: new), g', w'. cbn [simulate_each]. unfold bindRun.
    rewrite Hrow, Hrun, <- app_assoc.
    split; [reflexivity|]. split; [constructor; assumption|].
    rewrite Hg', Hg1. cbn [length]. lia.
Qed.

(** X11.  The complete simulation.  With a bandwidth or a processor speed of
    zero [run_complete_simulation] raises [ZeroDivisionError].  With a
    bandwidth from 0.001 to 10^6 Mbps and a processor speed from 0.001 to
    1000 GHz it returns, whatever is drawn, a frame of one row for each
    member of [CryptoType] in the order of definition; each row holds the
    name, the flag and the key size of its algorithm, a key exchange time
    with at most three doublings of the transmission, the throughput of
    100 MB over the time they take to encrypt and to send with their
    overhead, the encryption overhead [(1.15 - 1) * 100] or
    [(1.05 - 1) * 100], a processor usage between 0 and 100 and the memory
    the key size gives; and [random.gauss] has been called 240 times. *)
Theorem complete_simulation_rows (sqrt : Q -> Q) (self : VPNSimulator)
    (g : Gauss) (w : World) :
  (Registry.bandwidth_mbps self == 0 \/ cpu_speed_ghz self == 0 ->
   run_complete_simulation sqrt self g w = (Raise ZeroDivisionError, g, w))
  /\ (in_range self ->
      exists rows g' w',
        run_complete_simulation sqrt self g w
        = (Ok (from_records rows), g', w')
        /\ Forall2 (measured self) members rows
        /\ gauss_calls g' = (gauss_calls g + 240)%nat).
Proof.
  split.
  - intros H. unfold run_complete_simulation, bindRun.
    cbn [members simulate_each]. unfold bindRun at 1.
    unfold combined_result, bindRun at 1. unfold of_sim.
    unfold simulate_key_exchange, bindR, ret.
    replace (getitem CRYPTO_PARAMS RSA_2048)
      with (Ok (mkCryptoParams 256 256 3000000 false)) by reflexivity.
    unfold truediv.
    destruct (Qeq_bool (cpu_speed_ghz self * 1000000000) 0) eqn:Es;
      [reflexivity|].
    destruct (Qeq_bool (Registry.bandwidth_mbps self * 1000000) 0) eqn:Eb;
      [reflexivity|].
    exfalso. apply Qeq_bool_neq in Es, Eb.
    destruct H as [H|H]; [apply Eb|apply Es]; rewrite H; ring.
  - intros Hself. destruct (in_range_positive self Hself) as [Hb Hs].
    destruct (simulate_each_run sqrt self members Hb Hs [] g w)
      as (rows & g' & w' & Hrun & Hall & Hg).
    exists rows, g', w'. unfold run_complete_simulation, bindRun.
    rewrite Hrun. split; [reflexivity|]. split; [exact Hall|exact Hg].
Qed.

(** The X11 theorem on the default simulator. *)
Lemma complete_simulation_rows_witness :
  exists rows g' w',
    run_complete_simulation (fun x => x) (VPNSimulator_init 100 10)
                            sample_gauss sample_world
    = (Ok (from_records rows), g', w')
    /\ length rows = 8%nat.
Proof.
  destruct (proj2 (complete_simulation_rows
                     (fun x => x) (VPNSimulator_init 100 10)
                     sample_gauss sample_world))
    as (rows & g' & w' & Hrun & Hall & _); [repeat split; discriminate|].
  exists rows, g', w'. split; [exact Hrun|].
  apply Forall2_length in Hall. symmetry. exact Hall.
Defined.

(** Of two algorithms of one family, the one that costs more cycles takes
    longer for a megabyte. *)
Lemma seconds_per_mb_cycles (self : VPNSimulator) (p p' : CryptoParams) :
  0 < cpu_speed_ghz self ->
  Registry.quantum_resistant p = Registry.quantum_resistant p' ->
  (cpu_cycles p < cpu_cycles p')%Z ->
  seconds_per_mb self p < seconds_per_mb self p'.
Proof.
  intros Hs Hq Hc. unfold seconds_per_mb. rewrite Hq.
  apply Qplus_lt_l. unfold Qdiv. apply Qmult_lt_compat_r.
  - apply Qinv_lt_0_compat. lra.
  - rewrite <- Zlt_Qlt. exact Hc.
Qed.

(** Over the rationals the throughput of a row is the inverse of the time
    a megabyte takes. *)
Lemma measured_throughput (self : VPNSimulator) (c : CryptoType)
    (row : ResultRow) (params : CryptoParams) :
  0 < Registry.bandwidth_mbps self -> 0 < cpu_speed_ghz self ->
  getitem CRYPTO_PARAMS c = Ok params ->
  measured self c row ->
  algorithm row = value c
  /\ Frame.quantum_resistant row = Registry.quantum_resistant params
  /\ throughput_mbps row == / seconds_per_mb self params.
Proof.
  intros Hb Hs Hp (params' & Hp' & Ha & Hq & _ & _ & Ht & _).
  rewrite Hp in Hp'. injection Hp' as <-.
  split; [exact Ha|]. split; [exact Hq|]. rewrite Ht.
  destruct (CRYPTO_PARAMS_positive c) as (params' & Hp' & _ & Hc).
  rewrite Hp in Hp'. injection Hp' as <-.
  pose proof (seconds_per_mb_bound self params Hb Hs Hc) as HK.
  unfold seconds_per_mb in *.
  set (C := inject_Z (cpu_cycles params)) in *.
  set (b := Registry.bandwidth_mbps self) in *.
  set (s := cpu_speed_ghz self) in *.
  set (f := if Registry.quantum_resistant params then 1.15 else 1.05) in *.
  assert (HKpos : 0 < C / (s * 1000000000) + f * 8 / b) by nra.
  assert (E : C * 100 / (s * 1000000000) + 100 * f * 8 / b
              == 100 * (C / (s * 1000000000) + f * 8 / b)).
  { field. lra. }
  rewrite E. set (K := C / (s * 1000000000) + f * 8 / b) in *.
  field. lra.
Qed.

(** The recommendations on the frame of the complete simulation. *)
Lemma measured_recommendation (self : VPNSimulator) (rows : list ResultRow) :
  0 < Registry.bandwidth_mbps self -> 0 < cpu_speed_ghz self ->
  Forall2 (measured self) members rows ->
  exists row,
    Summary.best_pqc rows = Ok row
    /\ algorithm row = "Kyber-512"
    /\ Frame.best_pqc (VPNAnalyzer_init (from_records rows))
       = Ok "Kyber-512".
Proof.
  intros Hb Hs Hall. unfold members in Hall.
  repeat match type of Hall with
         | Forall2 _ (_ :: _) _ =>
             apply Forall2_cons_inv_l in Hall;
             destruct Hall as (? & ? & ? & Hall & ->)
         end.
  apply Forall2_nil_inv_l in Hall. subst.
  repeat match goal with
         | H : measured self ?c _ |- _ =>
             let r := eval vm_compute in (getitem CRYPTO_PARAMS c) in
             match r with
             | Ok ?params =>
                 apply (measured_throughput self c _ params Hb Hs eq_refl)
                   in H;
                 destruct H as (? & ? & ?)
             end
         end.
  cbn [Registry.quantum_resistant] in *.
  assert (HK : forall p, (0 < cpu_cycles p)%Z -> 0 < seconds_per_mb self p).
  { intros p Hp. pose proof (seconds_per_mb_bound self p Hb Hs Hp). nra. }
  assert (Hpos : forall p t, (0 < cpu_cycles p)%Z ->
                   t == / seconds_per_mb self p -> 0 < t).
  { intros p t Hp ->. apply Qinv_lt_0_compat, HK, Hp. }
  assert (Hlt : forall p p' t t',
             (0 < cpu_cycles p)%Z ->
             Registry.quantum_resistant p = Registry.quantum_resistant p' ->
             (cpu_cycles p < cpu_cycles p')%Z ->
             t == / seconds_per_mb self p -> t' == / seconds_per_mb self p' ->
             t' < t).
  { intros p p' t t' Hp Hq Hc -> ->.
    apply (proj1 (Qinv_lt_contravar _ _ (HK p Hp) (HK p' ltac:(lia)))).
    apply seconds_per_mb_cycles; assumption. }
  match goal with
  | |- exists row, Summary.best_pqc ?l = _ /\ _ =>
      assert (Hall : forall r, In r l -> 0 < throughput_mbps r)
  end.
  { intros r Hr. cbn [In] in Hr.
    repeat (destruct Hr as [<-|Hr];
            [eapply Hpos; [|eassumption]; reflexivity|]).
    destruct Hr. }
  match goal with
  | |- exists row, Summary.best_pqc ?l = _ /\ _ =>
      destruct (recommendations_of_positive_frame l Hall)
        as (row & Hrow & Hname)
  end.
  { eexists. split; [left; reflexivity|assumption]. }
  { eexists. split; [do 3 right; left; reflexivity|assumption]. }
  { apply rational_frames_are_separated; [exact Hall|].
    eexists. split; [left; reflexivity|assumption]. }
  exists row. split; [exact Hrow|].
  destruct (summary_best_pqc_spec _ row Hrow)
    as (pre & post & Hcut & _ & Hpre & _).
  cbn [List.filter] in Hcut.
  repeat match goal with
         | H : Frame.quantum_resistant _ = _ |- _ => rewrite H in Hcut
         end.
  assert (Hrow4 : algorithm row = "Kyber-512").
  { destruct pre as [|p pre]; cbn [app] in Hcut; injection Hcut as Hhead Hcut.
    - subst row. assumption.
    - exfalso. subst p.
      assert (Hin : In row (pre ++ row :: post)%list).
      { apply in_or_app. right. left. reflexivity. }
      rewrite <- Hcut in Hin.
      match type of Hpre with
      | forall x, In x (?k :: _) -> _ =>
          pose proof (Hpre k (or_introl eq_refl)) as Hk
      end.
      cbn [In] in Hin.
      repeat (destruct Hin as [<-|Hin];
              [match goal with
               | Ht : throughput_mbps ?k == / seconds_per_mb self ?p,
                 Hr : throughput_mbps ?r == / seconds_per_mb self ?p',
                 Hk : throughput_mbps ?k < throughput_mbps ?r |- _ =>
                   pose proof (Hlt p p' _ _ eq_refl eq_refl eq_refl Ht Hr);
                   lra
               end|]).
      destruct Hin. }
  split; [exact Hrow4|]. rewrite Hname, Hrow4. reflexivity.
Qed.

(** X12.  The complete simulation always recommends Kyber-512.  Whatever is
    drawn, for a bandwidth from 0.001 to 10^6 Mbps and a processor speed
    from 0.001 to 1000 GHz, both the report of the analyzer and the
    executive summary name Kyber-512 on the frame [run_complete_simulation]
    returns: no throughput depends on what is drawn, Kyber-512 is the first
    quantum-resistant member of [CryptoType], and it costs the fewest
    cycles of them, so that no later row is better on either criterion. *)
Theorem complete_simulation_recommends_kyber512 (sqrt : Q -> Q)
    (self : VPNSimulator) (g : Gauss) (w : World) :
  in_range self ->
  exists rows row,
    fst (fst (run_complete_simulation sqrt self g w))
    = Ok (from_records rows)
    /\ Frame.best_pqc (VPNAnalyzer_init (from_records rows)) = Ok "Kyber-512"
    /\ Summary.best_pqc rows = Ok row
    /\ algorithm row = "Kyber-512".
Proof.
  intros Hself. destruct (in_range_positive self Hself) as [Hb Hs].
  destruct (simulate_each_run sqrt self members Hb Hs [] g w)
    as (rows & g' & w' & Hrun & Hall & _).
  destruct (measured_recommendation self rows Hb Hs Hall)
    as (row & Hrow & Hname & Hbest).
  exists rows, row. unfold run_complete_simulation, bindRun.
  rewrite Hrun. cbn [fst of_result app]. auto.
Qed.

(** The X12 theorem on the default simulator. *)
Lemma complete_simulation_recommends_kyber512_witness :
  exists rows,
    fst (fst (run_complete_simulation (fun x => x) (VPNSimulator_init 100 10)
                                      sample_gauss sample_world))
    = Ok (from_records rows)
    /\ Frame.best_pqc (VPNAnalyzer_init (from_records rows)) = Ok "Kyber-512".
Proof.
  destruct (complete_simulation_recommends_kyber512
              (fun x => x) (VPNSimulator_init 100 10) sample_gauss
              sample_world) as (rows & row & Hrun & Hbest & _);
    [repeat split; discriminate|].
  exists rows. split; assumption.
Defined.

(* ===================================================================== *)
(** ** Further properties of the load model                               *)
(* ===================================================================== *)

Import Topology.
Import Scalability.

(** [random.sample] of [k] entries of a population that has them: [k]
    entries, all of the population. *)
Lemma sample_from_spec {A : Type} (k : nat) :
  forall (pool : list A) (w : World),
    (k <= length pool)%nat ->
    length (fst (sample_from k pool w)) = k
    /\ (forall x, In x (fst (sample_from k pool w)) -> In x pool).
Proof.
  induction k as [|k IH]; intros pool w Hk.
  - destruct pool; cbn; split; try reflexivity; intros x [].
  - destruct pool as [|first pool]; [cbn in Hk; lia|].
    cbn [sample_from]. unfold bind. cbn [random_randint].
    set (n := Z.of_nat (length (first :: pool))).
    set (i := rng_int w (rng_draws w) 0 (n - 1)).
    set (j := Z.to_nat (i mod n)).
    set (w1 := mkWorld _ _ _ _ _ _ _ _).
    assert (Hj : (j < length (first :: pool))%nat).
    { subst j n. pose proof (Z.mod_pos_bound i
                               (Z.of_nat (length (first :: pool)))).
      cbn [length] in *. lia. }
    set (pool' := (firstn j (first :: pool)
                   ++ skipn (S j) (first :: pool))%list).
    assert (Hlen : length pool' = length pool).
    { subst pool'. rewrite length_app, length_firstn, length_skipn.
      cbn [length] in *. lia. }
    destruct (IH pool' w1 ltac:(cbn [length] in Hk; lia)) as [Hl Hin].
    destruct (sample_from k pool' w1) as [rest w2]. cbn [fst ret] in *.
    split; [cbn [length]; rewrite Hl; reflexivity|].
    intros x [<-|Hx].
    + apply nth_In, Hj.
    + apply Hin in Hx. subst pool'. apply in_app_or in Hx.
      destruct Hx as [Hx|Hx].
      * rewrite <- (firstn_skipn j (first :: pool)).
        apply in_or_app. left. exact Hx.
      * rewrite <- (firstn_skipn (S j) (first :: pool)).
        apply in_or_app. right. exact Hx.
Qed.

(** The users of a run that is not refused: as many as asked for, or the
    whole population when it is smaller, each one of the population. *)
Lemma sample_of_run_spec (self : RemoteAccessVPN) (concurrent_users : Z)
    (w : World) :
  (0 <= concurrent_users)%Z ->
  exists active_users w1,
    sample_of_run self concurrent_users w = (Ok active_users, w1)
    /\ Z.of_nat (length active_users)
       = Z.min concurrent_users (Z.of_nat (length (user_locations self)))
    /\ (forall u, In u active_users -> In u (user_locations self)).
Proof.
  intros Hc. unfold sample_of_run, random_sample.
  set (k := Z.min concurrent_users (Z.of_nat (length (user_locations self)))).
  destruct (Z.ltb_spec k 0) as [H|_]; [lia|].
  destruct (Z.ltb_spec (Z.of_nat (length (user_locations self))) k)
    as [H|_]; [lia|].
  cbn [orb]. unfold lift, bind.
  destruct (sample_from_spec (Z.to_nat k) (user_locations self) w
              ltac:(lia)) as [Hl Hin].
  destruct (sample_from (Z.to_nat k) (user_locations self) w)
    as [active_users w1].
  cbn [fst] in Hl, Hin. exists active_users, w1.
  split; [reflexivity|]. split; [rewrite Hl; lia|exact Hin].
Qed.

Lemma failures_range (concurrent_users : Z) (draws : nat -> Q)
    (users : list UserLocation) :
  forall n,
    (0 <= failures concurrent_users draws n users
     <= Z.of_nat (length users))%Z.
Proof.
  induction users as [|u users IH]; intros n; cbn [failures length]; [lia|].
  specialize (IH (S n)).
  destruct (attempt_fails concurrent_users draws n); lia.
Qed.

(** What a run that is not refused returns. *)
Lemma concurrent_connections_run (self : RemoteAccessVPN)
    (crypto_type : string) (concurrent_users : Z) (w : World) :
  (1 <= concurrent_users)%Z -> user_locations self <> [] ->
  exists r active_users w1,
    fst (simulate_concurrent_connections self crypto_type concurrent_users w)
    = Ok r
    /\ sample_of_run self concurrent_users w = (Ok active_users, w1)
    /\ Z.of_nat (length active_users)
       = Z.min concurrent_users (Z.of_nat (length (user_locations self)))
    /\ (forall u, In u active_users -> In u (user_locations self))
    /\ Topology.crypto_type r = crypto_type
    /\ Topology.concurrent_users r = concurrent_users
    /\ (0 <= failed r <= Z.of_nat (length active_users))%Z
    /\ success_rate r
       == inject_Z (Z.of_nat (length active_users) - failed r)
          / inject_Z concurrent_users * 100
    /\ (let times :=
          attempt_times (base_time_of crypto_type) concurrent_users
                        (rng w1) (rng_draws w1) active_users in
        times <> []
        /\ avg_connection_time_ms r = nanmean times
        /\ Topology.np_max times = Ok (max_connection_time_ms r)
        /\ Topology.np_min times = Ok (min_connection_time_ms r)).
Proof.
  intros Hc Hne.
  destruct (sample_of_run_spec self concurrent_users w ltac:(lia))
    as (active_users & w1 & Hs & Hlen & Hin).
  rewrite simulate_concurrent_connections_run, Hs.
  destruct (attempts_spec (base_time_of crypto_type) concurrent_users
              active_users (mkTally [] 0 0) w1) as (Ht & Hf & Hsum).
  cbn [connection_times failed_connections successful_connections app]
    in Ht, Hf, Hsum.
  set (tally := fst (attempts _ _ _ active_users w1)) in *.
  set (times := attempt_times (base_time_of crypto_type) concurrent_users
                              (rng w1) (rng_draws w1) active_users) in *.
  assert (Hactive : active_users <> []).
  { intros ->. cbn [length] in Hlen.
    destruct (user_locations self); [contradiction|]. cbn [length] in Hlen.
    lia. }
  assert (Htimes : times <> []).
  { intros E. apply (f_equal (@length Q)) in E. subst times.
    rewrite attempt_times_length in E.
    destruct active_users; [contradiction|discriminate E]. }
  unfold connection_metrics. rewrite Ht.
  destruct (Topology.np_max times) as [mx|] eqn:Hmax;
    [|destruct times; [contradiction|discriminate Hmax]].
  destruct (Topology.np_min times) as [mn|] eqn:Hmin;
    [|destruct times; [contradiction|discriminate Hmin]].
  cbn [rbind]. unfold truediv.
  rewrite Qeq_bool_nonzero.
  2:{ assert (0 < inject_Z concurrent_users) by (apply inject_Z_pos; lia).
      lra. }
  cbn [rbind]. eexists. exists active_users, w1.
  split; [reflexivity|]. split; [reflexivity|].
  split; [exact Hlen|]. split; [exact Hin|].
  cbn [Topology.crypto_type Topology.concurrent_users failed success_rate
       avg_connection_time_ms max_connection_time_ms min_connection_time_ms].
  split; [reflexivity|]. split; [reflexivity|].
  pose proof (failures_range concurrent_users (rng w1) active_users
                (rng_draws w1)) as Hrange.
  split; [rewrite Hf; lia|].
  split.
  { replace (successful_connections tally)
      with (Z.of_nat (length active_users) - failed_connections tally)%Z
      by lia.
    reflexivity. }
  cbv zeta. repeat split; assumption.
Qed.

(** A run is refused when no user is asked for, or the network has none. *)
Lemma concurrent_connections_refused (self : RemoteAccessVPN)
    (name : string) (users : Z) (w : World) :
  (users <= 0)%Z \/ user_locations self = [] ->
  fst (simulate_concurrent_connections self name users w) = Raise ValueError.
Proof.
  intros H. rewrite simulate_concurrent_connections_run.
  destruct (Z.ltb_spec users 0) as [Hneg|Hpos].
  - unfold sample_of_run, random_sample.
    destruct (Z.ltb_spec (Z.min users
                            (Z.of_nat (length (user_locations self)))) 0);
      [reflexivity|lia].
  - destruct (sample_of_run_spec self users w Hpos)
      as (active_users & w1 & Hs & Hlen & _).
    rewrite Hs.
    assert (Hnil : active_users = []).
    { destruct active_users; [reflexivity|]. exfalso.
      cbn [length] in Hlen. destruct H as [H|H]; [lia|].
      rewrite H in Hlen. cbn [length] in Hlen. lia. }
    subst active_users. reflexivity.
Qed.



(** A run that returns was not refused. *)
Lemma concurrent_connections_accepted (self : RemoteAccessVPN)
    (name : string) (users : Z) (w : World) (r : ConnectionMetrics) :
  fst (simulate_concurrent_connections self name users w) = Ok r ->
  (1 <= users)%Z /\ user_locations self <> [].
Proof.
  intros Hr. split.
  - destruct (Z.leb_spec 1 users) as [Hc|Hc]; [exact Hc|].
    rewrite concurrent_connections_refused in Hr by (left; lia).
    discriminate Hr.
  - intros He. rewrite concurrent_connections_refused in Hr
      by (right; exact He).
    discriminate Hr.
Qed.

(** X14.  The success rate counts against the users asked for.  When the
    load model returns, as many attempts were made as users were asked for,
    or as the network has when that is fewer; the failed ones are among
    them; and the success rate is the number of the others over the number
    asked for.  So the rate is between 0 and 100, and it cannot exceed the
    share of the users asked for that the network has. *)
Theorem success_rate_accounting (self : RemoteAccessVPN) (name : string)
    (users : Z) (w : World) (r : ConnectionMetrics) :
  fst (simulate_concurrent_connections self name users w) = Ok r ->
  let population := Z.of_nat (length (user_locations self)) in
  let attempts := Z.min users population in
  (1 <= users)%Z
  /\ (0 <= failed r <= attempts)%Z
  /\ success_rate r == inject_Z (attempts - failed r) / inject_Z users * 100
  /\ (0 <= success_rate r /\ success_rate r <= 100)
  /\ success_rate r <= inject_Z population / inject_Z users * 100.
Proof.
  intros Hr. cbv zeta.
  destruct (concurrent_connections_accepted self name users w r Hr)
    as [Hc Hne].
  destruct (concurrent_connections_run self name users w Hc Hne)
    as (r' & active_users & w1 & Hr' & _ & Hlen & _ & _ & _ & Hf & Hrate & _).
  rewrite Hr in Hr'. injection Hr' as <-.
  rewrite Hlen in Hf, Hrate.
  set (k := Z.min users (Z.of_nat (length (user_locations self)))) in *.
  assert (Hu : 0 < inject_Z users) by (apply inject_Z_pos; lia).
  split; [exact Hc|]. split; [exact Hf|]. split; [exact Hrate|].
  assert (Hdiv : forall a b : Z, (a <= b)%Z ->
             inject_Z a / inject_Z users * 100
             <= inject_Z b / inject_Z users * 100).
  { intros a b Hab. apply Qmult_le_compat_r; [|discriminate].
    unfold Qdiv. apply Qmult_le_compat_r.
    - rewrite <- Zle_Qle. exact Hab.
    - apply Qlt_le_weak, Qinv_lt_0_compat, Hu. }
  rewrite Hrate. split; [split|].
  - assert (E : 0 == inject_Z 0 / inject_Z users * 100)
      by (unfold Qdiv; ring).
    rewrite E at 1. apply Hdiv. lia.
  - assert (E : 100 == inject_Z users / inject_Z users * 100)
      by (field; lra).
    rewrite E at 2. apply Hdiv. lia.
  - apply Hdiv. lia.
Qed.

(** The X14 theorem on five users asked of the sample network of two. *)
Lemma success_rate_accounting_witness :
  exists r,
    fst (simulate_concurrent_connections sample_vpn "Kyber-768" 5
           sample_world) = Ok r
    /\ success_rate r <= 40.
Proof.
  assert (H : exists r,
             fst (simulate_concurrent_connections sample_vpn "Kyber-768" 5
                    sample_world) = Ok r).
  { eexists. vm_compute. reflexivity. }
  destruct H as [r Hr]. exists r. split; [exact Hr|].
  eapply Qle_trans;
    [exact (proj2 (proj2 (proj2 (proj2
              (success_rate_accounting _ _ _ _ _ Hr)))))|].
  vm_compute. discriminate.
Defined.

(** *** The generated network *)

(** [randint(a, b)] as the library promises it. *)
Definition randint_in_range (w : World) : Prop :=
  forall n a b, (a <= b)%Z -> (a <= rng_int w n a b <= b)%Z.

Lemma random_randint_oracle (a b : Z) (w : World) :
  rng_int (snd (random_randint a b w)) = rng_int w.
Proof. reflexivity. Qed.

Lemma random_choice_oracle {A : Type} (first : A) (others : list A)
    (w : World) :
  rng_int (snd (random_choice first others w)) = rng_int w.
Proof. reflexivity. Qed.

Lemma generate_from_spec (count : nat) :
  forall (i : nat) (w : World),
    randint_in_range w ->
    length (fst (generate_from i count w)) = count
    /\ (forall u, In u (fst (generate_from i count w)) ->
          (5 <= distance_km u <= 1000)%Z).
Proof.
  induction count as [|count IH]; intros i w Hw.
  - split; [reflexivity|intros u []].
  - cbn [generate_from]. unfold bind.
    pose proof (random_randint_oracle 5 1000 w) as H1.
    assert (Hd : (5 <= fst (random_randint 5 1000 w) <= 1000)%Z).
    { cbn [random_randint fst]. apply Hw. lia. }
    destruct (random_randint 5 1000 w) as [d w1]. cbn [fst snd] in H1, Hd.
    pose proof (random_choice_oracle Fiber [Cable; DSL; FourG] w1) as H2.
    destruct (random_choice Fiber [Cable; DSL; FourG] w1) as [c w2].
    pose proof (random_choice_oracle 10%Z [25; 50; 100; 200]%Z w2) as H3.
    destruct (random_choice 10%Z [25; 50; 100; 200]%Z w2) as [b w3].
    cbn [snd] in H2, H3.
    assert (Hw3 : randint_in_range w3).
    { unfold randint_in_range. rewrite H3, H2, H1. exact Hw. }
    destruct (IH (S i) w3 Hw3) as [Hl Hin].
    destruct (generate_from (S i) count w3) as [rest w4].
    cbn [ret fst] in *. split; [cbn [length]; rewrite Hl; reflexivity|].
    intros u [<-|Hu]; [exact Hd|apply Hin, Hu].
Qed.

(** The base time of every name is between those of the table. *)
Lemma base_time_range (name : string) :
  (60 <= base_time_of name <= 250)%Z.
Proof.
  unfold base_time_of.
  destruct (base_times !! name) as [z|] eqn:E; simpl; [|lia].
  unfold base_times in E. apply elem_of_list_to_map_2 in E.
  repeat (apply elem_of_cons in E; destruct E as [E|E];
          [inversion E; subst; lia|]).
  apply elem_of_nil in E. destruct E.
Qed.

Lemma connection_time_range (base_time : Z) (user : UserLocation) :
  (0 <= base_time)%Z -> (5 <= distance_km user <= 1000)%Z ->
  inject_Z base_time * 1.005 <= connection_time_of base_time user
  /\ connection_time_of base_time user <= inject_Z base_time * 3.6.
Proof.
  intros Hb [Hlo Hhi]. unfold connection_time_of.
  assert (Hb' : 0 <= inject_Z base_time).
  { change 0 with (inject_Z 0). rewrite <- Zle_Qle. exact Hb. }
  assert (Hd1 : 5 <= inject_Z (distance_km user)).
  { change 5 with (inject_Z 5). rewrite <- Zle_Qle. exact Hlo. }
  assert (Hd2 : inject_Z (distance_km user) <= 1000).
  { change 1000 with (inject_Z 1000). rewrite <- Zle_Qle. exact Hhi. }
  set (b := inject_Z base_time) in *.
  set (d := inject_Z (distance_km user)) in *.
  assert (Hx : 1.005 <= 1 + d / 1000 /\ 1 + d / 1000 <= 2).
  { assert (E : d / 1000 == d * (1 # 1000)) by (unfold Qdiv; reflexivity).
    rewrite E. split; lra. }
  set (x := 1 + d / 1000) in *. destruct Hx as [Hx1 Hx2].
  assert (Hbx1 : b * 1.005 <= b * x) by nra.
  assert (Hbx2 : b * x <= b * 2) by nra.
  destruct (connection_type user); cbn [connection_factors]; split; nra.
Qed.

Lemma attempt_times_range (base_time concurrent_users : Z)
    (draws : nat -> Q) (users : list UserLocation) (lo hi : Q) :
  0 <= lo ->
  (forall u, In u users ->
     lo <= connection_time_of base_time u
     /\ connection_time_of base_time u <= hi) ->
  forall n t,
    In t (attempt_times base_time concurrent_users draws n users) ->
    lo <= t /\ t <= hi * 3.
Proof.
  intros Hhi. induction users as [|u users IH]; intros H n t Ht;
    cbn [attempt_times] in Ht; [destruct Ht|].
  destruct Ht as [<-|Ht].
  - destruct (H u (or_introl eq_refl)) as [H1 H2].
    destruct (attempt_fails concurrent_users draws n); split; lra.
  - apply (IH (fun v Hv => H v (or_intror Hv)) (S n) t Ht).
Qed.

(** X15.  Connection times on a generated network.  [__init__] generates
    as many users as asked for, between 5 and 1000 km away when [randint]
    keeps to its bounds.  Every run on such a network that returns has its
    minimum at least 1.005 times the base time of the algorithm, its maximum
    at most 10.8 times (twice for the distance, 1.8 for the slowest link,
    three times for a failure), and its average between the two; the base
    time itself is between 60 and 250. *)
Theorem generated_network_connection_times (num_users : Z) (w0 : World)
    (name : string) (users : Z) (w : World) (r : ConnectionMetrics) :
  randint_in_range w0 ->
  let self := fst (RemoteAccessVPN_init num_users w0) in
  fst (simulate_concurrent_connections self name users w) = Ok r ->
  let base := inject_Z (base_time_of name) in
  length (user_locations self) = Z.to_nat num_users
  /\ (60 <= base /\ base <= 250)
  /\ base * 1.005 <= min_connection_time_ms r
  /\ (exists a,
         avg_connection_time_ms r = Fin a
         /\ min_connection_time_ms r <= a /\ a <= max_connection_time_ms r)
  /\ max_connection_time_ms r <= base * 10.8.
Proof.
  intros Hw0 self Hr base.
  destruct (generate_from_spec (Z.to_nat num_users) 0 w0 Hw0) as [Hlen Hdist].
  assert (Hself : user_locations self
                  = fst (generate_from 0 (Z.to_nat num_users) w0)).
  { subst self. unfold RemoteAccessVPN_init, _generate_user_locations, bind.
    destruct (generate_from 0 (Z.to_nat num_users) w0). reflexivity. }
  rewrite <- Hself in Hlen, Hdist.
  pose proof (base_time_range name) as Hbase.
  assert (Hb : 60 <= base /\ base <= 250).
  { subst base. split.
    - change 60 with (inject_Z 60). rewrite <- Zle_Qle. lia.
    - change 250 with (inject_Z 250). rewrite <- Zle_Qle. lia. }
  split; [exact Hlen|]. split; [exact Hb|].
  destruct (concurrent_connections_accepted self name users w r Hr)
    as [Hc Hne].
  destruct (concurrent_connections_run self name users w Hc Hne)
    as (r' & active_users & w1 & Hr' & _ & _ & Hin & _ & _ & _ & _ & Htimes).
  rewrite Hr in Hr'. injection Hr' as <-.
  cbv zeta in Htimes. destruct Htimes as (Hne' & Havg & Hmax & Hmin).
  set (times := attempt_times (base_time_of name) users (rng w1)
                              (rng_draws w1) active_users) in *.
  assert (Hrange : forall t, In t times ->
             base * 1.005 <= t /\ t <= base * 3.6 * 3).
  { apply attempt_times_range; [lra|].
    intros u Hu. apply connection_time_range; [lia|].
    apply Hdist, Hin, Hu. }
  destruct (np_max_spec times _ Hmax) as [Htop Hall].
  destruct (np_min_spec times _ Hmin) as [Hlow Hall'].
  split; [apply Hrange, Hlow|]. split.
  - exists (np_mean times). split.
    + rewrite Havg. unfold nanmean, np_mean.
      destruct times; [contradiction|reflexivity].
    + apply np_mean_bounds; [exact Hne'|].
      intros x Hx. split; [apply Hall', Hx|apply Hall, Hx].
  - destruct (Hrange _ Htop) as [_ H]. lra.
Qed.

(** The X15 theorem on a network of three users generated in the sample
    world. *)
Lemma generated_network_connection_times_witness :
  exists r,
    fst (simulate_concurrent_connections
           (fst (RemoteAccessVPN_init 3 sample_world)) "Kyber-768" 2
           sample_world) = Ok r
    /\ 200 * 1.005 <= min_connection_time_ms r.
Proof.
  assert (H : exists r,
             fst (simulate_concurrent_connections
                    (fst (RemoteAccessVPN_init 3 sample_world)) "Kyber-768" 2
                    sample_world) = Ok r).
  { eexists. vm_compute. reflexivity. }
  destruct H as [r Hr]. exists r. split; [exact Hr|].
  exact (proj1 (proj2 (proj2
           (generated_network_connection_times 3 sample_world "Kyber-768" 2
              sample_world r
              (proj2 (proj2 sample_world_well_behaved)) Hr)))).
Defined.

(** *** The scalability test *)

(** What the row of the test of an algorithm at a load holds. *)
Definition tested (self : RemoteAccessVPN) (case : Z * string)
    (row : ScalabilityRow) : Prop :=
  let population := Z.of_nat (length (user_locations self)) in
  Topology.concurrent_users (metrics row) = fst case
  /\ Topology.crypto_type (metrics row) = snd case
  /\ Scalability.quantum_resistant row
     = startswith ["Kyber"; "Dilithium"] (snd case)
  /\ (0 <= failed (metrics row) <= Z.min (fst case) population)%Z
  /\ success_rate (metrics row)
     == inject_Z (Z.min (fst case) population - failed (metrics row))
        / inject_Z (fst case) * 100.

Lemma test_crypto_types_run (self : RemoteAccessVPN) (user_count : Z)
    (crypto_types : list string) :
  (1 <= user_count)%Z -> user_locations self <> [] ->
  forall (results : list ScalabilityRow) (w : World),
    exists new w',
      test_crypto_types self user_count crypto_types results w
      = (Ok (results ++ new)%list, w')
      /\ Forall2 (tested self) (map (pair user_count) crypto_types) new.
Proof.
  intros Hc Hne.
  induction crypto_types as [|c rest IH]; intros results w.
  - exists [], w. rewrite app_nil_r. split; [reflexivity|constructor].
  - cbn [test_crypto_types]. unfold bindR.
    destruct (concurrent_connections_run self c user_count w Hc Hne)
      as (r & active_users & w1 & Hr & _ & Hlen & _ & Hname & Hcount & Hf
          & Hrate & _).
    destruct (simulate_concurrent_connections self c user_count w)
      as [res w2].
    cbn [fst] in Hr. subst res.
    destruct (IH (results
                  ++ [mkScalabilityRow r
                        (startswith ["Kyber"; "Dilithium"] c)])%list w2)
      as (new & w' & Hrun & Hall).
    exists (mkScalabilityRow r (startswith ["Kyber"; "Dilithium"] c) :: new),
      w'.
    rewrite Hrun, <- app_assoc. split; [reflexivity|].
    cbn [map]. constructor; [|exact Hall].
    unfold tested. cbn [metrics Scalability.quantum_resistant fst snd].
    rewrite Hlen in Hf, Hrate. auto.
Qed.

Lemma test_user_counts_run (self : RemoteAccessVPN) (counts : list Z)
    (crypto_types : list string) :
  Forall (fun n => (1 <= n)%Z) counts -> user_locations self <> [] ->
  forall (results : list ScalabilityRow) (w : World),
    exists new w',
      test_user_counts self counts crypto_types results w
      = (Ok (results ++ new)%list, w')
      /\ Forall2 (tested self)
                 (flat_map (fun n => map (pair n) crypto_types) counts) new.
Proof.
  intros Hcounts Hne.
  induction counts as [|n rest IH]; intros results w.
  - exists [], w. rewrite app_nil_r. split; [reflexivity|constructor].
  - apply Forall_cons in Hcounts. destruct Hcounts as [Hn Hrest].
    cbn [test_user_counts flat_map]. unfold bindR.
    destruct (test_crypto_types_run self n crypto_types Hn Hne results w)
      as (new1 & w1 & Hrun1 & Hall1).
    rewrite Hrun1.
    destruct (IH Hrest (results ++ new1)%list w1)
      as (new2 & w2 & Hrun2 & Hall2).
    exists (new1 ++ new2)%list, w2. rewrite Hrun2, <- app_assoc.
    split; [reflexivity|]. apply Forall2_app; assumption.
Qed.

(** X16.  The scalability test.  On a network with at least one user
    [simulate_scalability_test] returns, whatever is drawn, one row for each
    load of 10, 25, 50, 100, 150, 200, 250 and 300 users and each algorithm
    asked for, load by load in the order of the algorithms; a row holds its
    load, its algorithm, the flag that tells whether the name starts with
    Kyber or Dilithium, and a success rate that counts the attempts made
    (the load, or the population when it is smaller) against the load.  On a
    network without users the first run raises [ValueError].  For the names
    of the registry the flag is the registry's. *)
Theorem scalability_test_rows (self : RemoteAccessVPN)
    (crypto_types : list string) (w : World) :
  (user_locations self <> [] ->
   exists rows w',
     simulate_scalability_test self crypto_types w = (Ok rows, w')
     /\ Forall2 (tested self)
                (flat_map (fun n => map (pair n) crypto_types) user_counts)
                rows
     /\ length rows = (8 * length crypto_types)%nat)
  /\ (user_locations self = [] -> crypto_types <> [] ->
      fst (simulate_scalability_test self crypto_types w) = Raise ValueError)
  /\ (forall c : CryptoType,
         exists params,
           getitem CRYPTO_PARAMS c = Ok params
           /\ startswith ["Kyber"; "Dilithium"] (value c)
              = Registry.quantum_resistant params).
Proof.
  split; [|split].
  - intros Hne.
    destruct (test_user_counts_run self user_counts crypto_types) with
      (results := @nil ScalabilityRow) (w := w)
      as (rows & w' & Hrun & Hall); [|exact Hne|].
    { unfold user_counts. repeat (constructor; [lia|]). constructor. }
    exists rows, w'. split; [exact Hrun|]. split; [exact Hall|].
    apply Forall2_length in Hall. rewrite <- Hall.
    unfold user_counts. cbn [flat_map]. rewrite !length_app, !length_map.
    cbn [length]. lia.
  - intros He Hcs. destruct crypto_types as [|c rest]; [contradiction|].
    unfold simulate_scalability_test, user_counts.
    cbn [test_user_counts test_crypto_types]. unfold bindR at 1.
    unfold bindR at 1.
    pose proof (concurrent_connections_refused self c 10 w
                  (or_intror He)) as Hr.
    destruct (simulate_concurrent_connections self c 10 w) as [res w1].
    cbn [fst] in Hr. subst res. reflexivity.
  - intros c. destruct c; eexists; split; reflexivity.
Qed.

(** The X16 theorem on the sample network and the algorithms of the
    program. *)
Lemma scalability_test_rows_witness :
  exists rows w',
    simulate_scalability_test sample_vpn
      ["RSA-2048"; "ECC-P256"; "Kyber-512"; "Kyber-768"; "Dilithium-2"]
      sample_world = (Ok rows, w')
    /\ length rows = 40%nat.
Proof.
  destruct (proj1 (scalability_test_rows sample_vpn
                     ["RSA-2048"; "ECC-P256"; "Kyber-512"; "Kyber-768";
                      "Dilithium-2"] sample_world))
    as (rows & w' & Hrun & _ & Hlen); [discriminate|].
  exists rows, w'. split; [exact Hrun|exact Hlen].
Defined.

(* ===================================================================== *)
(** ** The report of one family only                                      *)
(* ===================================================================== *)

Import Tunnel.

(** X17.  The comparative report needs both families.  When the records
    hold no traditional handshake, or no post-quantum one, the averages of
    that family are zero and [generate_report] raises [ZeroDivisionError];
    in particular after a simulation of no iteration from an empty
    analyzer. *)
Theorem report_needs_both_families :
  (forall metrics w,
      traditional_metrics metrics = [] \/ pqc_metrics metrics = [] ->
      fst (generate_report metrics w) = Raise ZeroDivisionError)
  /\ (forall iterations packet_size_kb w w',
         (iterations <= 0)%Z ->
         fst (generate_report
                (fst (fst (run_simulation iterations packet_size_kb [] w)))
                w')
         = Raise ZeroDivisionError).
Proof.
  assert (H : forall metrics w,
             traditional_metrics metrics = [] \/ pqc_metrics metrics = [] ->
             fst (generate_report metrics w) = Raise ZeroDivisionError).
  { intros metrics w H. rewrite generate_report_spec. cbv zeta.
    unfold divisors_nonzero. destruct H as [-> | ->].
    - reflexivity.
    - cbn [stats_of avg_throughput_mbps mean_of map].
      replace (Qeq_bool 0 0) with true by reflexivity. cbn [negb].
      rewrite andb_false_r. reflexivity. }
  split; [exact H|].
  intros iterations packet_size_kb w w' Hi. apply H. left.
  unfold run_simulation. replace (Z.to_nat iterations) with 0%nat by lia.
  reflexivity.
Qed.

(** The X17 theorem on a single traditional record. *)
Lemma report_needs_both_families_witness :
  fst (generate_report [traditional_record] sample_world)
  = Raise ZeroDivisionError.
Proof.
  apply (proj1 report_needs_both_families). right. reflexivity.
Defined.

(* ===================================================================== *)
(** ** Properties of the cost-benefit analysis                            *)
(* ===================================================================== *)

Import CostBenefit.

(** The two factors of an algorithm name. *)
Definition cost_factor_of (crypto_type : string) : Q :=
  default 1.0 (cost_factors !! crypto_type).

Definition benefit_factor_of (crypto_type : string) : Q :=
  default 0.5 (benefit_factors !! crypto_type).

(** The multiplier of every organization size is positive. *)
Lemma multiplier_positive (organization_size : string) :
  0 < multiplier (CostBenefitAnalyzer_init organization_size).
Proof.
  cbn [multiplier CostBenefitAnalyzer_init].
  destruct (size_multipliers !! organization_size) as [m|] eqn:E; simpl;
    [|reflexivity].
  unfold size_multipliers in E. apply elem_of_list_to_map_2 in E.
  repeat (apply elem_of_cons in E; destruct E as [E|E];
          [inversion E; subst; reflexivity|]).
  apply elem_of_nil in E. destruct E.
Qed.

(** The factors of a name: those of [Traditional], or a pair for which the
    first year already pays. *)
Lemma factors_of_name (crypto_type : string) :
  (crypto_type = "Traditional"
   /\ cost_factor_of crypto_type = 0.0 /\ benefit_factor_of crypto_type = 0.1)
  \/ (crypto_type <> "Traditional"
      /\ 0 < cost_factor_of crypto_type
      /\ 215 * cost_factor_of crypto_type
         < 1127.5 * benefit_factor_of crypto_type).
Proof.
  unfold cost_factor_of, benefit_factor_of, cost_factors, benefit_factors.
  destruct (decide (crypto_type = "Traditional")) as [->|Ht];
    [left; repeat split; reflexivity|right].
  split; [exact Ht|]. simpl.
  destruct (decide (crypto_type = "Kyber-512")) as [->|H1];
    [split; reflexivity|].
  destruct (decide (crypto_type = "Kyber-768")) as [->|H2];
    [split; reflexivity|].
  destruct (decide (crypto_type = "Kyber-1024")) as [->|H3];
    [split; reflexivity|].
  destruct (decide (crypto_type = "Dilithium-2")) as [->|H4];
    [split; reflexivity|].
  destruct (decide (crypto_type = "Dilithium-3")) as [->|H5];
    [split; reflexivity|].
  cbn [list_to_map foldr fst snd].
  rewrite !lookup_insert_ne by congruence. rewrite lookup_empty.
  split; reflexivity.
Qed.

(** The totals of the two loops, for any factors. *)
Lemma implementation_costs_total (self : CostBenefitAnalyzer)
    (crypto_type : string) :
  total (calculate_implementation_costs self crypto_type)
  == 215000 * cost_factor_of crypto_type * multiplier self
  /\ annual_maintenance (calculate_implementation_costs self crypto_type)
     == 32250 * cost_factor_of crypto_type * multiplier self.
Proof.
  unfold calculate_implementation_costs. fold (cost_factor_of crypto_type).
  cbn [add_costs base_costs total annual_maintenance]. split; ring.
Qed.

Lemma benefits_total (self : CostBenefitAnalyzer) (crypto_type : string) :
  total_5_years (calculate_benefits self crypto_type 5)
  == 6662500 * benefit_factor_of crypto_type * multiplier self
  /\ map year (yearly (calculate_benefits self crypto_type 5))
     = [1; 2; 3; 4; 5]%Z
  /\ exists first rest,
       yearly (calculate_benefits self crypto_type 5) = first :: rest
       /\ year first = 1%Z
       /\ cumulative_benefit first
          == 1127500 * benefit_factor_of crypto_type * multiplier self.
Proof.
  unfold calculate_benefits. fold (benefit_factor_of crypto_type).
  change (range 1 (5 + 1)) with [1; 2; 3; 4; 5]%Z.
  cbn [add_years add_benefits base_benefits total_5_years yearly app map
       year].
  split; [ring|]. split; [reflexivity|].
  eexists. eexists. split; [reflexivity|].
  cbn [year cumulative_benefit]. split; [reflexivity|ring].
Qed.

(** X18.  The return on investment of [Traditional].  The table of cost
    factors lists [Traditional] with a factor of 0.0, so its investment is
    zero and [calculate_roi] raises [ZeroDivisionError] for it, whatever the
    organization. *)
Theorem traditional_roi_raises (self : CostBenefitAnalyzer) :
  total (calculate_implementation_costs self "Traditional") == 0
  /\ calculate_roi self "Traditional" = Raise ZeroDivisionError.
Proof.
  destruct (implementation_costs_total self "Traditional") as [Ht _].
  assert (H0 : total (calculate_implementation_costs self "Traditional") == 0).
  { rewrite Ht. change (cost_factor_of "Traditional") with 0.0. ring. }
  split; [exact H0|].
  unfold calculate_roi, truediv. rewrite (Qeq_bool_zero _ H0). reflexivity.
Qed.

Lemma roi_run (self : CostBenefitAnalyzer) (crypto_type : string) :
  0 < multiplier self -> crypto_type <> "Traditional" ->
  exists r,
    calculate_roi self crypto_type = Ok r
    /\ roi_percentage r
       == (6662.5 * benefit_factor_of crypto_type
           / (215 * cost_factor_of crypto_type) - 1.75) * 100
    /\ 100 < roi_percentage r
    /\ recommendation r
       = "Altamente recomendado - Excelente retorno de inversión"
    /\ payback_period_years r = Some 1%Z
    /\ 0 < initial_investment r
    /\ net_benefit r == total_benefits_5y r - total_costs_5y r.
Proof.
  intros Hm Hname.
  destruct (factors_of_name crypto_type) as [[Ht _]|(_ & Hcf & Hbf)];
    [contradiction|].
  destruct (implementation_costs_total self crypto_type) as [Htotal Hmaint].
  destruct (benefits_total self crypto_type)
    as (Hben & _ & first & rest & Hyearly & Hyear & Hcum).
  unfold calculate_roi, truediv.
  set (costs := calculate_implementation_costs self crypto_type) in *.
  set (benefits := calculate_benefits self crypto_type 5) in *.
  set (cf := cost_factor_of crypto_type) in *.
  set (bf := benefit_factor_of crypto_type) in *.
  set (m := multiplier self) in *.
  assert (Hcm : 0 < cf * m) by nra.
  assert (Hbm : 215 * (cf * m) < 1127.5 * (bf * m)) by nra.
  assert (Hinv : 0 < total costs) by (rewrite Htotal; nra).
  rewrite (Qeq_bool_nonzero (total costs)) by lra.
  cbn [rbind]. eexists. split; [reflexivity|].
  cbn [roi_percentage recommendation payback_period_years initial_investment
       net_benefit total_benefits_5y total_costs_5y].
  assert (Hroi : (total_5_years benefits
                  - (total costs + annual_maintenance costs * 5))
                 / total costs * 100
                 == (6662.5 * bf / (215 * cf) - 1.75) * 100).
  { rewrite Hben, Htotal, Hmaint. field. split; lra. }
  assert (Hhigh : 100 < (total_5_years benefits
                         - (total costs + annual_maintenance costs * 5))
                        / total costs * 100).
  { assert (Hq : 2 < (total_5_years benefits
                      - (total costs + annual_maintenance costs * 5))
                     / total costs).
    { apply Qlt_shift_div_l; [exact Hinv|].
      rewrite Hben, Htotal, Hmaint. nra. }
    lra. }
  split; [exact Hroi|]. split; [exact Hhigh|].
  split.
  { unfold _get_roi_recommendation.
    rewrite (proj2 (Qltb_lt _ _) Hhigh). reflexivity. }
  split.
  { rewrite Hyearly. cbn [payback].
    assert (Hle : Qle_bool (total costs) (cumulative_benefit first) = true).
    { apply Qle_bool_iff. rewrite Htotal, Hcum. nra. }
    rewrite Hle, Hyear. reflexivity. }
  split; [exact Hinv|ring].
Qed.

(** X19.  The return on investment of every other name.  For any
    organization size and any algorithm name but [Traditional],
    [calculate_roi] returns; the return does not depend on the size of the
    organization, it is above 100 percent, so the recommendation is always
    the best one, and the payback period is always the first year. *)
Theorem roi_recommendation_is_constant (organization_size : string)
    (crypto_type : string) :
  crypto_type <> "Traditional" ->
  exists r,
    calculate_roi (CostBenefitAnalyzer_init organization_size) crypto_type
    = Ok r
    /\ roi_percentage r
       == (6662.5 * benefit_factor_of crypto_type
           / (215 * cost_factor_of crypto_type) - 1.75) * 100
    /\ 100 < roi_percentage r
    /\ recommendation r
       = "Altamente recomendado - Excelente retorno de inversión"
    /\ payback_period_years r = Some 1%Z
    /\ 0 < initial_investment r
    /\ net_benefit r == total_benefits_5y r - total_costs_5y r.
Proof.
  intros Hname. apply roi_run; [apply multiplier_positive|exact Hname].
Qed.

(** The X19 theorem on a large organization and Kyber-768. *)
Lemma roi_recommendation_is_constant_witness :
  exists r,
    calculate_roi (CostBenefitAnalyzer_init "large") "Kyber-768" = Ok r
    /\ payback_period_years r = Some 1%Z.
Proof.
  destruct (roi_recommendation_is_constant "large" "Kyber-768")
    as (r & Hr & _ & _ & _ & Hp & _); [discriminate|].
  exists r. split; assumption.
Defined.
